(** * SpeedDating: the evaluation harness and its nearest-neighbour classifier

    A shallow embedding of [evaluation_analysis.py] and of the classifier it
    imports from the module [classification].

    - Numbers are exact rationals ([Q]); the Euclidean distance itself is the
      real number [sqrt] of a rational sum of squares.
    - Exceptions are an explicit result type; prints, plots and calls into
      scikit-learn are events appended to the trace of a world that is threaded
      through every function of the harness.
    - scikit-learn's estimators and metrics are the fields of a class, which
      every function of the harness takes as a parameter.
    - The calls of matplotlib behind the silhouette and the ROC plot, and
      the typed table the script reads from the file, are spelled out
      beside the harness, for the properties that are about them. *)

From Stdlib Require Import List Bool Arith ZArith QArith Qreals Reals Lia Lra.
From Stdlib Require Import String Permutation Sorted.
Import ListNotations.

Local Open Scope Z_scope.

(** ** Exceptions *)

Inductive exn : Type :=
| DataShapeError
| NotFittedError
| InvalidKError
| KeyError
| IndexError
| ValueError
| ZeroDivisionError.

Inductive result (A : Type) : Type :=
| Ok (a : A)
| Raise (e : exn).

Arguments Ok {A} a.
Arguments Raise {A} e.

Definition vector : Type := list Q.
Definition table : Type := list vector.

(** ** The classifier *)

Module KNN.

(** Modelled from the spec: the module [classification] (class
    [KNNClassifier], its [fit] and [predict]) is imported by
    [evaluation_analysis.py] and is not among the sources.  The definitions of
    this module follow sections 3, 4.1 and 7 of the specification. *)
Record NeighborCandidate : Type := {
  cand_index : nat;
  cand_sqdist : Q
}.

(** Modelled from the spec: the sum of squared per-feature differences, every
    column with the same weight. *)
Fixpoint sq_dist (a b : vector) : Q :=
  match a, b with
  | x :: a', y :: b' => ((x - y) * (x - y) + sq_dist a' b')%Q
  | _, _ => 0%Q
  end.

(** Modelled from the spec: the Euclidean distance, the square root of
    [sq_dist]. *)
Definition euclidean_distance (a b : vector) : R :=
  sqrt (Q2R (sq_dist a b)).

(** Modelled from the spec: the distance a candidate is paired with.  The
    candidate stores its square, which is rational, and ranking compares the
    squares; that orders non-negative squares as [sqrt] orders the
    distances ([sq_before_cand_before]). *)
Definition cand_dist (c : NeighborCandidate) : R :=
  sqrt (Q2R (cand_sqdist c)).

(** Modelled from the spec: one candidate per stored training row, in
    training-row order, numbered from [i]. *)
Fixpoint candidates_from (i : nat) (q : vector) (X : table) : list NeighborCandidate :=
  match X with
  | [] => []
  | row :: X' =>
      {| cand_index := i; cand_sqdist := sq_dist q row |} :: candidates_from (S i) q X'
  end.

(** Modelled from the spec: the distance from the query to every stored
    training row. *)
Definition candidates (q : vector) (X : table) : list NeighborCandidate :=
  candidates_from 0 q X.

(** Modelled from the spec: ascending distance. *)
Definition cand_leb (c d : NeighborCandidate) : bool :=
  Qle_bool (cand_sqdist c) (cand_sqdist d).

(** Modelled from the spec: ranking by ascending distance with a stable sort.
    [insert_cand c l] puts [c], which stood before every element of [l] in the
    input, in front of the first element that is not strictly nearer. *)
Fixpoint insert_cand (c : NeighborCandidate) (l : list NeighborCandidate) : list NeighborCandidate :=
  match l with
  | [] => [c]
  | d :: l' => if cand_leb c d then c :: d :: l' else d :: insert_cand c l'
  end.

(** Modelled from the spec: all training rows ranked, an insertion sort
    from the last row to the first. *)
Definition rank (l : list NeighborCandidate) : list NeighborCandidate :=
  fold_right insert_cand [] l.

(** Modelled from the spec: the [k] rows with smallest distance. *)
Definition select (k : Z) (q : vector) (X : table) : list NeighborCandidate :=
  firstn (Z.to_nat k) (rank (candidates q X)).

Section Classifier.

Variable L : Type.
Variable leqb : L -> L -> bool.

(** Modelled from the spec: the fitted state, features and labels one per
    training observation. *)
Record TrainingSet : Type := {
  features : table;
  labels : list L
}.

(** Modelled from the spec: an instance is unfitted ([None]) or holds a
    training set; there is no other state. *)
Definition KNNClassifier : Type := option TrainingSet.

(** Modelled from the spec: constructed with no configuration, unfitted. *)
Definition new : KNNClassifier := None.

(** Modelled from the spec: [fit] stores rows and labels verbatim, or fails
    when the row counts differ.  A failed call leaves the instance as it
    was: [Raise] carries no new state. *)
Definition fit (self : KNNClassifier) (X : table) (y : list L) : result KNNClassifier :=
  if Nat.eqb (List.length X) (List.length y)
  then Ok (Some {| features := X; labels := y |})
  else Raise DataShapeError.

(** Modelled from the spec: the instance after a call of [fit], whether it
    succeeded or raised. *)
Definition after_fit (self : KNNClassifier) (X : table) (y : list L) : KNNClassifier :=
  match fit self X y with
  | Ok self' => self'
  | Raise _ => self
  end.

(** Modelled from the spec: the labels of the selected rows, nearest first. *)
Fixpoint neighbor_labels (y : list L) (cs : list NeighborCandidate) : list L :=
  match cs with
  | [] => []
  | c :: cs' =>
      match nth_error y (cand_index c) with
      | Some l => l :: neighbor_labels y cs'
      | None => neighbor_labels y cs'
      end
  end.

(** Modelled from the spec: the number of votes for a label. *)
Fixpoint count (l : L) (votes : list L) : nat :=
  match votes with
  | [] => 0
  | x :: r => ((if leqb l x then 1 else 0) + count l r)%nat
  end.

(** Modelled from the spec: the mode of the selected labels; among labels
    with equal counts the one whose group holds the nearest row.  The votes
    are walked from the nearest to the farthest and the label kept so far
    is replaced only by one with strictly more votes. *)
Fixpoint vote_from (votes : list L) (best : L) (rest : list L) : L :=
  match rest with
  | [] => best
  | x :: r =>
      if Nat.ltb (count best votes) (count x votes)
      then vote_from votes x r
      else vote_from votes best r
  end.

(** Modelled from the spec: the majority label of a non-empty list of votes. *)
Definition majority (votes : list L) : option L :=
  match votes with
  | [] => None
  | x :: r => Some (vote_from votes x r)
  end.

(** Modelled from the spec: the query has the dimensionality of the
    training rows. *)
Definition same_width (q : vector) (X : table) : bool :=
  forallb (fun row => Nat.eqb (List.length row) (List.length q)) X.

(** Modelled from the spec: [predict].  The checks come in the order of
    section 4.1 (fitted, then [k]), the dimensionality check of section 7
    after them.  The last [Raise] is never reached: a valid [k] selects at
    least one row ([predict_total]). *)
Definition predict (self : KNNClassifier) (q : vector) (k : Z) : result L :=
  match self with
  | None => Raise NotFittedError
  | Some ts =>
      if (k <=? 0) || (Z.of_nat (List.length (features ts)) <? k)
      then Raise InvalidKError
      else if negb (same_width q (features ts))
      then Raise DataShapeError
      else match majority (neighbor_labels (labels ts) (select k q (features ts))) with
           | Some l => Ok l
           | None => Raise InvalidKError
           end
  end.

End Classifier.

Arguments features {L} _.
Arguments labels {L} _.
Arguments fit {L} self X y.
Arguments after_fit {L} self X y.
Arguments neighbor_labels {L} y cs.
Arguments count {L} leqb l votes.
Arguments vote_from {L} leqb votes best rest.
Arguments majority {L} leqb votes.
Arguments predict {L} leqb self q k.

End KNN.

(** ** Tables with named columns

    A pandas [DataFrame] is its column names and its rows; a [Series] is its
    values.  Positions, not index labels, address rows ([iloc], masks). *)

Record DataFrame : Type := {
  columns : list string;
  rows : table
}.

Definition Series : Type := list Q.

(** [df.shape[0]] *)
Definition shape0 (df : DataFrame) : nat := List.length (rows df).

Fixpoint column_index (name : string) (cols : list string) : option nat :=
  match cols with
  | [] => None
  | c :: cols' =>
      if String.eqb name c then Some 0%nat
      else option_map S (column_index name cols')
  end.

(** [df[name]] *)
Definition getitem (df : DataFrame) (name : string) : result Series :=
  match column_index name (columns df) with
  | Some j => Ok (map (fun row => nth j row 0%Q) (rows df))
  | None => Raise KeyError
  end.

Fixpoint drop_cells {A : Type} (name : string) (cols : list string) (cells : list A) : list A :=
  match cols, cells with
  | c :: cols', x :: cells' =>
      if String.eqb name c then drop_cells name cols' cells'
      else x :: drop_cells name cols' cells'
  | _, _ => []
  end.

(** [df.drop([name], axis=1)] *)
Definition drop (df : DataFrame) (name : string) : result DataFrame :=
  match column_index name (columns df) with
  | Some _ =>
      Ok {| columns := drop_cells name (columns df) (columns df);
            rows := map (drop_cells name (columns df)) (rows df) |}
  | None => Raise KeyError
  end.

(** [s.iloc[index]] for a list of positions. *)
Fixpoint iloc {A : Type} (l : list A) (index : list nat) : result (list A) :=
  match index with
  | [] => Ok []
  | i :: index' =>
      match nth_error l i with
      | None => Raise IndexError
      | Some x =>
          match iloc l index' with
          | Ok xs => Ok (x :: xs)
          | Raise e => Raise e
          end
      end
  end.

Definition df_iloc (df : DataFrame) (index : list nat) : result DataFrame :=
  match iloc (rows df) index with
  | Ok r => Ok {| columns := columns df; rows := r |}
  | Raise e => Raise e
  end.

Fixpoint mask_rows {A : Type} (l : list A) (mask : list bool) : list A :=
  match l, mask with
  | x :: l', b :: mask' => if b then x :: mask_rows l' mask' else mask_rows l' mask'
  | _, _ => []
  end.

(** [df[mask]] for a boolean Series. *)
Definition df_where (df : DataFrame) (mask : list bool) : DataFrame :=
  {| columns := columns df; rows := mask_rows (rows df) mask |}.

(** [pd.DataFrame(array, columns=cols)] *)
Definition mk_DataFrame (array : table) (cols : list string) : result DataFrame :=
  if forallb (fun row => Nat.eqb (List.length row) (List.length cols)) array
  then Ok {| columns := cols; rows := array |}
  else Raise ValueError.

(** [df[name] = values] for a label [name] the table does not have yet: a
    new last column, one value per row. *)
Definition setitem (df : DataFrame) (name : string) (values : Series) : result DataFrame :=
  if Nat.eqb (List.length values) (List.length (rows df))
  then Ok {| columns := columns df ++ [name];
             rows := map (fun p => fst p ++ [snd p]) (combine (rows df) values) |}
  else Raise ValueError.

(** What a library call that checks its input gives the caller: the value,
    or [ValueError]. *)
Definition accepted {A : Type} (r : option A) : result A :=
  match r with
  | Some a => Ok a
  | None => Raise ValueError
  end.

Definition Qlt_bool (a b : Q) : bool := negb (Qle_bool b a).

Fixpoint Qsum (l : list Q) : Q :=
  match l with
  | [] => 0%Q
  | x :: l' => (x + Qsum l')%Q
  end.

(** ** scikit-learn

    The estimators and metrics the harness calls.  A randomized one takes the
    generator it draws from and returns it advanced.  [KMeans.fit],
    [PCA.fit_transform] and [silhouette_score] check their input and raise
    [ValueError] on a table they refuse (fewer rows than clusters; fewer rows
    or columns than components; a number of distinct labels that is not
    between 2 and the number of samples less one): they return [None]
    then. *)

Class Sklearn : Type := {
  RandomState : Type;
  seed_rng : Z -> RandomState;
  KFold_split : nat -> bool -> nat -> RandomState -> list (list nat * list nat) * RandomState;
  train_test_indices : Q -> nat -> RandomState -> (list nat * list nat) * RandomState;
  ScalerStats : Type;
  scaler_fit : table -> ScalerStats;
  scaler_transform : ScalerStats -> table -> table;
  KMeansModel : Type;
  kmeans_fit : nat -> table -> RandomState -> option KMeansModel * RandomState;
  kmeans_labels : KMeansModel -> list nat;
  kmeans_predict : KMeansModel -> table -> list nat;
  pca_fit_transform : nat -> table -> RandomState -> option table * RandomState;
  silhouette_score : table -> list nat -> option Q;
  accuracy_score : Series -> Series -> Q;
  confusion_matrix : Series -> Series -> list (list nat);
  classification_report : Series -> Series -> string;
  roc_curve : Series -> Series -> list Q * list Q * list Q;
  roc_auc_score : Series -> Series -> Q
}.

(** ** The harness *)

Section Harness.

Context {SK : Sklearn}.

Inductive PrintValue : Type :=
| PNumber (q : Q)
| PMatrix (m : list (list nat))
| PText (s : string).

(** What a run does to the outside: calls into scikit-learn and into the
    classifier, with their arguments, plots and prints, in order.  [Enter]
    marks a call of one of the two analyses. *)
Inductive Event : Type :=
| Enter (fn : string) (data : DataFrame) (label : string)
| CallScalerNew (sid : nat)
| CallFitTransform (sid : nat) (X : table)
| CallKMeans (n_clusters : nat) (random_state : option Z) (data : table)
| CallPCA (n_components : nat) (random_state : option Z) (data : table)
| CallSilhouetteScore (data : table) (cluster_labels : list nat)
| CallKFold (n_splits : nat) (shuffle : bool) (random_state : option Z) (n_samples : nat)
| CallTrainTestSplit (test_size : Q) (random_state : option Z) (n_samples : nat)
| CallKnnNew (kid : nat)
| CallKnnFit (kid : nat) (X : DataFrame) (y : Series)
| CallKnnPredict (kid : nat) (query : DataFrame) (k : Z)
| CallAccuracyScore (y_true y_pred : Series)
| CallConfusionMatrix (y_true y_pred : Series)
| CallClassificationReport (y_true y_pred : Series)
| CallRocCurve (y_true y_score : Series)
| CallRocAucScore (y_true y_score : Series)
| PlotSilhouette (n_clusters : nat) (cluster_labels : list nat) (silhouette_avg : Q)
| PlotScatter (n_clusters : nat) (cluster_labels : list nat) (pca_data : DataFrame)
| PlotRoc (fpr tpr : list Q) (label : string)
| Show (title : string)
| Print (text : string) (value : PrintValue).

(** The state a run threads: numpy's global generator, the counter that
    names new objects, and the events so far, oldest first. *)
Record World : Type := {
  ambient : RandomState;
  next_id : nat;
  trace : list Event
}.

Definition M (A : Type) : Type := World -> World * result A.

Definition ret (A : Type) (a : A) : M A := fun w => (w, Ok a).

Definition raise (A : Type) (e : exn) : M A := fun w => (w, Raise e).

Definition bind (A B : Type) (m : M A) (f : A -> M B) : M B :=
  fun w =>
    match m w with
    | (w', Ok a) => f a w'
    | (w', Raise e) => (w', Raise e)
    end.

Definition lift (A : Type) (r : result A) : M A := fun w => (w, r).

Definition emit (e : Event) : M unit :=
  fun w => ({| ambient := ambient w; next_id := next_id w; trace := trace w ++ [e] |}, Ok tt).

Definition fresh : M nat :=
  fun w => ({| ambient := ambient w; next_id := S (next_id w); trace := trace w |},
            Ok (next_id w)).

(** scikit-learn's [check_random_state]: an integer seeds a generator of its
    own, [None] draws from, and advances, the global one. *)
Definition with_random_state (A : Type) (random_state : option Z)
    (f : RandomState -> A * RandomState) : M A :=
  fun w =>
    match random_state with
    | Some seed => (w, Ok (fst (f (seed_rng seed))))
    | None =>
        let (a, g) := f (ambient w) in
        ({| ambient := g; next_id := next_id w; trace := trace w |}, Ok a)
    end.

End Harness.

Arguments ret {SK A} a.
Arguments raise {SK A} e.
Arguments bind {SK A B} m f.
Arguments lift {SK A} r.
Arguments with_random_state {SK A} random_state f.

Declare Scope harness_scope.
Delimit Scope harness_scope with harness.
Notation "x <- m ;; k" := (bind m (fun x => k))
  (at level 61, m at next level, right associativity) : harness_scope.
Notation "' pat <- m ;; k" := (bind m (fun x => match x with pat => k end))
  (at level 61, pat pattern, m at next level, right associativity) : harness_scope.
Notation "m ;; k" := (bind m (fun _ => k))
  (at level 61, right associativity) : harness_scope.

Section HarnessCode.

Context {SK : Sklearn}.

Local Open Scope harness_scope.
Local Open Scope string_scope.

(** A [for] loop over a list that carries the variables it assigns. *)
Fixpoint for_each {A S : Type} (xs : list A) (body : A -> S -> M S) (s : S) : M S :=
  match xs with
  | [] => ret s
  | x :: xs' => s' <- body x s ;; for_each xs' body s'
  end.

(** A list comprehension, [[f x for x in xs]]. *)
Fixpoint comprehension {A B : Type} (f : A -> M B) (xs : list A) : M (list B) :=
  match xs with
  | [] => ret []
  | x :: xs' => y <- f x ;; ys <- comprehension f xs' ;; ret (y :: ys)
  end.

(** *** Objects *)

(** A [StandardScaler] object: its identity and the statistics it holds. *)
Record StandardScaler : Type := {
  scaler_id : nat;
  scaler_stats : option ScalerStats
}.

(** Modelled from the spec: an instance of [classification.KNNClassifier],
    its identity and its state. *)
Record KNNClassifier : Type := {
  knn_id : nat;
  knn_state : KNN.KNNClassifier Q
}.

(** [StandardScaler()] *)
Definition StandardScaler_new : M StandardScaler :=
  sid <- fresh ;;
  emit (CallScalerNew sid) ;;
  ret {| scaler_id := sid; scaler_stats := None |}.

(** [scaler.fit_transform(X)]: the statistics of [X] replace those the
    scaler held, and [X] is transformed with them. *)
Definition fit_transform (scaler : StandardScaler) (X : table) : M (StandardScaler * table) :=
  emit (CallFitTransform (scaler_id scaler) X) ;;
  ret ({| scaler_id := scaler_id scaler; scaler_stats := Some (scaler_fit X) |},
       scaler_transform (scaler_fit X) X).

(** Modelled from the spec: [classification.KNNClassifier()], a new unfitted
    instance. *)
Definition KNNClassifier_new : M KNNClassifier :=
  kid <- fresh ;;
  emit (CallKnnNew kid) ;;
  ret {| knn_id := kid; knn_state := KNN.new Q |}.

(** Modelled from the spec: [knn.fit(X, y)] on a DataFrame and a Series;
    the rows of the table are the feature vectors. *)
Definition knn_fit (knn : KNNClassifier) (X : DataFrame) (y : Series) : M KNNClassifier :=
  emit (CallKnnFit (knn_id knn) X y) ;;
  state <- lift (KNN.fit (knn_state knn) (rows X) y) ;;
  ret {| knn_id := knn_id knn; knn_state := state |}.

(** Modelled from the spec: [knn.predict(query, k)] on a DataFrame of one
    row, the query vector. *)
Definition knn_predict (knn : KNNClassifier) (query : DataFrame) (k : Z) : M Q :=
  emit (CallKnnPredict (knn_id knn) query k) ;;
  match rows query with
  | [q] => lift (KNN.predict Qeq_bool (knn_state knn) q k)
  | _ => raise DataShapeError
  end.

(** *** Clustering *)

Definition trained_clustering_model (data : table) (n_clusters : nat) : M KMeansModel :=
  emit (CallKMeans n_clusters (Some 42) data) ;;
  kmeans <- with_random_state (Some 42) (kmeans_fit n_clusters data) ;;
  lift (accepted kmeans).

(** [silhouette_score(data, cluster_labels)] *)
Definition call_silhouette_score (data : table) (cluster_labels : list nat) : M Q :=
  emit (CallSilhouetteScore data cluster_labels) ;;
  lift (accepted (silhouette_score data cluster_labels)).

(** [series.loc[key] = value] on a Series indexed by integers: the entry of
    [key] is overwritten, or appended. *)
Fixpoint loc_set (series : list (nat * Q)) (key : nat) (value : Q) : list (nat * Q) :=
  match series with
  | [] => [(key, value)]
  | (i, v) :: series' =>
      if Nat.eqb i key then (i, value) :: series'
      else (i, v) :: loc_set series' key value
  end.

(** The index of the first maximum of [best :: rest]: a later entry takes
    over only when it is strictly greater. *)
Fixpoint idxmax_from (best : nat * Q) (rest : list (nat * Q)) : nat :=
  match rest with
  | [] => fst best
  | p :: rest' =>
      if Qlt_bool (snd best) (snd p) then idxmax_from p rest'
      else idxmax_from best rest'
  end.

(** [series.idxmax()]: the index of the first occurrence of the maximum. *)
Definition idxmax (series : list (nat * Q)) : result nat :=
  match series with
  | [] => Raise ValueError
  | p :: rest => Ok (idxmax_from p rest)
  end.

(** [range(2, 30)] *)
Definition range_n_clusters : list nat := seq 2 28.

Definition tune_clustering_hyperparameter (data : table) : M nat :=
  silhouette_avg <-
    for_each range_n_clusters
      (fun n_clusters silhouette_avg =>
         kmeans <- trained_clustering_model data n_clusters ;;
         score <- call_silhouette_score data (kmeans_labels kmeans) ;;
         ret (loc_set silhouette_avg n_clusters score))
      [] ;;
  lift (idxmax silhouette_avg).

(** The silhouette plot, as one event. *)
Definition set_silhouette_subplot (model : KMeansModel) (data : table) (n_clusters : nat)
    (cluster_labels : list nat) (silhouette_avg : Q) : M unit :=
  emit (PlotSilhouette n_clusters cluster_labels silhouette_avg).

(** The scatter plot of the two principal components.  [PCA] is
    constructed without [random_state]: what its solver draws, it draws
    from the global generator.  The calls on the subplot are one event,
    with the table that is plotted. *)
Definition set_scatter_subplot (model : KMeansModel) (train_data : table) (n_clusters : nat)
    (cluster_labels : list nat) : M unit :=
  emit (CallPCA 2 None train_data) ;;
  projected <- with_random_state None (pca_fit_transform 2 train_data) ;;
  projected <- lift (accepted projected) ;;
  pca_data <- lift (mk_DataFrame projected ["PC1"; "PC2"]) ;;
  pca_data <- lift (setitem pca_data "cluster"
                            (map (fun l => inject_Z (Z.of_nat l)) cluster_labels)) ;;
  emit (PlotScatter n_clusters cluster_labels pca_data).

Definition visualize_clustering (model : KMeansModel) (data : table) (n_clusters : nat)
    (silhouette_avg : Q) (label : string) : M unit :=
  let cluster_labels := kmeans_predict model data in
  set_silhouette_subplot model data n_clusters cluster_labels silhouette_avg ;;
  set_scatter_subplot model data n_clusters cluster_labels ;;
  emit (Show ("For " ++ label ++ " data")).

Definition evaluate_analyze_clustering (data : DataFrame) (label : string) : M unit :=
  emit (Enter "evaluate_analyze_clustering" data label) ;;
  scaler <- StandardScaler_new ;;
  '(_, data_scaled) <- fit_transform scaler (rows data) ;;
  k <- tune_clustering_hyperparameter data_scaled ;;
  clustering_model <- trained_clustering_model data_scaled k ;;
  score <- call_silhouette_score data_scaled (kmeans_labels clustering_model) ;;
  visualize_clustering clustering_model data_scaled k score label.

(** *** Nearest neighbours *)

(** [[knn.predict(pd.DataFrame([X_test_scaled[i]], columns=cols), n_neighbors)
      for i in range(n)]] *)
Definition predict_rows (knn : KNNClassifier) (X_test_scaled : table) (cols : list string)
    (n_neighbors : Z) (n : nat) : M (list Q) :=
  comprehension
    (fun i =>
       row <- lift (match nth_error X_test_scaled i with
                    | Some row => Ok row
                    | None => Raise IndexError
                    end) ;;
       query <- lift (mk_DataFrame [row] cols) ;;
       knn_predict knn query n_neighbors)
    (seq 0 n).

(** The body of the loop of [k_fold_cv_knn]. *)
Definition cv_fold (X : DataFrame) (y : Series) (n_neighbors : Z)
    (fold : list nat * list nat) (accuracy : list Q) : M (list Q) :=
  let (train_index, test_index) := fold in
  X_train <- lift (df_iloc X train_index) ;;
  X_test <- lift (df_iloc X test_index) ;;
  y_train <- lift (iloc y train_index) ;;
  y_test <- lift (iloc y test_index) ;;
  scaler <- StandardScaler_new ;;
  '(scaler, X_train_scaled) <- fit_transform scaler (rows X_train) ;;
  '(scaler, X_test_scaled) <- fit_transform scaler (rows X_test) ;;
  knn <- KNNClassifier_new ;;
  train <- lift (mk_DataFrame X_train_scaled (columns X_train)) ;;
  knn <- knn_fit knn train y_train ;;
  y_pred <- predict_rows knn X_test_scaled (columns X_test) n_neighbors (shape0 X_test) ;;
  emit (CallAccuracyScore y_test y_pred) ;;
  ret (accuracy ++ [accuracy_score y_test y_pred])%list.

(** [sum(accuracy) / len(accuracy)].  The sum and the quotient are exact
    here; Python rounds each addition and the division to binary64, so the
    float it returns can differ from this value in the last places. *)
Definition mean (accuracy : list Q) : result Q :=
  match accuracy with
  | [] => Raise ZeroDivisionError
  | _ => Ok (Qsum accuracy / inject_Z (Z.of_nat (List.length accuracy)))%Q
  end.

Definition k_fold_cv_knn (X : DataFrame) (y : Series) (n_neighbors : Z) : M Q :=
  emit (CallKFold 10 true (Some 42) (shape0 X)) ;;
  folds <- with_random_state (Some 42) (KFold_split 10 true (shape0 X)) ;;
  accuracy <- for_each folds (cv_fold X y n_neighbors) [] ;;
  lift (mean accuracy).

Definition confusion_matrix_knn (y_test y_pred : Series) : M (list (list nat) * string) :=
  emit (CallConfusionMatrix y_test y_pred) ;;
  emit (CallClassificationReport y_test y_pred) ;;
  ret (confusion_matrix y_test y_pred, classification_report y_test y_pred).

Definition visualize_roc_curve_knn (y_test y_pred : Series) (label : string) : M unit :=
  emit (CallRocCurve y_test y_pred) ;;
  let '(fpr, tpr, thresholds) := roc_curve y_test y_pred in
  emit (PlotRoc fpr tpr label) ;;
  emit (Show ("ROC curve of " ++ label ++ " data")).

Definition evaluate_analyze_knn (data : DataFrame) (label : string) : M unit :=
  emit (Enter "evaluate_analyze_knn" data label) ;;
  X <- lift (drop data "dec") ;;
  y <- lift (getitem data "dec") ;;
  let n_neighbors := 5 in
  emit (CallTrainTestSplit (3 # 10) (Some 42) (shape0 X)) ;;
  '(train_index, test_index) <-
     with_random_state (Some 42) (train_test_indices (3 # 10) (shape0 X)) ;;
  X_train <- lift (df_iloc X train_index) ;;
  X_test <- lift (df_iloc X test_index) ;;
  y_train <- lift (iloc y train_index) ;;
  y_test <- lift (iloc y test_index) ;;
  scaler <- StandardScaler_new ;;
  '(scaler, X_train_scaled) <- fit_transform scaler (rows X_train) ;;
  '(scaler, X_test_scaled) <- fit_transform scaler (rows X_test) ;;
  knn <- KNNClassifier_new ;;
  train <- lift (mk_DataFrame X_train_scaled (columns X_train)) ;;
  knn <- knn_fit knn train y_train ;;
  y_pred <- predict_rows knn X_test_scaled (columns X_test) n_neighbors (shape0 X_test) ;;
  accuracy <- k_fold_cv_knn X y n_neighbors ;;
  emit (Print ("Average accuracy of " ++ label ++ " data using 10-Fold cross validation: ")
              (PNumber accuracy)) ;;
  '(matrix, report) <- confusion_matrix_knn y_test y_pred ;;
  emit (Print ("Confusion Matrix of " ++ label ++ " data:") (PMatrix matrix)) ;;
  emit (Print ("Classification report of " ++ label ++ " data:") (PText report)) ;;
  visualize_roc_curve_knn y_test y_pred label ;;
  emit (CallRocAucScore y_test y_pred) ;;
  let auc := roc_auc_score y_test y_pred in
  emit (Print ("AUC score of " ++ label ++ " data: ") (PNumber auc)).

(** *** The script

    [preprocessed_data] is the table read from the CSV file; its boolean
    columns are numbers already. *)
Definition script (preprocessed_data : DataFrame) : M unit :=
  evaluate_analyze_clustering preprocessed_data "all" ;;
  evaluate_analyze_knn preprocessed_data "all" ;;
  gender <- lift (getitem preprocessed_data "gender") ;;
  let male_data := df_where preprocessed_data (map (fun v => Qeq_bool v 1) gender) in
  let female_data := df_where preprocessed_data (map (fun v => Qeq_bool v 0) gender) in
  evaluate_analyze_clustering male_data "male" ;;
  evaluate_analyze_clustering female_data "female" ;;
  evaluate_analyze_knn male_data "male" ;;
  evaluate_analyze_knn female_data "female" ;;
  age <- lift (getitem preprocessed_data "age") ;;
  let data_20_to_24 :=
    df_where preprocessed_data (map (fun v => Qle_bool 20 v && Qlt_bool v 25) age) in
  let data_25_to_29 :=
    df_where preprocessed_data (map (fun v => Qle_bool 25 v && Qlt_bool v 30) age) in
  let data_over_30 := df_where preprocessed_data (map (fun v => Qle_bool 30 v) age) in
  evaluate_analyze_clustering data_20_to_24 "age from 20 to 24" ;;
  evaluate_analyze_clustering data_25_to_29 "age from 25 to 29" ;;
  evaluate_analyze_clustering data_25_to_29 "age over 30" ;;
  evaluate_analyze_knn data_20_to_24 "age from 20 to 24" ;;
  evaluate_analyze_knn data_25_to_29 "age from 25 to 29" ;;
  evaluate_analyze_knn data_over_30 "age over 30".

End HarnessCode.

(** ** The silhouette subplot, call by call

    What [set_silhouette_subplot] asks of the subplot it is given, one call
    after the other; the event [PlotSilhouette] stands for these calls. *)

(** A call of a method of a matplotlib [Axes], with the arguments the
    harness computes; styling it passes as constants ([alpha], the colour
    and the style of the line) is left out.  [ax_set_title] carries the two
    numbers the title is formatted from, [ax_fill_betweenx] the argument
    of the colour map. *)
Inductive AxesCall : Type :=
| ax_set_xlim (lo hi : Q)
| ax_set_ylim (lo hi : nat)
| ax_fill_betweenx (y : list nat) (x1 : Q) (x2 : list Q) (color : Q)
| ax_text (x y : Q) (s : nat)
| ax_set_title (n_clusters : nat) (silhouette_avg : Q)
| ax_set_xlabel (s : string)
| ax_set_ylabel (s : string)
| ax_axvline (x : Q)
| ax_set_yticks (ticks : list Q)
| ax_set_xticks (ticks : list Q).

(** [values[mask]] for a boolean array: numpy raises [IndexError] when the
    mask has another length than the array. *)
Definition boolean_index (values : list Q) (mask : list bool) : result (list Q) :=
  if Nat.eqb (List.length mask) (List.length values)
  then Ok (mask_rows values mask)
  else Raise IndexError.

(** [x] put in front of the first element of [l] that is not below it. *)
Fixpoint insert_sorted (x : Q) (l : list Q) : list Q :=
  match l with
  | [] => [x]
  | y :: l' => if Qle_bool x y then x :: y :: l' else y :: insert_sorted x l'
  end.

(** [array.sort()]: ascending. *)
Definition ndarray_sort (l : list Q) : list Q :=
  fold_right insert_sorted [] l.

(** [np.arange(start, stop)] *)
Definition arange (start stop : nat) : list nat :=
  seq start (stop - start).

Section SilhouetteSubplot.

Context {SK : Sklearn}.

(** [sklearn.metrics.silhouette_samples]: one coefficient per sample. *)
Variable silhouette_samples : table -> list nat -> list Q.

Local Open Scope string_scope.

(** The body of the loop of [set_silhouette_subplot] for the cluster [i]:
    the calls it makes and the [y_lower] of the next cluster. *)
Definition silhouette_band (sample_silhouette_values : list Q) (cluster_labels : list nat)
    (n_clusters : nat) (silhouette_avg : Q) (i y_lower : nat) : result (list AxesCall * nat) :=
  match boolean_index sample_silhouette_values (map (fun l => Nat.eqb l i) cluster_labels) with
  | Raise e => Raise e
  | Ok selected =>
      let ith_cluster_silhouette_values := ndarray_sort selected in
      let size_cluster_i := List.length ith_cluster_silhouette_values in
      let y_upper := (y_lower + size_cluster_i)%nat in
      let color := (inject_Z (Z.of_nat i) / inject_Z (Z.of_nat n_clusters))%Q in
      Ok ([ ax_fill_betweenx (arange y_lower y_upper) 0 ith_cluster_silhouette_values color;
            ax_text (- (5 # 100))
                    (inject_Z (Z.of_nat y_lower) + (1 # 2) * inject_Z (Z.of_nat size_cluster_i))
                    i;
            ax_set_title n_clusters silhouette_avg;
            ax_set_xlabel "The silhouette coefficient values";
            ax_set_ylabel "Cluster label";
            ax_axvline silhouette_avg;
            ax_set_yticks [];
            ax_set_xticks [- (2 # 10); 0; 2 # 10; 4 # 10; 6 # 10; 8 # 10; 1]%Q ],
          (y_upper + 10)%nat)
  end.

(** The loop of [set_silhouette_subplot] over the clusters [range]: the
    calls made, and whether the loop ended or raised. *)
Fixpoint silhouette_loop (sample_silhouette_values : list Q) (cluster_labels : list nat)
    (n_clusters : nat) (silhouette_avg : Q) (range : list nat) (y_lower : nat)
    : list AxesCall * result unit :=
  match range with
  | [] => ([], Ok tt)
  | i :: range' =>
      match silhouette_band sample_silhouette_values cluster_labels n_clusters
                            silhouette_avg i y_lower with
      | Raise e => ([], Raise e)
      | Ok (calls, y_lower') =>
          let (calls', r) := silhouette_loop sample_silhouette_values cluster_labels
                                             n_clusters silhouette_avg range' y_lower' in
          ((calls ++ calls')%list, r)
      end
  end.

(** [set_silhouette_subplot], as the calls the subplot receives. *)
Definition set_silhouette_subplot_axes (model : KMeansModel) (data : table) (n_clusters : nat)
    (cluster_labels : list nat) (silhouette_avg : Q) : list AxesCall * result unit :=
  let sample_silhouette_values := silhouette_samples data (kmeans_labels model) in
  let (calls, r) := silhouette_loop sample_silhouette_values cluster_labels n_clusters
                                    silhouette_avg (seq 0 n_clusters) 10 in
  (ax_set_xlim (- (2 # 10)) 1
   :: ax_set_ylim 0 (List.length data + (n_clusters + 1) * 10)
   :: calls, r).

End SilhouetteSubplot.

(** ** The ROC figure, call by call

    What [visualize_roc_curve_knn] asks of [matplotlib.pyplot] once it has
    the curve; the events [PlotRoc] and [Show] stand for these calls. *)


Section RocFigure.

Context {SK : Sklearn}.

Local Open Scope string_scope.


End RocFigure.







(** ** The table as read from the file

    [pd.read_csv] types every column; the script turns the boolean columns
    into integers before the analyses. *)

(** A column with the dtype [read_csv] gave it. *)
Inductive Column : Type :=
| BoolColumn (values : list bool)
| IntColumn (values : list Z)
| FloatColumn (values : list Q)
| ObjectColumn (values : list string).

(** The table read from the file: its columns in order, each under its
    label. *)
Definition CsvFrame : Type := list (string * Column).

(** What [frame[col]] selects: a Series when one column bears the label, a
    DataFrame when several do. *)
Inductive Selection : Type :=
| OneSeries (c : Column)
| SubFrame (cs : list Column).

(** The exceptions of the conversion loop: a label no column bears, and
    [.dtype] asked of a DataFrame. *)
Inductive frame_exn : Type :=
| FrameKeyError
| FrameAttributeError.

(** [frame[col]] *)
Definition frame_getitem (frame : CsvFrame) (col : string) : Selection + frame_exn :=
  match filter (fun p => String.eqb (fst p) col) frame with
  | [] => inr FrameKeyError
  | [p] => inl (OneSeries (snd p))
  | ps => inl (SubFrame (map snd ps))
  end.

(** [frame[col] = c]: every column labelled [col] is replaced, where it
    stands; a new label is appended. *)
Definition frame_setitem (frame : CsvFrame) (col : string) (c : Column) : CsvFrame :=
  if existsb (fun p => String.eqb (fst p) col) frame
  then map (fun p => if String.eqb (fst p) col then (fst p, c) else p) frame
  else (frame ++ [(col, c)])%list.

(** [series.astype(int)] on a boolean Series. *)
Definition astype_int (values : list bool) : Column :=
  IntColumn (map Z.b2z values).

(** The loop over [preprocessed_data.columns]:
    [if frame[col].dtype == 'bool': frame[col] = frame[col].astype(int)]. *)
Fixpoint convert_bool_columns (cols : list string) (frame : CsvFrame) : CsvFrame + frame_exn :=
  match cols with
  | [] => inl frame
  | col :: cols' =>
      match frame_getitem frame col with
      | inr e => inr e
      | inl (SubFrame _) => inr FrameAttributeError
      | inl (OneSeries (BoolColumn values)) =>
          convert_bool_columns cols' (frame_setitem frame col (astype_int values))
      | inl (OneSeries _) => convert_bool_columns cols' frame
      end
  end.

(** The lines of the script between [read_csv] and the first analysis. *)
Definition bool_columns_to_int (preprocessed_data : CsvFrame) : CsvFrame + frame_exn :=
  convert_bool_columns (map fst preprocessed_data) preprocessed_data.

(** ** A small scikit-learn

    Concrete, computable estimators and metrics, used to run the harness on
    examples: folds and splits by position, a scaler that centres every
    column on its mean, clusters by position, and metrics that count.
    [sklearn] accepts every table; [checked_sklearn] refuses what
    scikit-learn refuses. *)

Module Demo.

Definition positions_where (f : nat -> bool) (n : nat) : list nat :=
  filter f (seq 0 n).

Definition KFold_split (n_splits : nat) (shuffle : bool) (n_samples : nat) (g : Z)
    : list (list nat * list nat) * Z :=
  (map (fun j =>
          (positions_where (fun i => negb (Nat.eqb (i mod n_splits) j)) n_samples,
           positions_where (fun i => Nat.eqb (i mod n_splits) j) n_samples))
       (seq 0 n_splits),
   g + 1).

Definition train_test_indices (test_size : Q) (n_samples : nat) (g : Z)
    : (list nat * list nat) * Z :=
  ((positions_where (fun i => negb (Nat.eqb (i mod 3) 0)) n_samples,
    positions_where (fun i => Nat.eqb (i mod 3) 0) n_samples),
   g + 1).

Fixpoint zip_with (f : Q -> Q -> Q) (a b : vector) : vector :=
  match a, b with
  | x :: a', y :: b' => f x y :: zip_with f a' b'
  | _, _ => []
  end.

Definition column_means (X : table) : vector :=
  match X with
  | [] => []
  | row :: X' =>
      map (fun s => Qred (s / inject_Z (Z.of_nat (List.length X))))
          (fold_left (zip_with Qplus) X' row)
  end.

Definition centre (means : vector) (X : table) : table :=
  map (fun row => zip_with (fun x m => Qred (x - m)) row means) X.

Definition kmeans_fit (n_clusters : nat) (data : table) (g : Z)
    : option (nat * list nat) * Z :=
  (Some (n_clusters, map (fun i => (i mod n_clusters)%nat) (seq 0 (List.length data))),
   g + 1).

Definition kmeans_predict (model : nat * list nat) (data : table) : list nat :=
  map (fun i => (i mod fst model)%nat) (seq 0 (List.length data)).

(** The first cells of every row, moved by the state of the generator:
    a solver whose output depends on what it draws. *)
Definition pca_fit_transform (n_components : nat) (data : table) (g : Z)
    : option table * Z :=
  (Some (map (fun row => map (fun x => Qred (x + inject_Z g)) (firstn n_components row))
             data),
   g + 1).

(** Best with four clusters in use. *)
Definition silhouette_score (data : table) (cluster_labels : list nat) : option Q :=
  Some (inject_Z (- Z.abs (Z.of_nat (S (list_max cluster_labels)) - 4))).

Fixpoint agreements (y_true y_pred : Series) : nat :=
  match y_true, y_pred with
  | a :: y_true', b :: y_pred' =>
      ((if Qeq_bool a b then 1 else 0) + agreements y_true' y_pred')%nat
  | _, _ => 0%nat
  end.

Definition accuracy_score (y_true y_pred : Series) : Q :=
  (inject_Z (Z.of_nat (agreements y_true y_pred)) /
   inject_Z (Z.of_nat (List.length y_true)))%Q.

Definition confusion_matrix (y_true y_pred : Series) : list (list nat) :=
  [[agreements y_true y_pred; (List.length y_true - agreements y_true y_pred)%nat]].

Definition sklearn : Sklearn :=
  Build_Sklearn
    Z
    (fun seed : Z => seed)
    KFold_split
    train_test_indices
    vector
    column_means
    centre
    (nat * list nat)
    kmeans_fit
    (fun model : nat * list nat => snd model)
    kmeans_predict
    pca_fit_transform
    silhouette_score
    accuracy_score
    confusion_matrix
    (fun _ _ => "report"%string)
    (fun _ _ => ([0; 1], [0; 1], [1; 0])%Q)
    (fun _ _ => (1 # 2)%Q).

Definition world0 : @World sklearn :=
  @Build_World sklearn 0 0%nat [].

(** How many different labels a list holds. *)
Fixpoint distinct (labels : list nat) : nat :=
  match labels with
  | [] => 0%nat
  | l :: labels' =>
      if existsb (Nat.eqb l) labels' then distinct labels' else S (distinct labels')
  end.

(** The checks of scikit-learn: [KMeans] needs a row per cluster, [PCA] a
    row and a column per component, [silhouette_score] a label per sample
    and between 2 and [n_samples - 1] different labels. *)
Definition checked_kmeans_fit (n_clusters : nat) (data : table) (g : Z)
    : option (nat * list nat) * Z :=
  if (1 <=? n_clusters)%nat && (n_clusters <=? List.length data)%nat
  then kmeans_fit n_clusters data g
  else (None, g).

Definition checked_pca_fit_transform (n_components : nat) (data : table) (g : Z)
    : option table * Z :=
  if (n_components <=? List.length data)%nat
     && forallb (fun row => (n_components <=? List.length row)%nat) data
  then pca_fit_transform n_components data g
  else (None, g).

Definition checked_silhouette_score (data : table) (cluster_labels : list nat) : option Q :=
  if Nat.eqb (List.length cluster_labels) (List.length data)
     && (2 <=? distinct cluster_labels)%nat
     && (distinct cluster_labels <? List.length data)%nat
  then silhouette_score data cluster_labels
  else None.

(** The same library with these checks. *)
Definition checked_sklearn : Sklearn :=
  Build_Sklearn
    Z
    (fun seed : Z => seed)
    KFold_split
    train_test_indices
    vector
    column_means
    centre
    (nat * list nat)
    checked_kmeans_fit
    (fun model : nat * list nat => snd model)
    kmeans_predict
    checked_pca_fit_transform
    checked_silhouette_score
    accuracy_score
    confusion_matrix
    (fun _ _ => "report"%string)
    (fun _ _ => ([0; 1], [0; 1], [1; 0])%Q)
    (fun _ _ => (1 # 2)%Q).

Definition checked_world0 : @World checked_sklearn :=
  @Build_World checked_sklearn 0 0%nat [].

(** Thirty people: gender, age, one rating, and the decision. *)
Definition people : DataFrame := {|
  columns := ["gender"; "age"; "attr"; "dec"]%string;
  rows := [ [1; 20; 3; 0]; [0; 20; 0; 0]; [1; 21; 7; 1]; [0; 21; 4; 0];
            [1; 22; 1; 0]; [0; 22; 8; 1]; [1; 23; 5; 1]; [0; 23; 2; 0];
            [1; 24; 9; 1]; [0; 24; 6; 1]; [1; 25; 3; 0]; [0; 25; 0; 0];
            [1; 26; 7; 1]; [0; 26; 4; 0]; [1; 27; 1; 0]; [0; 27; 8; 1];
            [1; 28; 5; 1]; [0; 28; 2; 0]; [1; 29; 9; 1]; [0; 29; 6; 1];
            [1; 30; 3; 0]; [0; 30; 0; 0]; [1; 31; 7; 1]; [0; 31; 4; 0];
            [1; 32; 1; 0]; [0; 32; 8; 1]; [1; 33; 5; 1]; [0; 33; 2; 0];
            [1; 34; 9; 1]; [0; 34; 6; 1] ]%Q
|}.

(** The features and the labels of [people]. *)
Definition people_X : DataFrame := {|
  columns := ["gender"; "age"; "attr"]%string;
  rows := map (firstn 3) (rows people)
|}.

Definition people_y : Series := map (fun row => nth 3 row 0%Q) (rows people).

End Demo.

(** * The vocabulary of the statements

    What the theorems below speak about: the order a ranking must follow,
    what a run appends to the trace, what a train/test split looks like
    once the harness has worked through it. *)

Section KNN_vocabulary.

Import KNN.

(** The order a stable ascending sort of indexed candidates produces, on the
    stored squares: nearer first, equal distances in training-row order. *)
Definition sq_before (c d : NeighborCandidate) : Prop :=
  (cand_sqdist c < cand_sqdist d)%Q \/
  ((cand_sqdist c == cand_sqdist d)%Q /\ (cand_index c < cand_index d)%nat).

(** The same order on the Euclidean distances. *)
Definition cand_before (c d : NeighborCandidate) : Prop :=
  (cand_dist c < cand_dist d)%R \/
  (cand_dist c = cand_dist d /\ (cand_index c < cand_index d)%nat).

End KNN_vocabulary.

Section KNN_calls.

Import KNN.

Variable L : Type.

(** The instance after a series of calls of [fit]. *)
Definition after_fits (self : KNNClassifier L) (calls : list (table * list L)) : KNNClassifier L :=
  fold_left (fun s c => after_fit s (fst c) (snd c)) calls self.

End KNN_calls.

Section HarnessVocabulary.

Context {SK : Sklearn}.

(** [emits P m Q]: from any world, [m] only appends events that satisfy [P],
    whether it returns or raises, and a value it returns satisfies [Q]. *)
Definition emits {A : Type} (P : Event -> Prop) (m : M A) (Q : A -> Prop) : Prop :=
  forall w : World,
    (exists evs, trace (fst (m w)) = (trace w ++ evs)%list /\ Forall P evs) /\
    (forall a, snd (m w) = Ok a -> Q a).

(** The world [w] with the global generator in the state [g]. *)
Definition with_ambient (g : RandomState) (w : World) : World :=
  {| ambient := g; next_id := next_id w; trace := trace w |}.

(** [insensitive m]: what [m] returns and appends does not depend on the
    state of the global generator, which it leaves as it found it. *)
Definition insensitive {A : Type} (m : M A) : Prop :=
  forall (w : World) (g : RandomState),
    m (with_ambient g w) = (with_ambient g (fst (m w)), snd (m w)).

(** A table that came out of [StandardScaler.fit_transform]: it was
    transformed with the statistics fitted on itself. *)
Definition standardized (X : table) : Prop :=
  exists raw : table, X = scaler_transform (scaler_fit raw) raw.

(** The events the harness emits, each with what holds of its arguments,
    in a run whose labels, the values the classifier is fitted on, all
    satisfy [lbl]. *)
Inductive harness_event (lbl : Q -> Prop) : Event -> Prop :=
| he_enter fn data label : harness_event lbl (Enter fn data label)
| he_scaler_new sid : harness_event lbl (CallScalerNew sid)
| he_fit_transform sid X : harness_event lbl (CallFitTransform sid X)
| he_kmeans n data : harness_event lbl (CallKMeans n (Some 42) data)
| he_pca data : harness_event lbl (CallPCA 2 None data)
| he_silhouette data cl : harness_event lbl (CallSilhouetteScore data cl)
| he_kfold n : harness_event lbl (CallKFold 10 true (Some 42) n)
| he_split n : harness_event lbl (CallTrainTestSplit (3 # 10) (Some 42) n)
| he_knn_new kid : harness_event lbl (CallKnnNew kid)
| he_knn_fit kid X y :
    standardized (rows X) -> harness_event lbl (CallKnnFit kid X y)
| he_knn_predict kid query k X row :
    standardized X -> In row X -> rows query = [row] ->
    harness_event lbl (CallKnnPredict kid query k)
| he_accuracy y_true y_pred :
    Forall lbl y_pred -> harness_event lbl (CallAccuracyScore y_true y_pred)
| he_confusion y_true y_pred :
    Forall lbl y_pred -> harness_event lbl (CallConfusionMatrix y_true y_pred)
| he_report y_true y_pred :
    Forall lbl y_pred -> harness_event lbl (CallClassificationReport y_true y_pred)
| he_roc_curve y_true y_score :
    Forall lbl y_score -> harness_event lbl (CallRocCurve y_true y_score)
| he_roc_auc y_true y_score :
    Forall lbl y_score -> harness_event lbl (CallRocAucScore y_true y_score)
| he_plot_silhouette n cl s : harness_event lbl (PlotSilhouette n cl s)
| he_plot_scatter n cl pca_data : harness_event lbl (PlotScatter n cl pca_data)
| he_plot_roc fpr tpr label : harness_event lbl (PlotRoc fpr tpr label)
| he_show title : harness_event lbl (Show title)
| he_print text value : harness_event lbl (Print text value).

(** An instance of the classifier that is unfitted, or fitted on labels
    that satisfy [lbl]. *)
Definition labels_within (lbl : Q -> Prop) (knn : KNNClassifier) : Prop :=
  forall ts : KNN.TrainingSet Q, knn_state knn = Some ts -> Forall lbl (KNN.labels ts).

(** [extend w k evs]: the world [w] after [k] new objects and the events
    [evs]. *)
Definition extend (w : World) (k : nat) (evs : list Event) : World :=
  {| ambient := ambient w; next_id := (next_id w + k)%nat; trace := (trace w ++ evs)%list |}.

(** The events of the predictions for the queries [qs]. *)
Definition predict_events (kid : nat) (cols : list string) (n_neighbors : Z) (qs : table)
    : list Event :=
  map (fun q => CallKnnPredict kid {| columns := cols; rows := [q] |} n_neighbors) qs.

(** The [i]-th prediction is the classifier's answer on the [i]-th query. *)
Definition predictions_of (state : KNN.KNNClassifier Q) (n_neighbors : Z)
    (qs : table) (y_pred : Series) : Prop :=
  Forall2 (fun q p => KNN.predict Qeq_bool state q n_neighbors = Ok p) qs y_pred.

(** One train/test split as the harness works through it. *)
Record Holdout : Type := {
  h_X_train : DataFrame;
  h_X_test : DataFrame;
  h_y_train : Series;
  h_y_test : Series;
  h_y_pred : Series
}.

(** The training rows, transformed with the statistics of the training rows. *)
Definition scaled_train (h : Holdout) : table :=
  scaler_transform (scaler_fit (rows (h_X_train h))) (rows (h_X_train h)).

(** The test rows, transformed with the statistics of the test rows. *)
Definition scaled_test (h : Holdout) : table :=
  scaler_transform (scaler_fit (rows (h_X_test h))) (rows (h_X_test h)).

(** One query per test row. *)
Definition queries (h : Holdout) : table :=
  firstn (shape0 (h_X_test h)) (scaled_test h).

(** The classifier once fitted on the scaled training rows. *)
Definition fitted (h : Holdout) : KNN.KNNClassifier Q :=
  Some {| KNN.features := scaled_train h; KNN.labels := h_y_train h |}.

(** [h] is the split of [X] and [y] along [fold]: its partitions are the
    rows and labels at the fold's positions, and its predictions are the
    classifier's answers on its queries, in order. *)
Definition holdout_of (X : DataFrame) (y : Series) (n_neighbors : Z)
    (fold : list nat * list nat) (h : Holdout) : Prop :=
  df_iloc X (fst fold) = Ok (h_X_train h) /\
  df_iloc X (snd fold) = Ok (h_X_test h) /\
  iloc y (fst fold) = Ok (h_y_train h) /\
  iloc y (snd fold) = Ok (h_y_test h) /\
  List.length (scaled_train h) = List.length (h_y_train h) /\
  List.length (queries h) = shape0 (h_X_test h) /\
  predictions_of (fitted h) n_neighbors (queries h) (h_y_pred h).

(** What the harness does with one split: a new scaler, fitted and applied
    to the training rows, then fitted again and applied to the test rows; a
    new classifier, fitted once; one prediction per query. *)
Definition holdout_events (id : nat) (n_neighbors : Z) (h : Holdout) : list Event :=
  [ CallScalerNew id;
    CallFitTransform id (rows (h_X_train h));
    CallFitTransform id (rows (h_X_test h));
    CallKnnNew (S id);
    CallKnnFit (S id) {| columns := columns (h_X_train h); rows := scaled_train h |}
               (h_y_train h) ]
  ++ predict_events (S id) (columns (h_X_test h)) n_neighbors (queries h).

(** One fold of the cross-validation: the split, then its accuracy score. *)
Definition fold_events (id : nat) (n_neighbors : Z) (h : Holdout) : list Event :=
  holdout_events id n_neighbors h ++ [CallAccuracyScore (h_y_test h) (h_y_pred h)].

(** The folds one after the other, each with two new objects. *)
Fixpoint cv_events (id : nat) (n_neighbors : Z) (hs : list Holdout) : list Event :=
  match hs with
  | [] => []
  | h :: hs' => fold_events id n_neighbors h ++ cv_events (S (S id)) n_neighbors hs'
  end.

(** The accuracy score of a fold. *)
Definition fold_accuracy (h : Holdout) : Q := accuracy_score (h_y_test h) (h_y_pred h).

(** The folds [KFold(10, shuffle=True, random_state=42)] yields for [n] rows. *)
Definition cv_folds (n : nat) : list (list nat * list nat) :=
  fst (KFold_split 10 true n (seed_rng 42)).

(** What [evaluate_analyze_knn] reports after the predictions. *)
Definition report_events (label : string) (accuracy : Q) (h : Holdout) : list Event :=
  let y_test := h_y_test h in
  let y_pred := h_y_pred h in
  [ Print ("Average accuracy of " ++ label ++ " data using 10-Fold cross validation: ")%string
          (PNumber accuracy);
    CallConfusionMatrix y_test y_pred;
    CallClassificationReport y_test y_pred;
    Print ("Confusion Matrix of " ++ label ++ " data:")%string
          (PMatrix (confusion_matrix y_test y_pred));
    Print ("Classification report of " ++ label ++ " data:")%string
          (PText (classification_report y_test y_pred));
    CallRocCurve y_test y_pred;
    PlotRoc (fst (fst (roc_curve y_test y_pred))) (snd (fst (roc_curve y_test y_pred))) label;
    Show ("ROC curve of " ++ label ++ " data")%string;
    CallRocAucScore y_test y_pred;
    Print ("AUC score of " ++ label ++ " data: ")%string
          (PNumber (roc_auc_score y_test y_pred)) ].

(** The split [train_test_split(test_size=0.3, random_state=42)] makes of [n] rows. *)
Definition holdout_split (n : nat) : list nat * list nat :=
  fst (train_test_indices (3 # 10) n (seed_rng 42)).

(** Every row has one cell per column. *)
Definition rectangular (X : DataFrame) : Prop :=
  Forall (fun row => List.length row = List.length (columns X)) (rows X).

(** [fit_transform] returns a table of the shape of [t]. *)
Definition shape_kept (t : table) : Prop :=
  Forall2 (fun row row' => List.length row' = List.length row)
          t (scaler_transform (scaler_fit t) t).

(** The rows of [X] at the positions [index] that exist. *)
Definition rows_at (X : DataFrame) (index : list nat) : table :=
  flat_map (fun i => match nth_error (rows X) i with
                     | Some row => [row]
                     | None => []
                     end) index.


(** [appends P m]: whatever the world, every event a run of [m] appends
    satisfies [P]. *)
Definition appends {A : Type} (P : Event -> Prop) (m : M A) : Prop :=
  forall w : World,
    exists evs, trace (fst (m w)) = (trace w ++ evs)%list /\ Forall P evs.


(** The scores handed to a metric are values of [y]. *)
Definition hard_label_call (y : Series) (e : Event) : Prop :=
  match e with
  | CallAccuracyScore _ y_score
  | CallConfusionMatrix _ y_score
  | CallClassificationReport _ y_score
  | CallRocCurve _ y_score
  | CallRocAucScore _ y_score => Forall (fun p => In p y) y_score
  | _ => True
  end.

(** The calls of a classification metric among the events, in order: the
    metric, the true labels and the scores it is handed. *)
Definition metric_calls (evs : list Event) : list (string * Series * Series) :=
  flat_map (fun e => match e with
                     | CallAccuracyScore y_true y_score =>
                         [("accuracy_score", y_true, y_score)]
                     | CallConfusionMatrix y_true y_score =>
                         [("confusion_matrix", y_true, y_score)]
                     | CallClassificationReport y_true y_score =>
                         [("classification_report", y_true, y_score)]
                     | CallRocCurve y_true y_score =>
                         [("roc_curve", y_true, y_score)]
                     | CallRocAucScore y_true y_score =>
                         [("roc_auc_score", y_true, y_score)]
                     | _ => []
                     end%string) evs.

(** A randomized estimator that is constructed with [random_state=42]. *)
Definition seeded_call (e : Event) : Prop :=
  match e with
  | CallKMeans _ random_state _
  | CallPCA _ random_state _
  | CallKFold _ _ random_state _
  | CallTrainTestSplit _ random_state _ => random_state = Some 42
  | _ => True
  end.

(** The [random_state] the harness gives each randomized estimator: 42 to
    [KMeans], [KFold] and [train_test_split], none to [PCA]. *)
Definition random_state_call (e : Event) : Prop :=
  match e with
  | CallKMeans _ random_state _
  | CallKFold _ _ random_state _
  | CallTrainTestSplit _ random_state _ => random_state = Some 42
  | CallPCA _ random_state _ => random_state = None
  | _ => True
  end.

(** The model [KMeans(n_clusters=n, random_state=42).fit(data)], when
    K-Means accepts the table. *)
Definition kmeans_model (data : table) (n : nat) : option KMeansModel :=
  fst (kmeans_fit n data (seed_rng 42)).

(** The average silhouette score of that model on [data], when the model
    exists and [silhouette_score] accepts its labels. *)
Definition silhouette_of (data : table) (n : nat) : option Q :=
  match kmeans_model data n with
  | Some model => silhouette_score data (kmeans_labels model)
  | None => None
  end.

(** The tuning loop over candidates it gets through: each is fitted, and
    the model, when there is one, is scored. *)
Definition tune_events (data : table) (ns : list nat) : list Event :=
  flat_map (fun n => CallKMeans n (Some 42) data
                     :: match kmeans_model data n with
                        | Some model => [CallSilhouetteScore data (kmeans_labels model)]
                        | None => []
                        end) ns.

(** What [evaluate_analyze_clustering] does once the cluster count [k] is
    chosen: it trains the model with [k] clusters, scores it, and plots it,
    the scatter plot from the table [pca_data] that came out of PCA. *)
Definition final_clustering_events (data : table) (k : nat) (model : KMeansModel)
    (score : Q) (pca_data : DataFrame) (label : string) : list Event :=
  [ CallKMeans k (Some 42) data;
    CallSilhouetteScore data (kmeans_labels model);
    PlotSilhouette k (kmeans_predict model data) score;
    CallPCA 2 None data;
    PlotScatter k (kmeans_predict model data) pca_data;
    Show ("For " ++ label ++ " data")%string ].

(** The table the scatter plot is drawn from: the two components [projected]
    under the labels PC1 and PC2, and the cluster of every row. *)
Definition scatter_table (projected : table) (cluster_labels : list nat) (pca_data : DataFrame)
    : Prop :=
  exists components : DataFrame,
    mk_DataFrame projected ["PC1"; "PC2"]%string = Ok components /\
    setitem components "cluster" (map (fun l => inject_Z (Z.of_nat l)) cluster_labels)
    = Ok pca_data.

End HarnessVocabulary.

(** ** More vocabulary: plots, outcomes, columns *)

(** The bands a run filled, in order: the y positions and the coefficients
    drawn at them. *)
Definition bands (calls : list AxesCall) : list (list nat * list Q) :=
  flat_map (fun c => match c with
                     | ax_fill_betweenx y _ x2 _ => [(y, x2)]
                     | _ => []
                     end) calls.

(** The coefficients of the samples labelled [i], in sample order. *)
Definition members (values : list Q) (cluster_labels : list nat) (i : nat) : list Q :=
  mask_rows values (map (fun l => Nat.eqb l i) cluster_labels).

(** How many samples have the label [i]. *)
Definition labelled (cluster_labels : list nat) (i : nat) : nat :=
  List.length (filter (fun l => Nat.eqb l i) cluster_labels).

(** How many samples have a label below [i]. *)
Definition labelled_below (cluster_labels : list nat) (i : nat) : nat :=
  List.length (filter (fun l => Nat.ltb l i) cluster_labels).

Section RunVocabulary.

Context {SK : Sklearn}.

(** [outcome m Q E]: whatever the world, a value [m] returns satisfies [Q]
    and an exception it raises satisfies [E]. *)
Definition outcome {A : Type} (m : M A) (Q : A -> Prop) (E : exn -> Prop) : Prop :=
  forall w : World,
    match snd (m w) with
    | Ok a => Q a
    | Raise e => E e
    end.

(** The exceptions of the work on a table that has its columns: a position
    outside the table, rows that do not fit the columns or a table an
    estimator refuses, a neighbour count or a query the classifier refuses,
    no fold to average. *)
Definition work_exn (e : exn) : Prop :=
  e = IndexError \/ e = ValueError \/ e = InvalidKError \/ e = DataShapeError \/
  e = ZeroDivisionError.

(** What the classifier is called on: tables with the columns [cols],
    training labels among [y], [k] neighbours. *)
Definition knn_call_on (cols : list string) (y : Series) (k : Z) (e : Event) : Prop :=
  match e with
  | CallKnnFit _ X y_train => columns X = cols /\ incl y_train y
  | CallKnnPredict _ query k' => columns query = cols /\ k' = k
  | _ => True
  end.

(** An exception of the work, or [KeyError] for a column of [names] that
    [data] does not have. *)
Definition missing_or_work (data : DataFrame) (names : list string) (e : exn) : Prop :=
  work_exn e \/
  (e = KeyError /\ exists name, In name names /\ column_index name (columns data) = None).

(** The values a run printed, in order. *)
Definition printed (evs : list Event) : list PrintValue :=
  flat_map (fun e => match e with
                     | Print _ value => [value]
                     | _ => []
                     end) evs.

(** A split the harness can work through up to the predictions: positions
    within the table, and a scaler that keeps the shape of both
    partitions. *)
Definition splittable (X : DataFrame) (fold : list nat * list nat) : Prop :=
  Forall (fun i => (i < shape0 X)%nat) (fst fold) /\
  Forall (fun i => (i < shape0 X)%nat) (snd fold) /\
  shape_kept (rows_at X (fst fold)) /\
  shape_kept (rows_at X (snd fold)).

End RunVocabulary.

(** A column once its booleans are numbers: [True] is 1, [False] is 0, and
    a column of another dtype is as it was. *)
Definition as_number (c : Column) : Column :=
  match c with
  | BoolColumn values => IntColumn (map (fun b : bool => if b then 1 else 0) values)
  | _ => c
  end.

(** [c.dtype == 'bool'] *)
Definition is_bool (c : Column) : bool :=
  match c with
  | BoolColumn _ => true
  | _ => false
  end.

(** ** Examples *)

Local Open Scope string_scope.

(** The training set of the specification's end-to-end scenario. *)
Definition demo_X : table := [[0; 0]; [1; 0]; [5; 5]; [6; 5]]%Q.

Definition demo_y : list string := ["A"; "A"; "B"; "B"].

(** One row of each label. *)
Definition tie_X : table := [[0]; [10]]%Q.

Definition tie_y : list string := ["A"; "B"].

(** The analyses a run entered, in order: function, label, data. *)
Definition analyses (evs : list Event) : list (string * string * DataFrame) :=
  flat_map (fun e => match e with
                     | Enter fn data label => [(fn, label, data)]
                     | _ => []
                     end) evs.

(** The analyses the script enters, in the order of the source, on the
    data [df] whose columns [gender] and [age] hold the values given. *)
Definition script_plan (df : DataFrame) (gender age : Series)
    : list (string * string * DataFrame) :=
  let male_data := df_where df (map (fun v => Qeq_bool v 1) gender) in
  let female_data := df_where df (map (fun v => Qeq_bool v 0) gender) in
  let data_20_to_24 := df_where df (map (fun v => Qle_bool 20 v && Qlt_bool v 25) age) in
  let data_25_to_29 := df_where df (map (fun v => Qle_bool 25 v && Qlt_bool v 30) age) in
  let data_over_30 := df_where df (map (fun v => Qle_bool 30 v) age) in
  [ ("evaluate_analyze_clustering", "all", df);
    ("evaluate_analyze_knn", "all", df);
    ("evaluate_analyze_clustering", "male", male_data);
    ("evaluate_analyze_clustering", "female", female_data);
    ("evaluate_analyze_knn", "male", male_data);
    ("evaluate_analyze_knn", "female", female_data);
    ("evaluate_analyze_clustering", "age from 20 to 24", data_20_to_24);
    ("evaluate_analyze_clustering", "age from 25 to 29", data_25_to_29);
    ("evaluate_analyze_clustering", "age over 30", data_25_to_29);
    ("evaluate_analyze_knn", "age from 20 to 24", data_20_to_24);
    ("evaluate_analyze_knn", "age from 25 to 29", data_25_to_29);
    ("evaluate_analyze_knn", "age over 30", data_over_30) ].

(** The rows of [Demo.people] whose cell in the column [name] passes [keep]. *)
Definition people_where (name : string) (keep : Q -> bool) : DataFrame :=
  match getitem Demo.people name with
  | Ok values => df_where Demo.people (map keep values)
  | Raise _ => Demo.people
  end.

Definition people_male : DataFrame := people_where "gender" (fun v => Qeq_bool v 1).

Definition people_female : DataFrame := people_where "gender" (fun v => Qeq_bool v 0).

Definition people_20_to_24 : DataFrame :=
  people_where "age" (fun v => Qle_bool 20 v && Qlt_bool v 25).

Definition people_25_to_29 : DataFrame :=
  people_where "age" (fun v => Qle_bool 25 v && Qlt_bool v 30).

Definition people_over_30 : DataFrame := people_where "age" (fun v => Qle_bool 30 v).

(** Four samples of one feature. *)
Definition four_samples : table := [[1 # 2]; [- (1 # 4)]; [3 # 4]; [1 # 10]]%Q.

(** A stand-in for [silhouette_samples]: the first cell of every sample. *)
Definition first_cells (data : table) (cluster_labels : list nat) : list Q :=
  map (fun row => nth 0 row 0%Q) data.

(** Two clusters, by position. *)
Definition two_clusters : nat * list nat := (2%nat, [1; 0; 1; 0]%nat).

(** The first four people. *)
Definition four_people : DataFrame := {|
  columns := columns Demo.people;
  rows := firstn 4 (rows Demo.people)
|}.

(** Their features and their labels. *)
Definition four_people_X : DataFrame := {|
  columns := columns Demo.people_X;
  rows := firstn 4 (rows Demo.people_X)
|}.

Definition four_people_y : Series := firstn 4 Demo.people_y.

(** A table as [read_csv] types it. *)
Definition typed_people : CsvFrame :=
  [ ("gender", BoolColumn [true; false; true]);
    ("age", IntColumn [20; 20; 21]);
    ("attr", FloatColumn [3; 0; 7 # 2]%Q);
    ("field", ObjectColumn ["law"; "art"; "law"]);
    ("dec", BoolColumn [false; false; true]) ].

Local Close Scope string_scope.

(** * Facts about the classifier *)

Section KNN_ranking.

Import KNN.

Lemma Qsqr_nonneg (x : Q) : (0 <= x * x)%Q.
Proof.
  destruct x as [n d]. unfold Qle, Qmult. simpl. nia.
Qed.

Lemma sq_dist_nonneg (a b : vector) : (0 <= sq_dist a b)%Q.
Proof.
  revert b; induction a as [|x a IH]; intros [|y b]; simpl; try apply Qle_refl.
  rewrite <- (Qplus_0_r 0). apply Qplus_le_compat; [apply Qsqr_nonneg | apply IH].
Qed.

Lemma sq_before_cand_before (c d : NeighborCandidate) :
  (0 <= cand_sqdist c)%Q -> sq_before c d -> cand_before c d.
Proof.
  intros Hc [Hlt | [Heq Hi]].
  - left. unfold cand_dist. apply sqrt_lt_1_alt. split.
    + replace 0%R with (Q2R 0) by lra. now apply Qle_Rle.
    + now apply Qlt_Rlt.
  - right. split; [|exact Hi]. unfold cand_dist. now rewrite (Qeq_eqR _ _ Heq).
Qed.

Lemma insert_cand_perm (c : NeighborCandidate) (l : list NeighborCandidate) :
  Permutation (insert_cand c l) (c :: l).
Proof.
  induction l as [|d l IH]; simpl; [reflexivity|].
  destruct (cand_leb c d); [reflexivity|].
  rewrite IH. apply perm_swap.
Qed.

Lemma rank_perm (l : list NeighborCandidate) : Permutation (rank l) l.
Proof.
  induction l as [|c l IH]; simpl; [reflexivity|].
  rewrite insert_cand_perm. now constructor.
Qed.

Lemma insert_cand_sorted (c : NeighborCandidate) (l : list NeighborCandidate) :
  StronglySorted sq_before l ->
  Forall (fun d => (cand_index c < cand_index d)%nat) l ->
  StronglySorted sq_before (insert_cand c l).
Proof.
  induction l as [|d l IH]; simpl; intros Hs Hi.
  - repeat constructor.
  - inversion Hs as [|? ? Hs' Hd]; subst.
    inversion Hi as [|? ? Hcd Hi']; subst.
    unfold cand_leb. destruct (Qle_bool (cand_sqdist c) (cand_sqdist d)) eqn:E.
    + apply Qle_bool_iff in E. constructor; [exact Hs|].
      assert (Hcd' : sq_before c d).
      { apply Qle_lteq in E. destruct E as [E|E]; [now left|now right]. }
      constructor; [exact Hcd'|].
      rewrite Forall_forall in *. intros x Hx.
      specialize (Hd x Hx). specialize (Hi' x Hx).
      destruct Hd as [Hd | [Hd _]].
      * left. eapply Qle_lt_trans; eauto.
      * destruct Hcd' as [H|[H _]].
        -- left. eapply Qlt_le_trans; [exact H|]. apply Qle_lteq. now right.
        -- right. split; [eapply Qeq_trans; eauto | exact Hi'].
    + assert (Hlt : (cand_sqdist d < cand_sqdist c)%Q).
      { apply Qnot_le_lt. intro H. apply Qle_bool_iff in H. congruence. }
      constructor; [now apply IH|].
      eapply Permutation_Forall; [symmetry; apply insert_cand_perm|].
      constructor; [now left | exact Hd].
Qed.

Lemma candidates_from_index (q : vector) (X : table) (i : nat) :
  map cand_index (candidates_from i q X) = seq i (List.length X).
Proof.
  revert i; induction X as [|row X IH]; intros i; simpl; [reflexivity|].
  now rewrite IH.
Qed.

Lemma candidates_from_nonneg (q : vector) (X : table) (i : nat) :
  Forall (fun c => (0 <= cand_sqdist c)%Q) (candidates_from i q X).
Proof.
  revert i; induction X as [|row X IH]; intros i; simpl; constructor; auto.
  apply sq_dist_nonneg.
Qed.

Lemma candidates_from_row (q : vector) (X : table) (i : nat) (c : NeighborCandidate) :
  In c (candidates_from i q X) ->
  (i <= cand_index c)%nat /\
  exists row, nth_error X (cand_index c - i) = Some row /\
              cand_sqdist c = sq_dist q row.
Proof.
  revert i; induction X as [|row X IH]; intros i; simpl; [tauto|].
  intros [<- | Hin]; simpl.
  - split; [lia|]. exists row. now rewrite Nat.sub_diag.
  - destruct (IH _ Hin) as [Hle [r [Hr Hd]]]. split; [lia|].
    exists r. split; [|exact Hd].
    replace (cand_index c - i)%nat with (S (cand_index c - S i)) by lia.
    exact Hr.
Qed.

Lemma rank_candidates_sorted (q : vector) (X : table) (i : nat) :
  StronglySorted sq_before (rank (candidates_from i q X)).
Proof.
  revert i; induction X as [|row X IH]; intros i; simpl; [constructor|].
  apply insert_cand_sorted; [apply IH|].
  eapply Permutation_Forall; [symmetry; apply rank_perm|].
  rewrite Forall_forall. intros c Hc. simpl.
  apply candidates_from_row in Hc. lia.
Qed.

Lemma StronglySorted_weaken (A : Type) (P : A -> Prop) (R1 R2 : A -> A -> Prop) (l : list A) :
  (forall a b, P a -> R1 a b -> R2 a b) ->
  Forall P l -> StronglySorted R1 l -> StronglySorted R2 l.
Proof.
  intros HR HP Hs. induction Hs as [|a l Hs IH Ha]; [constructor|].
  inversion HP; subst. constructor; [now apply IH|].
  rewrite Forall_forall in *. intros b Hb. apply HR; auto.
Qed.

Lemma rank_candidates_by_distance (q : vector) (X : table) :
  StronglySorted cand_before (rank (candidates q X)).
Proof.
  apply StronglySorted_weaken with (P := fun c => (0 <= cand_sqdist c)%Q) (R1 := sq_before).
  - intros; now apply sq_before_cand_before.
  - eapply Permutation_Forall; [symmetry; apply rank_perm|].
    apply candidates_from_nonneg.
  - apply rank_candidates_sorted.
Qed.

End KNN_ranking.

Section KNN_vote.

Import KNN.

Variable L : Type.
Variable leqb : L -> L -> bool.

Local Abbreviation votes_of := (count leqb).

Lemma vote_from_spec (V : list L) :
  forall (rest pre mid : list L) (best : L),
    V = pre ++ best :: mid ++ rest ->
    (forall x, In x pre -> (votes_of x V < votes_of best V)%nat) ->
    (forall x, In x mid -> (votes_of x V <= votes_of best V)%nat) ->
    exists pre' post',
      V = pre' ++ vote_from leqb V best rest :: post' /\
      (forall x, In x pre' -> (votes_of x V < votes_of (vote_from leqb V best rest) V)%nat) /\
      (forall x, In x V -> (votes_of x V <= votes_of (vote_from leqb V best rest) V)%nat).
Proof.
  induction rest as [|x r IH]; intros pre mid best HV Hpre Hmid; simpl.
  - exists pre, mid. rewrite app_nil_r in HV. split; [exact HV|]. split; [exact Hpre|].
    intros z Hz. rewrite HV in Hz. apply in_app_or in Hz.
    destruct Hz as [Hz | [<- | Hz]]; [apply Nat.lt_le_incl; auto | lia | auto].
  - destruct (Nat.ltb (votes_of best V) (votes_of x V)) eqn:E.
    + apply Nat.ltb_lt in E.
      apply (IH (pre ++ best :: mid) [] x).
      * rewrite HV. rewrite <- app_assoc. simpl. reflexivity.
      * intros z Hz. apply in_app_or in Hz.
        destruct Hz as [Hz | [<- | Hz]].
        -- specialize (Hpre z Hz). lia.
        -- exact E.
        -- specialize (Hmid z Hz). lia.
      * intros z [].
    + apply Nat.ltb_ge in E.
      apply (IH pre (mid ++ [x]) best).
      * rewrite HV. rewrite <- app_assoc. reflexivity.
      * exact Hpre.
      * intros z Hz. apply in_app_or in Hz.
        destruct Hz as [Hz | [<- | []]]; auto.
Qed.

Lemma majority_spec (V : list L) :
  V <> [] ->
  exists l pre post,
    majority leqb V = Some l /\
    V = pre ++ l :: post /\
    (forall x, In x pre -> (votes_of x V < votes_of l V)%nat) /\
    (forall x, In x V -> (votes_of x V <= votes_of l V)%nat).
Proof.
  destruct V as [|x r]; [congruence|]. intros _.
  destruct (vote_from_spec (x :: r) r [] [] x) as [pre [post [H1 [H2 H3]]]];
    [reflexivity | intros z [] | intros z [] |].
  exists (vote_from leqb (x :: r) x r), pre, post. simpl. auto.
Qed.

Lemma neighbor_labels_aligned (y : list L) (cs : list NeighborCandidate) :
  Forall (fun c => (cand_index c < List.length y)%nat) cs ->
  Forall2 (fun c v => nth_error y (cand_index c) = Some v) cs (neighbor_labels y cs).
Proof.
  induction 1 as [|c cs Hc _ IH]; simpl; [constructor|].
  destruct (nth_error y (cand_index c)) eqn:E.
  - constructor; auto.
  - apply nth_error_None in E. lia.
Qed.

Lemma count_perm (l : L) (V W : list L) :
  Permutation V W -> votes_of l V = votes_of l W.
Proof.
  induction 1; simpl; lia.
Qed.

Lemma same_width_true (q : vector) (X : table) :
  Forall (fun row => List.length row = List.length q) X -> same_width q X = true.
Proof.
  intros H. unfold same_width. apply forallb_forall. rewrite Forall_forall in H.
  intros row Hr. apply Nat.eqb_eq. auto.
Qed.

Lemma candidates_in_range (q : vector) (X : table) (c : NeighborCandidate) :
  In c (candidates q X) -> (cand_index c < List.length X)%nat.
Proof.
  intros Hc. apply (in_map cand_index) in Hc.
  unfold candidates in Hc. rewrite candidates_from_index in Hc.
  apply in_seq in Hc. lia.
Qed.

Lemma candidates_length (q : vector) (X : table) :
  List.length (candidates q X) = List.length X.
Proof.
  unfold candidates. rewrite <- (length_map cand_index), candidates_from_index.
  apply length_seq.
Qed.

Lemma select_split (k : Z) (q : vector) (X : table) :
  0 <= k <= Z.of_nat (List.length X) ->
  List.length (select k q X) = Z.to_nat k /\
  select k q X ++ skipn (Z.to_nat k) (rank (candidates q X)) = rank (candidates q X).
Proof.
  intros Hk. unfold select. split; [|apply firstn_skipn].
  rewrite length_firstn, (Permutation_length (rank_perm _)), candidates_length. lia.
Qed.

End KNN_vote.

Section KNN_predict.

Import KNN.

Variable L : Type.
Variable leqb : L -> L -> bool.

Lemma vote_from_in (V : list L) (rest : list L) (best : L) :
  In (vote_from leqb V best rest) (best :: rest).
Proof.
  revert best; induction rest as [|x r IH]; intros best; simpl; [now left|].
  destruct (Nat.ltb (count leqb best V) (count leqb x V)).
  - right. apply IH.
  - destruct (IH best) as [H|H]; [now left | right; now right].
Qed.

Lemma neighbor_labels_incl (y : list L) (cs : list NeighborCandidate) (l : L) :
  In l (neighbor_labels y cs) -> In l y.
Proof.
  induction cs as [|c cs IH]; simpl; [tauto|].
  destruct (nth_error y (cand_index c)) eqn:E; [|exact IH].
  intros [<- | H]; [now apply nth_error_In in E | now apply IH].
Qed.

(** A label [predict] returns is one of the labels the instance stores. *)
Lemma predict_in_labels (self : KNNClassifier L) (q : vector) (k : Z) (l : L) :
  predict leqb self q k = Ok l ->
  exists ts, self = Some ts /\ In l (labels ts).
Proof.
  unfold predict. destruct self as [ts|]; [|discriminate].
  destruct ((k <=? 0) || (Z.of_nat (List.length (features ts)) <? k)); [discriminate|].
  destruct (negb (same_width q (features ts))); [discriminate|].
  destruct (neighbor_labels (labels ts) (select k q (features ts))) as [|x r] eqn:E;
    simpl; [discriminate|].
  intros H; inversion H; subst. exists ts. split; [reflexivity|].
  apply neighbor_labels_incl with (cs := select k q (features ts)).
  rewrite E. apply vote_from_in.
Qed.

Lemma fit_ok_inv (self0 self : KNNClassifier L) (X : table) (y : list L) :
  fit self0 X y = Ok self ->
  self = Some {| features := X; labels := y |} /\ List.length X = List.length y.
Proof.
  unfold fit. destruct (Nat.eqb (List.length X) (List.length y)) eqn:E; [|discriminate].
  intros H; inversion H; subst. split; [reflexivity|]. now apply Nat.eqb_eq.
Qed.

Lemma candidate_distance (q : vector) (X : table) (c : NeighborCandidate) :
  In c (candidates q X) ->
  exists row, nth_error X (cand_index c) = Some row /\
              cand_dist c = euclidean_distance q row.
Proof.
  intros Hc. destruct (candidates_from_row _ _ _ _ Hc) as [_ [row [Hr Hd]]].
  rewrite Nat.sub_0_r in Hr. exists row. split; [exact Hr|].
  unfold cand_dist, euclidean_distance. now rewrite Hd.
Qed.

Lemma predict_votes (self0 self : KNNClassifier L) (X : table) (y : list L) (q : vector) (k : Z) :
  fit self0 X y = Ok self ->
  Forall (fun row => List.length row = List.length q) X ->
  0 < k <= Z.of_nat (List.length X) ->
  predict leqb self q k =
  match majority leqb (neighbor_labels y (select k q X)) with
  | Some l => Ok l
  | None => Raise InvalidKError
  end.
Proof.
  intros Hfit Hw Hk. destruct (fit_ok_inv _ _ _ _ Hfit) as [-> _].
  unfold predict. simpl.
  replace (k <=? 0) with false by (symmetry; apply Z.leb_gt; lia).
  replace (Z.of_nat (List.length X) <? k) with false by (symmetry; apply Z.ltb_ge; lia).
  simpl. now rewrite (same_width_true q X Hw).
Qed.


(** C1.  On a fitted classifier, for a query as wide as the stored rows and
    [0 < k <= n], [predict] returns a label [l] such that: there is one
    candidate per stored row, carrying the Euclidean distance from the query
    to that row; the candidates, ranked, are a permutation of them sorted by
    ascending distance with equal distances in training-row order; the
    neighbours are the first [k] of that ranking and the votes are their
    labels, in that order; no label has more votes than [l]; and every vote
    cast by a row nearer than the first row voting [l] has strictly fewer
    votes than [l]. *)
Theorem predict_nearest_majority :
  forall (self0 self : KNNClassifier L) (X : table) (y : list L) (q : vector) (k : Z),
    fit self0 X y = Ok self ->
    Forall (fun row => List.length row = List.length q) X ->
    0 < k <= Z.of_nat (List.length X) ->
    exists (nbrs rest : list NeighborCandidate) (votes pre post : list L) (l : L),
      map cand_index (candidates q X) = seq 0 (List.length X) /\
      (forall c, In c (candidates q X) ->
         exists row, nth_error X (cand_index c) = Some row /\
                     cand_dist c = euclidean_distance q row) /\
      Permutation (nbrs ++ rest) (candidates q X) /\
      StronglySorted cand_before (nbrs ++ rest) /\
      List.length nbrs = Z.to_nat k /\
      Forall2 (fun c v => nth_error y (cand_index c) = Some v) nbrs votes /\
      predict leqb self q k = Ok l /\
      votes = pre ++ l :: post /\
      (forall x, In x votes -> (count leqb x votes <= count leqb l votes)%nat) /\
      (forall x, In x pre -> (count leqb x votes < count leqb l votes)%nat).
Proof.
  intros self0 self X y q k Hfit Hw Hk.
  destruct (fit_ok_inv _ _ _ _ Hfit) as [_ Hlen].
  destruct (select_split k q X) as [Hn Hsplit]; [lia|].
  set (nbrs := select k q X) in *.
  set (rest := skipn (Z.to_nat k) (rank (candidates q X))) in *.
  assert (Hperm : Permutation (nbrs ++ rest) (candidates q X)).
  { rewrite Hsplit. apply rank_perm. }
  assert (Hrange : Forall (fun c => (cand_index c < List.length y)%nat) nbrs).
  { rewrite Forall_forall. intros c Hc. rewrite <- Hlen.
    apply (candidates_in_range q). eapply Permutation_in; [exact Hperm|].
    apply in_or_app. now left. }
  pose proof (neighbor_labels_aligned L y nbrs Hrange) as Hal.
  set (votes := neighbor_labels y nbrs) in *.
  assert (Hne : votes <> []).
  { intros E. rewrite E in Hal. inversion Hal as [HE|]; subst.
    rewrite <- HE in Hn. simpl in Hn. lia. }
  destruct (majority_spec L leqb votes Hne) as [l [pre [post [Hm [Hv [Hlt Hle]]]]]].
  exists nbrs, rest, votes, pre, post, l.
  split; [apply candidates_from_index|].
  split; [apply candidate_distance|].
  split; [exact Hperm|].
  split; [rewrite Hsplit; apply rank_candidates_by_distance|].
  split; [exact Hn|].
  split; [exact Hal|].
  split; [|auto].
  rewrite (predict_votes self0 self X y q k Hfit Hw Hk). fold nbrs. fold votes. now rewrite Hm.
Qed.

End KNN_predict.

Local Open Scope string_scope.

Lemma predict_nearest_majority_witness :
  KNN.fit (KNN.new string) demo_X demo_y
    = Ok (Some {| KNN.features := demo_X; KNN.labels := demo_y |}) /\
  Forall (fun row => List.length row = List.length [5 # 1; 4 # 1]%Q) demo_X /\
  0 < 3 <= Z.of_nat (List.length demo_X) /\
  KNN.predict String.eqb (Some {| KNN.features := demo_X; KNN.labels := demo_y |})
              [5 # 1; 4 # 1]%Q 3 = Ok "B".
Proof.
  assert (Hfit : KNN.fit (KNN.new string) demo_X demo_y
                 = Ok (Some {| KNN.features := demo_X; KNN.labels := demo_y |}))
    by reflexivity.
  assert (Hw : Forall (fun row => List.length row = List.length [5 # 1; 4 # 1]%Q) demo_X)
    by (repeat constructor).
  assert (Hk : 0 < 3 <= Z.of_nat (List.length demo_X)) by (simpl; lia).
  split; [exact Hfit|]. split; [exact Hw|]. split; [exact Hk|].
  destruct (predict_nearest_majority string String.eqb _ _ _ _ _ 3 Hfit Hw Hk)
    as (nbrs & rest & votes & pre & post & l & _ & _ & _ & _ & _ & _ & Hp & _).
  rewrite Hp. f_equal. vm_compute in Hp. now inversion Hp.
Defined.

Local Close Scope string_scope.

Section KNN_errors.

Import KNN.

Variable L : Type.
Variable leqb : L -> L -> bool.

Lemma fit_mismatch (self : KNNClassifier L) (X : table) (y : list L) :
  List.length X <> List.length y -> fit self X y = Raise DataShapeError.
Proof.
  intros H. unfold fit. apply Nat.eqb_neq in H. now rewrite H.
Qed.

Lemma after_failed_fits (self : KNNClassifier L) (calls : list (table * list L)) :
  Forall (fun c => List.length (fst c) <> List.length (snd c)) calls ->
  after_fits L self calls = self.
Proof.
  unfold after_fits.
  induction 1 as [|c calls Hc _ IH]; simpl; [reflexivity|].
  assert (E : after_fit self (@fst table (list L) c) (@snd table (list L) c) = self).
  { unfold after_fit, fit. destruct (Nat.eqb _ _) eqn:E'; [|reflexivity].
    apply Nat.eqb_eq in E'. exfalso. apply Hc. exact E'. }
  rewrite E. exact IH.
Qed.

(** C2.  [fit] raises [DataShapeError] when the numbers of feature rows and
    of labels differ; [predict] raises [NotFittedError] on an instance on
    which no call of [fit] has succeeded, whatever the query and [k];
    on a fitted instance it raises [InvalidKError] when [k <= 0] or [k]
    exceeds the number of stored rows; and a call of [predict] yields one
    label or one exception, and when it raises no label comes with it. *)
Theorem classifier_errors :
  (forall (self : KNNClassifier L) (X : table) (y : list L),
      List.length X <> List.length y ->
      fit self X y = Raise DataShapeError) /\
  (forall (calls : list (table * list L)) (q : vector) (k : Z),
      Forall (fun c => List.length (fst c) <> List.length (snd c)) calls ->
      predict leqb (after_fits L (new L) calls) q k = Raise NotFittedError) /\
  (forall (ts : TrainingSet L) (q : vector) (k : Z),
      k <= 0 \/ Z.of_nat (List.length (features ts)) < k ->
      predict leqb (Some ts) q k = Raise InvalidKError) /\
  (forall (self : KNNClassifier L) (q : vector) (k : Z),
      (exists l, predict leqb self q k = Ok l) \/
      (exists e, predict leqb self q k = Raise e /\
                 forall l, predict leqb self q k <> Ok l)).
Proof.
  split; [exact fit_mismatch|].
  split.
  { intros calls q k H. now rewrite (after_failed_fits (new L) calls H). }
  split.
  { intros ts q k Hk. unfold predict.
    destruct Hk as [Hk | Hk].
    - apply Z.leb_le in Hk. now rewrite Hk.
    - apply Z.ltb_lt in Hk. rewrite Hk. now rewrite orb_true_r. }
  intros self q k. destruct (predict leqb self q k) as [l|e].
  - left. now exists l.
  - right. exists e. split; [reflexivity|]. intros l H. discriminate H.
Qed.

End KNN_errors.

Lemma classifier_errors_witness :
  KNN.fit (KNN.new Z) [[1]; [2]; [3]; [4]; [5]]%Q [0; 1; 0; 1] = Raise DataShapeError /\
  KNN.predict Z.eqb
      (after_fits Z (KNN.new Z) [([[1]; [2]; [3]; [4]; [5]]%Q, [0; 1; 0; 1])]) [1%Q] 1
    = Raise NotFittedError /\
  KNN.predict Z.eqb (Some {| KNN.features := [[1]; [2]]%Q; KNN.labels := [0; 1] |}) [1%Q] 0
    = Raise InvalidKError /\
  KNN.predict Z.eqb (Some {| KNN.features := [[1]; [2]]%Q; KNN.labels := [0; 1] |}) [1%Q] 3
    = Raise InvalidKError.
Proof.
  destruct (classifier_errors Z Z.eqb) as (Hfit & Hnot & Hk & _).
  split; [apply Hfit; simpl; lia|].
  split; [apply Hnot; repeat constructor; simpl; lia|].
  split; apply Hk; simpl; lia.
Defined.

Section KNN_full_k.

Import KNN.

Variable L : Type.
Variable leqb : L -> L -> bool.

Lemma neighbor_labels_perm (y : list L) (cs cs' : list NeighborCandidate) :
  Permutation cs cs' ->
  Permutation (neighbor_labels y cs) (neighbor_labels y cs').
Proof.
  induction 1 as [|c cs cs' _ IH|c d cs|cs1 cs2 cs3 _ IH1 _ IH2]; simpl.
  - constructor.
  - destruct (nth_error y (cand_index c)); [now constructor | exact IH].
  - destruct (nth_error y (cand_index c)), (nth_error y (cand_index d));
      try reflexivity. apply perm_swap.
  - now transitivity (neighbor_labels y cs2).
Qed.

Lemma neighbor_labels_candidates_from (q : vector) (X : table) :
  forall (i : nat) (pre y : list L),
    List.length pre = i ->
    List.length X = List.length y ->
    neighbor_labels (pre ++ y) (candidates_from i q X) = y.
Proof.
  induction X as [|row X IH]; intros i pre [|l y] Hi Hlen; simpl in *;
    try discriminate; [reflexivity|].
  rewrite nth_error_app2 by lia.
  replace (i - List.length pre)%nat with 0%nat by lia. simpl.
  f_equal.
  replace (pre ++ l :: y) with ((pre ++ [l]) ++ y) by (rewrite <- app_assoc; reflexivity).
  apply IH; [rewrite length_app; simpl; lia | lia].
Qed.

Lemma full_votes_perm (q : vector) (X : table) (y : list L) :
  List.length X = List.length y ->
  Permutation (neighbor_labels y (select (Z.of_nat (List.length X)) q X)) y.
Proof.
  intros Hlen. unfold select.
  rewrite firstn_all2.
  - rewrite (neighbor_labels_perm y _ _ (rank_perm (candidates q X))).
    unfold candidates.
    pose proof (neighbor_labels_candidates_from q X 0 [] y eq_refl Hlen) as E.
    simpl in E. now rewrite E.
  - rewrite (Permutation_length (rank_perm _)), candidates_length. lia.
Qed.

(** C3, as amended.  On a classifier fitted on a non-empty training set,
    [predict] with [k] equal to the number of stored rows returns a label of
    the training set that no label outnumbers in the whole training set; and
    when one label [m] strictly outnumbers every label different from it,
    the label returned is [m], whatever the query. *)
Theorem predict_full_k_majority :
  forall (self0 self : KNNClassifier L) (X : table) (y : list L) (q : vector),
    fit self0 X y = Ok self ->
    X <> [] ->
    Forall (fun row => List.length row = List.length q) X ->
    exists l : L,
      predict leqb self q (Z.of_nat (List.length X)) = Ok l /\
      In l y /\
      (forall x, In x y -> (count leqb x y <= count leqb l y)%nat) /\
      (forall m, In m y ->
         (forall x, In x y -> leqb m x = false -> (count leqb x y < count leqb m y)%nat) ->
         leqb m l = true).
Proof.
  intros self0 self X y q Hfit Hne Hw.
  destruct (fit_ok_inv L _ _ _ _ Hfit) as [_ Hlen].
  assert (Hk : 0 < Z.of_nat (List.length X) <= Z.of_nat (List.length X)).
  { destruct X; [congruence | simpl; lia]. }
  rewrite (predict_votes L leqb self0 self X y q _ Hfit Hw Hk).
  pose proof (full_votes_perm q X y Hlen) as Hperm.
  set (votes := neighbor_labels y (select (Z.of_nat (List.length X)) q X)) in *.
  assert (Hv : votes <> []).
  { intros E. rewrite E in Hperm. apply Permutation_nil in Hperm.
    subst y. destruct X; [congruence | discriminate]. }
  destruct (majority_spec L leqb votes Hv) as [l [pre [post [Hm [Hs [_ Hle]]]]]].
  rewrite Hm. exists l.
  assert (Hl : In l y).
  { apply (Permutation_in l Hperm). rewrite Hs. apply in_or_app. right. now left. }
  assert (Hmax : forall x, In x y -> (count leqb x y <= count leqb l y)%nat).
  { intros x Hx.
    rewrite <- (count_perm L leqb x _ _ Hperm), <- (count_perm L leqb l _ _ Hperm).
    apply Hle. apply (Permutation_in x (Permutation_sym Hperm) Hx). }
  repeat split; auto.
  intros m Hmy Hstrict. destruct (leqb m l) eqn:E; [reflexivity|].
  specialize (Hstrict l Hl E). specialize (Hmax m Hmy). lia.
Qed.

End KNN_full_k.

Local Open Scope string_scope.

(** C3, as stated, fails: with one row labelled A and one labelled B and
    [k = 2], the label returned follows the query. *)
Lemma predict_full_k_depends_on_query :
  ~ (forall (X : table) (y : list string) (q1 q2 : vector),
       List.length X = List.length y ->
       Forall (fun row => List.length row = List.length q1) X ->
       Forall (fun row => List.length row = List.length q2) X ->
       KNN.predict String.eqb (Some {| KNN.features := X; KNN.labels := y |})
                   q1 (Z.of_nat (List.length X))
       = KNN.predict String.eqb (Some {| KNN.features := X; KNN.labels := y |})
                     q2 (Z.of_nat (List.length X))).
Proof.
  intros H.
  specialize (H tie_X tie_y [1%Q] [9%Q] eq_refl).
  assert (H1 : Forall (fun row => List.length row = 1%nat) tie_X) by (repeat constructor).
  specialize (H H1 H1). vm_compute in H. discriminate H.
Qed.

Lemma predict_full_k_majority_witness :
  KNN.fit (KNN.new string) demo_X ["A"; "B"; "B"; "B"]
    = Ok (Some {| KNN.features := demo_X; KNN.labels := ["A"; "B"; "B"; "B"] |}) /\
  demo_X <> [] /\
  Forall (fun row => List.length row = List.length [0; 0]%Q) demo_X /\
  exists l,
    KNN.predict String.eqb (Some {| KNN.features := demo_X; KNN.labels := ["A"; "B"; "B"; "B"] |})
                [0; 0]%Q (Z.of_nat (List.length demo_X)) = Ok l /\
    String.eqb "B" l = true.
Proof.
  assert (Hfit : KNN.fit (KNN.new string) demo_X ["A"; "B"; "B"; "B"]
    = Ok (Some {| KNN.features := demo_X; KNN.labels := ["A"; "B"; "B"; "B"] |}))
    by reflexivity.
  assert (Hne : demo_X <> []) by discriminate.
  assert (Hw : Forall (fun row => List.length row = List.length [0; 0]%Q) demo_X)
    by (repeat constructor).
  split; [exact Hfit|]. split; [exact Hne|]. split; [exact Hw|].
  destruct (predict_full_k_majority string String.eqb _ _ _ _ _ Hfit Hne Hw)
    as (l & Hp & _ & _ & Hm).
  exists l. split; [exact Hp|].
  apply Hm; [simpl; auto|].
  intros x Hx. simpl in Hx.
  destruct Hx as [<- | [<- | [<- | [<- | []]]]]; vm_compute; intros; try discriminate; lia.
Defined.

Local Close Scope string_scope.

(** * A logic for runs of the harness *)

Section HarnessLogic.

Context {SK : Sklearn}.

Local Open Scope harness_scope.

Lemma emits_ret (A : Type) (P : Event -> Prop) (Q : A -> Prop) (a : A) :
  Q a -> emits P (ret a) Q.
Proof.
  intros HQ w. split.
  - exists []. simpl. now rewrite app_nil_r.
  - simpl. intros b Hb. now inversion Hb; subst.
Qed.

Lemma emits_lift (A : Type) (P : Event -> Prop) (Q : A -> Prop) (r : result A) :
  (forall a, r = Ok a -> Q a) -> emits P (lift r) Q.
Proof.
  intros HQ w. split.
  - exists []. simpl. now rewrite app_nil_r.
  - simpl. exact HQ.
Qed.

Lemma emits_raise (A : Type) (P : Event -> Prop) (Q : A -> Prop) (e : exn) :
  emits P (raise e) Q.
Proof.
  intros w. split.
  - exists []. simpl. now rewrite app_nil_r.
  - simpl. discriminate.
Qed.

Lemma emits_emit (P : Event -> Prop) (e : Event) :
  P e -> emits P (emit e) (fun _ => True).
Proof.
  intros HP w. split; [|auto].
  exists [e]. simpl. split; [reflexivity | now constructor].
Qed.

Lemma emits_fresh (P : Event -> Prop) : emits P fresh (fun _ => True).
Proof.
  intros w. split; [|auto]. exists []. simpl. now rewrite app_nil_r.
Qed.

Lemma emits_with_random_state (A : Type) (P : Event -> Prop) (random_state : option Z)
    (f : RandomState -> A * RandomState) :
  emits P (with_random_state random_state f)
        (fun a => forall seed, random_state = Some seed -> a = fst (f (seed_rng seed))).
Proof.
  intros w. unfold with_random_state. destruct random_state as [seed|].
  - split.
    + exists []. simpl. now rewrite app_nil_r.
    + simpl. intros a Ha s Hs. inversion Ha; inversion Hs; subst. reflexivity.
  - destruct (f (ambient w)) as [a g]. split.
    + exists []. simpl. now rewrite app_nil_r.
    + intros b _ s Hs. discriminate Hs.
Qed.

Lemma emits_bind (A B : Type) (P : Event -> Prop) (m : M A) (f : A -> M B)
    (Q : A -> Prop) (R : B -> Prop) :
  emits P m Q -> (forall a, Q a -> emits P (f a) R) -> emits P (bind m f) R.
Proof.
  intros Hm Hf w. unfold bind.
  destruct (Hm w) as [[evs [Ht HP]] HQ].
  destruct (m w) as [w1 [a|e]]; simpl in *.
  - destruct (Hf a (HQ a eq_refl) w1) as [[evs' [Ht' HP']] HR].
    split; [|exact HR].
    exists (evs ++ evs')%list. rewrite Ht', Ht, app_assoc.
    split; [reflexivity | now apply Forall_app].
  - split; [|discriminate]. now exists evs.
Qed.

Lemma emits_weaken (A : Type) (P : Event -> Prop) (m : M A) (Q Q' : A -> Prop) :
  emits P m Q -> (forall a, Q a -> Q' a) -> emits P m Q'.
Proof.
  intros Hm HQ w. destruct (Hm w) as [Hev Hq]. split; [exact Hev|].
  intros a Ha. apply HQ. now apply Hq.
Qed.

Lemma emits_for_each (A S : Type) (P : Event -> Prop) (I : S -> Prop)
    (body : A -> S -> M S) (xs : list A) :
  (forall x s, In x xs -> I s -> emits P (body x s) I) ->
  forall s, I s -> emits P (for_each xs body s) I.
Proof.
  induction xs as [|x xs IH]; intros Hbody s Hs; simpl.
  - now apply emits_ret.
  - apply emits_bind with (Q := I).
    + apply Hbody; [now left | exact Hs].
    + intros s' Hs'. apply IH; [|exact Hs'].
      intros y t Hy. apply Hbody. now right.
Qed.

Lemma emits_comprehension (A B : Type) (P : Event -> Prop) (Q : B -> Prop)
    (f : A -> M B) (xs : list A) :
  (forall x, In x xs -> emits P (f x) Q) ->
  emits P (comprehension f xs) (Forall Q).
Proof.
  induction xs as [|x xs IH]; intros Hf; simpl.
  - now apply emits_ret.
  - apply emits_bind with (Q := Q); [apply Hf; now left|].
    intros y Hy. apply emits_bind with (Q := Forall Q).
    + apply IH. intros z Hz. apply Hf. now right.
    + intros ys Hys. apply emits_ret. now constructor.
Qed.

Lemma insensitive_ret (A : Type) (a : A) : insensitive (ret a).
Proof. intros w g. reflexivity. Qed.

Lemma insensitive_lift (A : Type) (r : result A) : insensitive (lift r).
Proof. intros w g. reflexivity. Qed.

Lemma insensitive_raise (A : Type) (e : exn) : insensitive (@raise SK A e).
Proof. intros w g. reflexivity. Qed.

Lemma insensitive_emit (e : Event) : insensitive (emit e).
Proof. intros w g. reflexivity. Qed.

Lemma insensitive_fresh : insensitive fresh.
Proof. intros w g. reflexivity. Qed.

Lemma insensitive_seeded (A : Type) (seed : Z) (f : RandomState -> A * RandomState) :
  insensitive (with_random_state (Some seed) f).
Proof. intros w g. reflexivity. Qed.

Lemma insensitive_bind (A B : Type) (m : M A) (f : A -> M B) :
  insensitive m -> (forall a, insensitive (f a)) -> insensitive (bind m f).
Proof.
  intros Hm Hf w g. unfold bind. rewrite (Hm w g).
  destruct (m w) as [w1 [a|e]]; simpl; [apply Hf | reflexivity].
Qed.

Lemma insensitive_for_each (A S : Type) (body : A -> S -> M S) (xs : list A) :
  (forall x s, insensitive (body x s)) ->
  forall s, insensitive (for_each xs body s).
Proof.
  intros Hb. induction xs as [|x xs IH]; intros s; simpl.
  - apply insensitive_ret.
  - apply insensitive_bind; [apply Hb | exact IH].
Qed.

Lemma insensitive_comprehension (A B : Type) (f : A -> M B) (xs : list A) :
  (forall x, insensitive (f x)) -> insensitive (comprehension f xs).
Proof.
  intros Hf. induction xs as [|x xs IH]; simpl.
  - apply insensitive_ret.
  - apply insensitive_bind; [apply Hf|]. intros y.
    apply insensitive_bind; [exact IH|]. intros ys. apply insensitive_ret.
Qed.

End HarnessLogic.

(** * The calls the harness makes *)

Section HarnessCalls.

Context {SK : Sklearn}.

Local Open Scope harness_scope.

Variable lbl : Q -> Prop.

Local Abbreviation calls := (emits (harness_event lbl)).
Local Abbreviation anything := (fun _ => True).

Lemma calls_emit (e : Event) : harness_event lbl e -> calls (emit e) anything.
Proof. apply emits_emit. Qed.

Lemma calls_then (A B : Type) (m : M A) (f : A -> M B) (R : B -> Prop) :
  calls m anything -> (forall a, calls (f a) R) -> calls (bind m f) R.
Proof.
  intros Hm Hf. apply emits_bind with (Q := anything); [exact Hm|].
  intros a _. apply Hf.
Qed.

Lemma calls_lift (A : Type) (r : result A) : calls (lift r) (fun a => r = Ok a).
Proof. apply emits_lift. auto. Qed.

Lemma calls_any (A : Type) (m : M A) (Q : A -> Prop) : calls m Q -> calls m anything.
Proof. intros H. eapply emits_weaken; [exact H | auto]. Qed.

Lemma calls_lift_any (A : Type) (r : result A) : calls (lift r) anything.
Proof. apply emits_lift. auto. Qed.

Lemma calls_random (A : Type) (random_state : option Z) (f : RandomState -> A * RandomState) :
  calls (with_random_state random_state f) anything.
Proof. eapply calls_any. apply emits_with_random_state. Qed.

Lemma StandardScaler_new_calls : calls StandardScaler_new anything.
Proof.
  unfold StandardScaler_new.
  apply calls_then; [apply emits_fresh|]. intros sid.
  apply calls_then; [apply calls_emit; constructor|]. intros _.
  now apply emits_ret.
Qed.

Lemma fit_transform_calls (scaler : StandardScaler) (X : table) :
  calls (fit_transform scaler X) (fun r => standardized (snd r)).
Proof.
  unfold fit_transform.
  apply calls_then; [apply calls_emit; constructor|]. intros _.
  apply emits_ret. simpl. now exists X.
Qed.

Lemma KNNClassifier_new_calls : calls KNNClassifier_new anything.
Proof.
  unfold KNNClassifier_new.
  apply calls_then; [apply emits_fresh|]. intros kid.
  apply calls_then; [apply calls_emit; constructor|]. intros _.
  now apply emits_ret.
Qed.

Lemma knn_fit_calls (knn : KNNClassifier) (X : DataFrame) (y : Series) :
  standardized (rows X) -> Forall lbl y ->
  calls (knn_fit knn X y) (labels_within lbl).
Proof.
  intros HX Hy. unfold knn_fit.
  apply calls_then; [apply calls_emit; now constructor|]. intros _.
  eapply emits_bind; [apply calls_lift|]. intros state Hstate. simpl in Hstate.
  apply emits_ret. intros ts Hts. cbn [knn_state] in Hts. subst state.
  unfold KNN.fit in Hstate.
  destruct (Nat.eqb (List.length (rows X)) (List.length y)); [|discriminate].
  inversion Hstate; subst ts. exact Hy.
Qed.

Lemma knn_predict_calls (knn : KNNClassifier) (query : DataFrame) (k : Z) (X : table) (row : vector) :
  standardized X -> In row X -> rows query = [row] -> labels_within lbl knn ->
  calls (knn_predict knn query k) lbl.
Proof.
  intros HX Hrow Hq Hknn. unfold knn_predict.
  apply calls_then; [apply calls_emit; now apply he_knn_predict with (X := X) (row := row)|].
  intros _. rewrite Hq. apply emits_lift. intros p Hp.
  destruct (predict_in_labels Q Qeq_bool _ _ _ _ Hp) as [ts [Hs Hin]].
  specialize (Hknn ts Hs). rewrite Forall_forall in Hknn. now apply Hknn.
Qed.

Lemma mk_DataFrame_rows (array : table) (cols : list string) (df : DataFrame) :
  mk_DataFrame array cols = Ok df -> rows df = array /\ columns df = cols.
Proof.
  unfold mk_DataFrame.
  destruct (forallb (fun row => Nat.eqb (List.length row) (List.length cols)) array);
    [|discriminate].
  intros H; inversion H; subst. auto.
Qed.

Lemma predict_rows_calls (knn : KNNClassifier) (X : table) (cols : list string)
    (n_neighbors : Z) (n : nat) :
  standardized X -> labels_within lbl knn ->
  calls (predict_rows knn X cols n_neighbors n) (Forall lbl).
Proof.
  intros HX Hknn. unfold predict_rows. apply emits_comprehension. intros i _.
  eapply emits_bind; [apply calls_lift|]. intros row Hrow. simpl in Hrow.
  destruct (nth_error X i) as [r|] eqn:E; [|discriminate].
  inversion Hrow; subst r. apply nth_error_In in E.
  eapply emits_bind; [apply calls_lift|]. intros query Hq. simpl in Hq.
  apply mk_DataFrame_rows in Hq. destruct Hq as [Hq _].
  now apply knn_predict_calls with (X := X) (row := row).
Qed.

Lemma iloc_Forall (A : Type) (P : A -> Prop) (l : list A) (index : list nat) (xs : list A) :
  Forall P l -> iloc l index = Ok xs -> Forall P xs.
Proof.
  intros Hl. revert xs. induction index as [|i index IH]; simpl; intros xs H.
  - inversion H. constructor.
  - destruct (nth_error l i) as [x|] eqn:E; [|discriminate].
    destruct (iloc l index) as [xs'|e]; [|discriminate].
    inversion H; subst xs. constructor; [|now apply IH].
    rewrite Forall_forall in Hl. apply Hl. exact (nth_error_In _ _ E).
Qed.

Lemma cv_fold_calls (X : DataFrame) (y : Series) (n_neighbors : Z)
    (fold : list nat * list nat) (accuracy : list Q) :
  Forall lbl y ->
  calls (cv_fold X y n_neighbors fold accuracy) anything.
Proof.
  intros Hy. destruct fold as [train_index test_index]. unfold cv_fold.
  apply calls_then; [apply calls_lift_any|]. intros X_train.
  apply calls_then; [apply calls_lift_any|]. intros X_test.
  eapply emits_bind; [apply calls_lift|]. intros y_train Hytr. simpl in Hytr.
  apply calls_then; [apply calls_lift_any|]. intros y_test.
  apply calls_then; [apply StandardScaler_new_calls|]. intros scaler.
  eapply emits_bind; [apply fit_transform_calls|]. intros [scaler1 X_train_scaled] Htrain.
  eapply emits_bind; [apply fit_transform_calls|]. intros [scaler2 X_test_scaled] Htest.
  simpl in Htrain, Htest.
  apply calls_then; [apply KNNClassifier_new_calls|]. intros knn.
  eapply emits_bind; [apply calls_lift|]. intros train Hdf. simpl in Hdf.
  apply mk_DataFrame_rows in Hdf. destruct Hdf as [Hdf _].
  eapply emits_bind.
  { apply knn_fit_calls; [now rewrite Hdf | exact (iloc_Forall _ _ _ _ _ Hy Hytr)]. }
  intros knn1 Hknn1.
  eapply emits_bind; [now apply predict_rows_calls|]. intros y_pred Hpred. simpl in Hpred.
  apply calls_then; [apply calls_emit; now constructor|]. intros _.
  now apply emits_ret.
Qed.

Lemma k_fold_cv_knn_calls (X : DataFrame) (y : Series) (n_neighbors : Z) :
  Forall lbl y ->
  calls (k_fold_cv_knn X y n_neighbors) anything.
Proof.
  intros Hy. unfold k_fold_cv_knn.
  apply calls_then; [apply calls_emit; constructor|]. intros _.
  apply calls_then; [apply calls_random|]. intros folds.
  apply calls_then.
  - apply emits_for_each; [|exact I]. intros fold acc _ _. now apply cv_fold_calls.
  - intros accuracy. apply calls_lift_any.
Qed.

Lemma confusion_matrix_knn_calls (y_test y_pred : Series) :
  Forall lbl y_pred -> calls (confusion_matrix_knn y_test y_pred) anything.
Proof.
  intros Hp. unfold confusion_matrix_knn.
  apply calls_then; [apply calls_emit; now constructor|]. intros _.
  apply calls_then; [apply calls_emit; now constructor|]. intros _.
  now apply emits_ret.
Qed.

Lemma visualize_roc_curve_knn_calls (y_test y_pred : Series) (label : string) :
  Forall lbl y_pred -> calls (visualize_roc_curve_knn y_test y_pred label) anything.
Proof.
  intros Hp. unfold visualize_roc_curve_knn.
  apply calls_then; [apply calls_emit; now constructor|]. intros _.
  destruct (roc_curve y_test y_pred) as [[fpr tpr] thresholds].
  apply calls_then; [apply calls_emit; constructor|]. intros _.
  apply calls_emit; constructor.
Qed.

Lemma evaluate_analyze_knn_calls (data : DataFrame) (label : string) :
  (forall y : Series, getitem data "dec" = Ok y -> Forall lbl y) ->
  calls (evaluate_analyze_knn data label) anything.
Proof.
  intros Hdec. unfold evaluate_analyze_knn.
  apply calls_then; [apply calls_emit; constructor|]. intros _.
  apply calls_then; [apply calls_lift_any|]. intros X.
  eapply emits_bind; [apply calls_lift|]. intros y Hy. simpl in Hy.
  apply Hdec in Hy.
  apply calls_then; [apply calls_emit; constructor|]. intros _.
  apply calls_then; [apply calls_random|].
  intros [train_index test_index].
  apply calls_then; [apply calls_lift_any|]. intros X_train.
  apply calls_then; [apply calls_lift_any|]. intros X_test.
  eapply emits_bind; [apply calls_lift|]. intros y_train Hytr. simpl in Hytr.
  apply calls_then; [apply calls_lift_any|]. intros y_test.
  apply calls_then; [apply StandardScaler_new_calls|]. intros scaler.
  eapply emits_bind; [apply fit_transform_calls|]. intros [scaler1 X_train_scaled] Htrain.
  eapply emits_bind; [apply fit_transform_calls|]. intros [scaler2 X_test_scaled] Htest.
  simpl in Htrain, Htest.
  apply calls_then; [apply KNNClassifier_new_calls|]. intros knn.
  eapply emits_bind; [apply calls_lift|]. intros train Hdf. simpl in Hdf.
  apply mk_DataFrame_rows in Hdf. destruct Hdf as [Hdf _].
  eapply emits_bind.
  { apply knn_fit_calls; [now rewrite Hdf | exact (iloc_Forall _ _ _ _ _ Hy Hytr)]. }
  intros knn1 Hknn1.
  eapply emits_bind; [now apply predict_rows_calls|]. intros y_pred Hpred. simpl in Hpred.
  apply calls_then; [now apply k_fold_cv_knn_calls|]. intros accuracy.
  apply calls_then; [apply calls_emit; constructor|]. intros _.
  apply calls_then; [now apply confusion_matrix_knn_calls|]. intros [matrix report].
  apply calls_then; [apply calls_emit; constructor|]. intros _.
  apply calls_then; [apply calls_emit; constructor|]. intros _.
  apply calls_then; [now apply visualize_roc_curve_knn_calls|]. intros _.
  apply calls_then; [apply calls_emit; now constructor|]. intros _.
  apply calls_emit; constructor.
Qed.

Lemma trained_clustering_model_calls (data : table) (n_clusters : nat) :
  calls (trained_clustering_model data n_clusters) anything.
Proof.
  unfold trained_clustering_model.
  apply calls_then; [apply calls_emit; constructor|]. intros _.
  apply calls_then; [apply calls_random|]. intros kmeans. apply calls_lift_any.
Qed.

Lemma call_silhouette_score_calls (data : table) (cl : list nat) :
  calls (call_silhouette_score data cl) anything.
Proof.
  unfold call_silhouette_score.
  apply calls_then; [apply calls_emit; constructor|]. intros _. apply calls_lift_any.
Qed.

Lemma set_scatter_subplot_calls (model : KMeansModel) (data : table) (n_clusters : nat)
    (cluster_labels : list nat) :
  calls (set_scatter_subplot model data n_clusters cluster_labels) anything.
Proof.
  unfold set_scatter_subplot.
  apply calls_then; [apply calls_emit; constructor|]. intros _.
  apply calls_then; [apply calls_random|]. intros projected.
  apply calls_then; [apply calls_lift_any|]. intros projected'.
  apply calls_then; [apply calls_lift_any|]. intros components.
  apply calls_then; [apply calls_lift_any|]. intros pca_data.
  apply calls_emit; constructor.
Qed.

Lemma tune_clustering_hyperparameter_calls (data : table) :
  calls (tune_clustering_hyperparameter data) anything.
Proof.
  unfold tune_clustering_hyperparameter.
  apply calls_then; [|intros series; apply calls_lift_any].
  apply emits_for_each; [|exact I]. intros n series _ _.
  apply calls_then; [apply trained_clustering_model_calls|]. intros kmeans.
  apply calls_then; [apply call_silhouette_score_calls|]. intros score.
  now apply emits_ret.
Qed.

Lemma visualize_clustering_calls (model : KMeansModel) (data : table) (n_clusters : nat)
    (silhouette_avg : Q) (label : string) :
  calls (visualize_clustering model data n_clusters silhouette_avg label) anything.
Proof.
  unfold visualize_clustering, set_silhouette_subplot.
  apply calls_then; [apply calls_emit; constructor|]. intros _.
  apply calls_then; [apply set_scatter_subplot_calls|]. intros _.
  apply calls_emit; constructor.
Qed.

Lemma evaluate_analyze_clustering_calls (data : DataFrame) (label : string) :
  calls (evaluate_analyze_clustering data label) anything.
Proof.
  unfold evaluate_analyze_clustering.
  apply calls_then; [apply calls_emit; constructor|]. intros _.
  apply calls_then; [apply StandardScaler_new_calls|]. intros scaler.
  apply calls_then; [eapply calls_any; apply fit_transform_calls|]. intros [scaler1 data_scaled].
  apply calls_then; [apply tune_clustering_hyperparameter_calls|]. intros k.
  apply calls_then; [apply trained_clustering_model_calls|]. intros model.
  apply calls_then; [apply call_silhouette_score_calls|]. intros score.
  apply visualize_clustering_calls.
Qed.

Lemma script_calls (preprocessed_data : DataFrame) :
  (forall p : Q, lbl p) ->
  calls (script preprocessed_data) anything.
Proof.
  intros Hall.
  assert (Hknn : forall data label, calls (evaluate_analyze_knn data label) anything).
  { intros data label. apply evaluate_analyze_knn_calls. intros y _.
    rewrite Forall_forall. intros p _. apply Hall. }
  unfold script.
  apply calls_then; [apply evaluate_analyze_clustering_calls|]. intros _.
  apply calls_then; [apply Hknn|]. intros _.
  apply calls_then; [apply calls_lift_any|]. intros gender.
  apply calls_then; [apply evaluate_analyze_clustering_calls|]. intros _.
  apply calls_then; [apply evaluate_analyze_clustering_calls|]. intros _.
  apply calls_then; [apply Hknn|]. intros _.
  apply calls_then; [apply Hknn|]. intros _.
  apply calls_then; [apply calls_lift_any|]. intros age.
  apply calls_then; [apply evaluate_analyze_clustering_calls|]. intros _.
  apply calls_then; [apply evaluate_analyze_clustering_calls|]. intros _.
  apply calls_then; [apply evaluate_analyze_clustering_calls|]. intros _.
  apply calls_then; [apply Hknn|]. intros _.
  apply calls_then; [apply Hknn|]. intros _.
  apply Hknn.
Qed.

End HarnessCalls.

(** * Runs that do not read the global generator *)

Section HarnessSeeds.

Context {SK : Sklearn}.

Local Open Scope harness_scope.

Ltac insens :=
  repeat match goal with
    | |- insensitive (ret _) => apply insensitive_ret
    | |- insensitive (lift _) => apply insensitive_lift
    | |- insensitive (raise _) => apply insensitive_raise
    | |- insensitive (emit _) => apply insensitive_emit
    | |- insensitive fresh => apply insensitive_fresh
    | |- insensitive (with_random_state (Some _) _) => apply insensitive_seeded
    | |- insensitive (bind _ _) => apply insensitive_bind; [ | intros ? ]
    | |- insensitive (for_each _ _ _) => apply insensitive_for_each; intros ? ?
    | |- insensitive (comprehension _ _) => apply insensitive_comprehension; intros ?
    | |- insensitive (match ?x with _ => _ end) => destruct x
    end.

Lemma StandardScaler_new_insensitive : insensitive StandardScaler_new.
Proof. unfold StandardScaler_new. insens. Qed.

Lemma fit_transform_insensitive (scaler : StandardScaler) (X : table) :
  insensitive (fit_transform scaler X).
Proof. unfold fit_transform. insens. Qed.

Lemma KNNClassifier_new_insensitive : insensitive KNNClassifier_new.
Proof. unfold KNNClassifier_new. insens. Qed.

Lemma knn_fit_insensitive (knn : KNNClassifier) (X : DataFrame) (y : Series) :
  insensitive (knn_fit knn X y).
Proof. unfold knn_fit. insens. Qed.

Lemma knn_predict_insensitive (knn : KNNClassifier) (query : DataFrame) (k : Z) :
  insensitive (knn_predict knn query k).
Proof. unfold knn_predict. insens. Qed.

Lemma predict_rows_insensitive (knn : KNNClassifier) (X : table) (cols : list string)
    (n_neighbors : Z) (n : nat) :
  insensitive (predict_rows knn X cols n_neighbors n).
Proof. unfold predict_rows. insens. apply knn_predict_insensitive. Qed.

Ltac insens_calls :=
  insens;
  repeat match goal with
    | |- insensitive StandardScaler_new => apply StandardScaler_new_insensitive
    | |- insensitive (fit_transform _ _) => apply fit_transform_insensitive
    | |- insensitive KNNClassifier_new => apply KNNClassifier_new_insensitive
    | |- insensitive (knn_fit _ _ _) => apply knn_fit_insensitive
    | |- insensitive (predict_rows _ _ _ _ _) => apply predict_rows_insensitive
    end.

Lemma cv_fold_insensitive (X : DataFrame) (y : Series) (n_neighbors : Z)
    (fold : list nat * list nat) (accuracy : list Q) :
  insensitive (cv_fold X y n_neighbors fold accuracy).
Proof. unfold cv_fold. insens_calls. Qed.

Lemma k_fold_cv_knn_insensitive (X : DataFrame) (y : Series) (n_neighbors : Z) :
  insensitive (k_fold_cv_knn X y n_neighbors).
Proof. unfold k_fold_cv_knn. insens. apply cv_fold_insensitive. Qed.

Lemma confusion_matrix_knn_insensitive (y_test y_pred : Series) :
  insensitive (confusion_matrix_knn y_test y_pred).
Proof. unfold confusion_matrix_knn. insens. Qed.

Lemma visualize_roc_curve_knn_insensitive (y_test y_pred : Series) (label : string) :
  insensitive (visualize_roc_curve_knn y_test y_pred label).
Proof. unfold visualize_roc_curve_knn. insens. Qed.

Lemma evaluate_analyze_knn_insensitive (data : DataFrame) (label : string) :
  insensitive (evaluate_analyze_knn data label).
Proof.
  unfold evaluate_analyze_knn. insens_calls.
  - apply k_fold_cv_knn_insensitive.
  - apply confusion_matrix_knn_insensitive.
  - apply visualize_roc_curve_knn_insensitive.
Qed.

Lemma trained_clustering_model_insensitive (data : table) (n_clusters : nat) :
  insensitive (trained_clustering_model data n_clusters).
Proof. unfold trained_clustering_model. insens. Qed.

Lemma call_silhouette_score_insensitive (data : table) (cl : list nat) :
  insensitive (call_silhouette_score data cl).
Proof. unfold call_silhouette_score. insens. Qed.

Lemma tune_clustering_hyperparameter_insensitive (data : table) :
  insensitive (tune_clustering_hyperparameter data).
Proof.
  unfold tune_clustering_hyperparameter. insens.
  - apply trained_clustering_model_insensitive.
  - apply call_silhouette_score_insensitive.
Qed.

End HarnessSeeds.

(** * Runs that return *)

Section HarnessRuns.

Context {SK : Sklearn}.

Local Open Scope harness_scope.

Lemma extend_0_nil (w : World) : extend w 0 [] = w.
Proof.
  destruct w as [g i t]. unfold extend. simpl. now rewrite Nat.add_0_r, app_nil_r.
Qed.

Lemma extend_extend (w : World) (k1 k2 : nat) (e1 e2 : list Event) :
  extend (extend w k1 e1) k2 e2 = extend w (k1 + k2) (e1 ++ e2).
Proof.
  unfold extend. simpl. now rewrite Nat.add_assoc, app_assoc.
Qed.

Lemma next_id_extend (w : World) (k : nat) (evs : list Event) :
  next_id (extend w k evs) = (next_id w + k)%nat.
Proof. reflexivity. Qed.

Lemma bind_ok (A B : Type) (m : M A) (f : A -> M B) (w w' : World) (b : B) :
  bind m f w = (w', Ok b) ->
  exists w1 a, m w = (w1, Ok a) /\ f a w1 = (w', Ok b).
Proof.
  unfold bind. destruct (m w) as [w1 [a|e]]; [|discriminate].
  intros H. now exists w1, a.
Qed.

Lemma bind_run (A B : Type) (m : M A) (f : A -> M B) (w w1 : World) (a : A) :
  m w = (w1, Ok a) -> bind m f w = f a w1.
Proof. intros H. unfold bind. now rewrite H. Qed.

Arguments bind_ok {A B m f w w' b} _.
Arguments bind_run {A B m} f {w w1 a} _.

Lemma ret_ok (A : Type) (a b : A) (w w1 : World) :
  ret a w = (w1, Ok b) -> w1 = w /\ b = a.
Proof. unfold ret. intros H. inversion H. auto. Qed.

Lemma lift_ok (A : Type) (r : result A) (a : A) (w w1 : World) :
  lift r w = (w1, Ok a) -> w1 = w /\ r = Ok a.
Proof. unfold lift. intros H. inversion H. auto. Qed.

Lemma emit_ok (e : Event) (u : unit) (w w1 : World) :
  emit e w = (w1, Ok u) -> w1 = extend w 0 [e].
Proof.
  unfold emit, extend. intros H. inversion H. now rewrite Nat.add_0_r.
Qed.

Lemma emit_run (e : Event) (w : World) : emit e w = (extend w 0 [e], Ok tt).
Proof. unfold emit, extend. now rewrite Nat.add_0_r. Qed.

Lemma fresh_run (w : World) : fresh w = (extend w 1 [], Ok (next_id w)).
Proof. unfold fresh, extend. now rewrite Nat.add_1_r, app_nil_r. Qed.

Lemma seeded_run (A : Type) (seed : Z) (f : RandomState -> A * RandomState) (w : World) :
  with_random_state (Some seed) f w = (w, Ok (fst (f (seed_rng seed)))).
Proof. reflexivity. Qed.

Lemma StandardScaler_new_run (w : World) :
  StandardScaler_new w =
  (extend w 1 [CallScalerNew (next_id w)],
   Ok {| scaler_id := next_id w; scaler_stats := None |}).
Proof.
  unfold StandardScaler_new.
  rewrite (bind_run _ (fresh_run w)).
  rewrite (bind_run _ (emit_run _ _)).
  unfold ret. now rewrite extend_extend.
Qed.

Lemma fit_transform_run (scaler : StandardScaler) (X : table) (w : World) :
  fit_transform scaler X w =
  (extend w 0 [CallFitTransform (scaler_id scaler) X],
   Ok ({| scaler_id := scaler_id scaler; scaler_stats := Some (scaler_fit X) |},
       scaler_transform (scaler_fit X) X)).
Proof.
  unfold fit_transform. now rewrite (bind_run _ (emit_run _ _)).
Qed.

Lemma KNNClassifier_new_run (w : World) :
  KNNClassifier_new w =
  (extend w 1 [CallKnnNew (next_id w)],
   Ok {| knn_id := next_id w; knn_state := KNN.new Q |}).
Proof.
  unfold KNNClassifier_new.
  rewrite (bind_run _ (fresh_run w)).
  rewrite (bind_run _ (emit_run _ _)).
  unfold ret. now rewrite extend_extend.
Qed.

Lemma knn_fit_run (knn : KNNClassifier) (X : DataFrame) (y : Series) (w : World) :
  knn_fit knn X y w =
  (extend w 0 [CallKnnFit (knn_id knn) X y],
   match KNN.fit (knn_state knn) (rows X) y with
   | Ok state => Ok {| knn_id := knn_id knn; knn_state := state |}
   | Raise e => Raise e
   end).
Proof.
  unfold knn_fit. rewrite (bind_run _ (emit_run _ _)).
  unfold bind, lift, ret. now destruct (KNN.fit (knn_state knn) (rows X) y).
Qed.

Lemma knn_predict_run (knn : KNNClassifier) (cols : list string) (q : vector) (k : Z) (w : World) :
  knn_predict knn {| columns := cols; rows := [q] |} k w =
  (extend w 0 [CallKnnPredict (knn_id knn) {| columns := cols; rows := [q] |} k],
   KNN.predict Qeq_bool (knn_state knn) q k).
Proof.
  unfold knn_predict. now rewrite (bind_run _ (emit_run _ _)).
Qed.

Lemma skipn_nth_error (A : Type) (l : list A) (i : nat) (x : A) :
  nth_error l i = Some x -> skipn i l = x :: skipn (S i) l.
Proof.
  revert i; induction l as [|a l IH]; intros [|i]; simpl; try discriminate.
  - intros H; now inversion H.
  - intros H. now rewrite (IH i H).
Qed.

Lemma mk_DataFrame_ok (array : table) (cols : list string) (df : DataFrame) :
  mk_DataFrame array cols = Ok df ->
  df = {| columns := cols; rows := array |} /\
  Forall (fun row => List.length row = List.length cols) array.
Proof.
  unfold mk_DataFrame.
  destruct (forallb (fun row => Nat.eqb (List.length row) (List.length cols)) array) eqn:E;
    [|discriminate].
  intros H; inversion H; subst. split; [reflexivity|].
  rewrite forallb_forall in E. rewrite Forall_forall. intros row Hr.
  apply Nat.eqb_eq. now apply E.
Qed.

Lemma mk_DataFrame_run (array : table) (cols : list string) :
  Forall (fun row => List.length row = List.length cols) array ->
  mk_DataFrame array cols = Ok {| columns := cols; rows := array |}.
Proof.
  intros H. unfold mk_DataFrame.
  replace (forallb (fun row => Nat.eqb (List.length row) (List.length cols)) array) with true;
    [reflexivity|].
  symmetry. apply forallb_forall. rewrite Forall_forall in H.
  intros row Hr. apply Nat.eqb_eq. now apply H.
Qed.

Lemma predict_from_ok (knn : KNNClassifier) (Xs : table) (cols : list string) (n_neighbors : Z) :
  forall (m i : nat) (w w1 : World) (y_pred : Series),
    comprehension
      (fun i =>
         row <- lift (match nth_error Xs i with
                      | Some row => Ok row
                      | None => Raise IndexError
                      end) ;;
         query <- lift (mk_DataFrame [row] cols) ;;
         knn_predict knn query n_neighbors)
      (seq i m) w = (w1, Ok y_pred) ->
    List.length (firstn m (skipn i Xs)) = m /\
    Forall (fun row => List.length row = List.length cols) (firstn m (skipn i Xs)) /\
    w1 = extend w 0 (predict_events (knn_id knn) cols n_neighbors (firstn m (skipn i Xs))) /\
    predictions_of (knn_state knn) n_neighbors (firstn m (skipn i Xs)) y_pred.
Proof.
  induction m as [|m IH]; intros i w w1 y_pred H; simpl in H.
  - apply ret_ok in H. destruct H as [-> ->]. simpl.
    repeat split; try constructor. now rewrite extend_0_nil.
  - apply bind_ok in H. destruct H as (w2 & p & Hp & H).
    apply bind_ok in Hp. destruct Hp as (w3 & row & Hrow & Hp).
    apply lift_ok in Hrow. destruct Hrow as [-> Hrow].
    destruct (nth_error Xs i) as [r|] eqn:E; [|discriminate]. inversion Hrow; subst r.
    apply bind_ok in Hp. destruct Hp as (w4 & query & Hq & Hp).
    apply lift_ok in Hq. destruct Hq as [-> Hq].
    apply mk_DataFrame_ok in Hq. destruct Hq as [-> Hlen].
    rewrite knn_predict_run in Hp. inversion Hp as [[Hw Hpred]]. clear Hp.
    apply bind_ok in H. destruct H as (w5 & ys & Hys & H).
    apply ret_ok in H. destruct H as [-> ->].
    destruct (IH (S i) _ _ _ Hys) as (Hl & Hwd & Hw5 & Hps).
    rewrite (skipn_nth_error _ _ _ _ E), firstn_cons.
    split; [cbn [List.length]; now rewrite Hl|].
    split; [constructor; [now inversion Hlen | exact Hwd]|].
    split; [|constructor; assumption].
    rewrite Hw5, <- Hw, extend_extend. reflexivity.
Qed.

Lemma predict_rows_ok (knn : KNNClassifier) (Xs : table) (cols : list string)
    (n_neighbors : Z) (m : nat) (w w1 : World) (y_pred : Series) :
  predict_rows knn Xs cols n_neighbors m w = (w1, Ok y_pred) ->
  List.length (firstn m Xs) = m /\
  Forall (fun row => List.length row = List.length cols) (firstn m Xs) /\
  w1 = extend w 0 (predict_events (knn_id knn) cols n_neighbors (firstn m Xs)) /\
  predictions_of (knn_state knn) n_neighbors (firstn m Xs) y_pred.
Proof.
  unfold predict_rows. intros H. exact (predict_from_ok knn Xs cols n_neighbors m 0 _ _ _ H).
Qed.


Ltac run_bind H x Hx :=
  apply bind_ok in H; destruct H as (? & x & Hx & H).

Ltac run_lift H x Hx :=
  run_bind H x Hx; apply lift_ok in Hx; destruct Hx as [-> Hx].

Lemma cv_fold_ok (X : DataFrame) (y : Series) (n_neighbors : Z)
    (fold : list nat * list nat) (accuracy accuracy' : list Q) (w w' : World) :
  cv_fold X y n_neighbors fold accuracy w = (w', Ok accuracy') ->
  exists h : Holdout,
    holdout_of X y n_neighbors fold h /\
    w' = extend w 2 (fold_events (next_id w) n_neighbors h) /\
    accuracy' = (accuracy ++ [fold_accuracy h])%list.
Proof.
  destruct fold as [train_index test_index]. unfold cv_fold. intros H.
  run_lift H X_train HXtr. run_lift H X_test HXte.
  run_lift H y_train Hytr. run_lift H y_test Hyte.
  run_bind H scaler Hs. rewrite StandardScaler_new_run in Hs. inversion Hs; subst; clear Hs.
  run_bind H r1 Hr1. rewrite fit_transform_run in Hr1. inversion Hr1; subst; clear Hr1.
  run_bind H r2 Hr2. rewrite fit_transform_run in Hr2. inversion Hr2; subst; clear Hr2.
  simpl scaler_id in H.
  run_bind H knn Hk. rewrite KNNClassifier_new_run in Hk. inversion Hk; subst; clear Hk.
  run_lift H train Hdf. apply mk_DataFrame_ok in Hdf. destruct Hdf as [-> _].
  run_bind H knn1 Hfit. rewrite knn_fit_run in Hfit. simpl in Hfit.
  destruct (KNN.fit (KNN.new Q) (scaler_transform (scaler_fit (rows X_train)) (rows X_train))
                    y_train) as [state|e] eqn:Efit; [|discriminate].
  inversion Hfit; subst; clear Hfit.
  apply fit_ok_inv in Efit. destruct Efit as [-> Hlen].
  run_bind H y_pred Hp. apply predict_rows_ok in Hp.
  destruct Hp as (Hl & _ & -> & Hps). simpl in Hps.
  run_bind H u He. apply emit_ok in He. subst.
  apply ret_ok in H. destruct H as [-> ->].
  exists {| h_X_train := X_train; h_X_test := X_test; h_y_train := y_train;
            h_y_test := y_test; h_y_pred := y_pred |}.
  split.
  { unfold holdout_of, queries, scaled_test, scaled_train, fitted. simpl.
    repeat split; assumption. }
  split; [|reflexivity].
  rewrite !extend_extend.
  unfold fold_events, holdout_events, queries, scaled_test, scaled_train.
  cbn [h_X_train h_X_test h_y_train h_y_test h_y_pred knn_id].
  replace (next_id w + 1 + 0 + 0)%nat with (S (next_id w)) by lia.
  rewrite <- !app_assoc. reflexivity.
Qed.

Lemma cv_loop_ok (X : DataFrame) (y : Series) (n_neighbors : Z) :
  forall (folds : list (list nat * list nat)) (accuracy accuracy' : list Q) (w w' : World),
    for_each folds (cv_fold X y n_neighbors) accuracy w = (w', Ok accuracy') ->
    exists hs : list Holdout,
      Forall2 (holdout_of X y n_neighbors) folds hs /\
      w' = extend w (2 * List.length folds) (cv_events (next_id w) n_neighbors hs) /\
      accuracy' = (accuracy ++ map fold_accuracy hs)%list.
Proof.
  induction folds as [|fold folds IH]; intros accuracy accuracy' w w' H; simpl in H.
  - apply ret_ok in H. destruct H as [-> ->]. exists []. simpl.
    split; [constructor|]. now rewrite extend_0_nil, app_nil_r.
  - run_bind H acc1 Hf. apply cv_fold_ok in Hf. destruct Hf as (h & Hh & -> & ->).
    apply IH in H. destruct H as (hs & Hhs & -> & ->).
    exists (h :: hs). split; [now constructor|].
    rewrite extend_extend, next_id_extend. cbn [cv_events map List.length].
    replace (next_id w + 2)%nat with (S (S (next_id w))) by lia.
    replace (2 + 2 * List.length folds)%nat with (2 * S (List.length folds))%nat by lia.
    rewrite <- app_assoc. split; reflexivity.
Qed.

Lemma k_fold_cv_knn_ok (X : DataFrame) (y : Series) (n_neighbors : Z) (w w' : World) (r : Q) :
  k_fold_cv_knn X y n_neighbors w = (w', Ok r) ->
  exists hs : list Holdout,
    Forall2 (holdout_of X y n_neighbors) (cv_folds (shape0 X)) hs /\
    w' = extend w (2 * List.length (cv_folds (shape0 X)))
           (CallKFold 10 true (Some 42) (shape0 X) :: cv_events (next_id w) n_neighbors hs) /\
    mean (map fold_accuracy hs) = Ok r.
Proof.
  unfold k_fold_cv_knn. intros H.
  run_bind H u He. apply emit_ok in He. subst.
  run_bind H folds Hf. rewrite seeded_run in Hf. inversion Hf; subst; clear Hf.
  run_bind H accuracy Hl. apply cv_loop_ok in Hl. destruct Hl as (hs & Hhs & -> & ->).
  apply lift_ok in H. destruct H as [-> Hm].
  exists hs. split; [exact Hhs|]. split; [|exact Hm].
  rewrite extend_extend, next_id_extend, Nat.add_0_r. reflexivity.
Qed.

Lemma evaluate_analyze_knn_ok (data : DataFrame) (label : string) (w w' : World) (u : unit) :
  evaluate_analyze_knn data label w = (w', Ok u) ->
  exists (X : DataFrame) (y : Series) (h : Holdout) (hs : list Holdout) (accuracy : Q),
    drop data "dec" = Ok X /\
    getitem data "dec" = Ok y /\
    holdout_of X y 5 (holdout_split (shape0 X)) h /\
    Forall2 (holdout_of X y 5) (cv_folds (shape0 X)) hs /\
    mean (map fold_accuracy hs) = Ok accuracy /\
    w' = extend w (2 + 2 * List.length (cv_folds (shape0 X)))
           ([ Enter "evaluate_analyze_knn" data label;
              CallTrainTestSplit (3 # 10) (Some 42) (shape0 X) ]
            ++ holdout_events (next_id w) 5 h
            ++ CallKFold 10 true (Some 42) (shape0 X) :: cv_events (next_id w + 2) 5 hs
            ++ report_events label accuracy h).
Proof.
  unfold evaluate_analyze_knn. intros H.
  run_bind H u0 He. apply emit_ok in He. subst.
  run_lift H X HX. run_lift H y Hy.
  run_bind H u1 He. apply emit_ok in He. subst.
  run_bind H sp Hsp. rewrite seeded_run in Hsp. inversion Hsp; subst; clear Hsp.
  fold (holdout_split (shape0 X)) in H.
  destruct (holdout_split (shape0 X)) as [train_index test_index] eqn:Esplit.
  run_lift H X_train HXtr. run_lift H X_test HXte.
  run_lift H y_train Hytr. run_lift H y_test Hyte.
  run_bind H scaler Hs. rewrite StandardScaler_new_run in Hs. inversion Hs; subst; clear Hs.
  run_bind H r1 Hr1. rewrite fit_transform_run in Hr1. inversion Hr1; subst; clear Hr1.
  run_bind H r2 Hr2. rewrite fit_transform_run in Hr2. inversion Hr2; subst; clear Hr2.
  simpl scaler_id in H.
  run_bind H knn Hk. rewrite KNNClassifier_new_run in Hk. inversion Hk; subst; clear Hk.
  run_lift H train Hdf. apply mk_DataFrame_ok in Hdf. destruct Hdf as [-> _].
  run_bind H knn1 Hfit. rewrite knn_fit_run in Hfit. simpl in Hfit.
  destruct (KNN.fit (KNN.new Q) (scaler_transform (scaler_fit (rows X_train)) (rows X_train))
                    y_train) as [state|e] eqn:Efit; [|discriminate].
  inversion Hfit; subst; clear Hfit.
  apply fit_ok_inv in Efit. destruct Efit as [-> Hlen].
  run_bind H y_pred Hp. apply predict_rows_ok in Hp.
  destruct Hp as (Hl & _ & -> & Hps). simpl in Hps.
  run_bind H accuracy Hcv. apply k_fold_cv_knn_ok in Hcv.
  destruct Hcv as (hs & Hhs & -> & Hmean).
  run_bind H u2 He. apply emit_ok in He. subst.
  run_bind H mr Hcm. unfold confusion_matrix_knn in Hcm.
  run_bind Hcm u3 He. apply emit_ok in He. subst.
  run_bind Hcm u4 He. apply emit_ok in He. subst.
  apply ret_ok in Hcm. destruct Hcm as [-> ->].
  run_bind H u5 He. apply emit_ok in He. subst.
  run_bind H u6 He. apply emit_ok in He. subst.
  run_bind H u7 Hroc. unfold visualize_roc_curve_knn in Hroc.
  run_bind Hroc u8 He. apply emit_ok in He. subst.
  destruct (roc_curve y_test y_pred) as [[fpr tpr] thresholds] eqn:Eroc.
  run_bind Hroc u9 He. apply emit_ok in He. subst.
  apply emit_ok in Hroc. subst.
  run_bind H u10 He. apply emit_ok in He. subst.
  apply emit_ok in H. subst.
  exists X, y,
    {| h_X_train := X_train; h_X_test := X_test; h_y_train := y_train;
       h_y_test := y_test; h_y_pred := y_pred |}, hs, accuracy.
  split; [exact HX|]. split; [exact Hy|].
  split.
  { rewrite Esplit. unfold holdout_of, queries, scaled_test, scaled_train, fitted. simpl.
    repeat split; assumption. }
  split; [exact Hhs|]. split; [exact Hmean|].
  rewrite !extend_extend. rewrite ?next_id_extend.
  unfold report_events, holdout_events, queries, scaled_test, scaled_train.
  cbn [h_X_train h_X_test h_y_train h_y_test h_y_pred knn_id].
  rewrite Eroc. cbn [fst snd Nat.add]. rewrite ?Nat.add_0_r.
  replace (next_id w + 1)%nat with (S (next_id w)) by lia.
  f_equal; try lia; rewrite <- ?app_assoc; cbn [app]; reflexivity.
Qed.

Lemma lift_run (A : Type) (r : result A) (a : A) (w : World) :
  r = Ok a -> lift r w = (w, Ok a).
Proof. intros ->. reflexivity. Qed.

Lemma iloc_total (A : Type) (l : list A) (index : list nat) :
  Forall (fun i => (i < List.length l)%nat) index ->
  exists xs, iloc l index = Ok xs.
Proof.
  induction 1 as [|i index Hi _ [xs IH]]; simpl; [now exists []|].
  destruct (nth_error l i) as [x|] eqn:E; [|apply nth_error_None in E; lia].
  rewrite IH. now exists (x :: xs).
Qed.

Lemma iloc_ok (A : Type) (l : list A) (index : list nat) (xs : list A) :
  iloc l index = Ok xs ->
  List.length xs = List.length index /\ Forall (fun x => In x l) xs.
Proof.
  revert xs; induction index as [|i index IH]; intros xs; simpl.
  - intros H; inversion H; subst. split; [reflexivity | constructor].
  - destruct (nth_error l i) as [x|] eqn:E; [|discriminate].
    destruct (iloc l index) as [ys|e]; [|discriminate].
    intros H; inversion H; subst. destruct (IH ys eq_refl) as [Hl Hin].
    split; [simpl; now rewrite Hl|]. constructor; [|exact Hin].
    now apply nth_error_In in E.
Qed.

Lemma df_iloc_ok (X : DataFrame) (index : list nat) (X' : DataFrame) :
  df_iloc X index = Ok X' ->
  columns X' = columns X /\ iloc (rows X) index = Ok (rows X').
Proof.
  unfold df_iloc. destruct (iloc (rows X) index) as [r|e]; [|discriminate].
  intros H; inversion H; subst. auto.
Qed.

Lemma iloc_rows_at (X : DataFrame) (index : list nat) (r : table) :
  iloc (rows X) index = Ok r -> r = rows_at X index.
Proof.
  revert r; induction index as [|i index IH]; intros r; simpl.
  - intros H; now inversion H.
  - destruct (nth_error (rows X) i) as [x|]; [|discriminate].
    destruct (iloc (rows X) index) as [ys|e]; [|discriminate].
    intros H; inversion H; subst. simpl. f_equal. now apply IH.
Qed.


Lemma Forall2_length_right (A B : Type) (R : A -> B -> Prop) (l : list A) (l' : list B) :
  Forall2 R l l' -> List.length l' = List.length l.
Proof. induction 1; simpl; congruence. Qed.

Lemma shape_kept_width (t : table) (width : nat) :
  shape_kept t ->
  Forall (fun row => List.length row = width) t ->
  Forall (fun row => List.length row = width) (scaler_transform (scaler_fit t) t).
Proof.
  unfold shape_kept. intros H. induction H as [|row row' t t' Hr _ IH]; intros Hw.
  - constructor.
  - inversion Hw; subst. constructor; [congruence | now apply IH].
Qed.

Lemma knn_fit_run_ok (knn : KNNClassifier) (X : DataFrame) (y : Series)
    (state : KNN.KNNClassifier Q) (w : World) :
  KNN.fit (knn_state knn) (rows X) y = Ok state ->
  knn_fit knn X y w =
  (extend w 0 [CallKnnFit (knn_id knn) X y],
   Ok {| knn_id := knn_id knn; knn_state := state |}).
Proof. intros H. now rewrite knn_fit_run, H. Qed.





End HarnessRuns.

Arguments bind_ok {SK A B m f w w' b} _.
Arguments bind_run {SK A B m} f {w w1 a} _.

(** * The cross-validation *)

Section CrossValidation.

Context {SK : Sklearn}.


End CrossValidation.




(** * What reaches the classifier and the metrics *)

Section HarnessClaims.

Context {SK : Sklearn}.

Lemma calls_append (A : Type) (lbl : Q -> Prop) (P : Event -> Prop) (m : M A) :
  (forall e, harness_event lbl e -> P e) ->
  emits (harness_event lbl) m (fun _ => True) ->
  appends P m.
Proof.
  intros HP Hm w. destruct (Hm w) as [[evs [Ht Hev]] _].
  exists evs. split; [exact Ht|]. eapply Forall_impl; [exact HP | exact Hev].
Qed.


Lemma harness_event_hard_label (y : Series) (e : Event) :
  harness_event (fun p => In p y) e -> hard_label_call y e.
Proof. intros H. destruct H; simpl; auto. Qed.

Lemma harness_event_random_state (lbl : Q -> Prop) (e : Event) :
  harness_event lbl e -> random_state_call e.
Proof. intros H. destruct H; simpl; auto. Qed.


Lemma own_labels (y : Series) : Forall (fun p => In p y) y.
Proof. rewrite Forall_forall. auto. Qed.


Lemma iloc_incl (A : Type) (l : list A) (index : list nat) (xs : list A) (x : A) :
  iloc l index = Ok xs -> In x xs -> In x l.
Proof.
  intros H Hx. destruct (iloc_ok _ _ _ _ H) as [_ Hin].
  rewrite Forall_forall in Hin. now apply Hin.
Qed.

Lemma holdout_predictions_labels (X : DataFrame) (y : Series) (n_neighbors : Z)
    (fold : list nat * list nat) (h : Holdout) :
  holdout_of X y n_neighbors fold h ->
  Forall (fun p => In p y) (h_y_pred h).
Proof.
  intros (_ & _ & Hytr & _ & _ & _ & Hp).
  unfold predictions_of, fitted in Hp.
  induction Hp as [|q p qs ps Hq _ IH]; constructor; [|exact IH].
  destruct (predict_in_labels Q Qeq_bool _ _ _ _ Hq) as [ts [Hts Hin]].
  inversion Hts; subst ts. simpl in Hin.
  exact (iloc_incl _ _ _ _ _ Hytr Hin).
Qed.

Lemma metric_calls_app (evs evs' : list Event) :
  metric_calls (evs ++ evs')%list = (metric_calls evs ++ metric_calls evs')%list.
Proof. unfold metric_calls. apply flat_map_app. Qed.

Lemma metric_calls_predict_events (kid : nat) (cols : list string) (n_neighbors : Z)
    (qs : table) :
  metric_calls (predict_events kid cols n_neighbors qs) = [].
Proof. induction qs as [|q qs IH]; [reflexivity | exact IH]. Qed.

Lemma metric_calls_holdout_events (id : nat) (n_neighbors : Z) (h : Holdout) :
  metric_calls (holdout_events id n_neighbors h) = [].
Proof.
  unfold holdout_events. rewrite metric_calls_app, metric_calls_predict_events. reflexivity.
Qed.

Lemma metric_calls_cv_events (n_neighbors : Z) (hs : list Holdout) :
  forall id : nat,
    metric_calls (cv_events id n_neighbors hs)
    = map (fun f => ("accuracy_score"%string, h_y_test f, h_y_pred f)) hs.
Proof.
  induction hs as [|h hs IH]; intros id; [reflexivity|].
  cbn [cv_events map]. unfold fold_events.
  rewrite !metric_calls_app, metric_calls_holdout_events, IH. reflexivity.
Qed.

(** C6.  Every score [evaluate_analyze_knn] or [k_fold_cv_knn] hands to a
    metric (accuracy, confusion matrix, report, ROC curve, AUC) is a value
    of the label column, [dec], in every run, returning or raising.  When
    [evaluate_analyze_knn] returns, the metric calls it made are exactly:
    one accuracy score per fold of the cross-validation, on that fold's
    predictions; then the confusion matrix, the report, [roc_curve] and
    [roc_auc_score], all four on the test labels of the holdout split and
    the list [y_pred] of what [predict] returned for its test rows, in
    order.  What [predict] returns is one of the labels the classifier
    was fitted on. *)
Theorem roc_fed_hard_labels :
  (forall (data : DataFrame) (label : string) (y : Series),
      getitem data "dec" = Ok y ->
      appends (hard_label_call y) (evaluate_analyze_knn data label)) /\
  (forall (X : DataFrame) (y : Series) (n_neighbors : Z),
      appends (hard_label_call y) (k_fold_cv_knn X y n_neighbors)) /\
  (forall (data : DataFrame) (label : string) (w w' : World) (u : unit),
      evaluate_analyze_knn data label w = (w', Ok u) ->
      exists (X : DataFrame) (y : Series) (h : Holdout) (hs : list Holdout),
        drop data "dec" = Ok X /\
        getitem data "dec" = Ok y /\
        holdout_of X y 5 (holdout_split (shape0 X)) h /\
        Forall2 (holdout_of X y 5) (cv_folds (shape0 X)) hs /\
        predictions_of (fitted h) 5 (queries h) (h_y_pred h) /\
        Forall (fun p => In p y) (h_y_pred h) /\
        metric_calls (trace w')
        = (metric_calls (trace w)
           ++ map (fun f => ("accuracy_score"%string, h_y_test f, h_y_pred f)) hs
           ++ [ ("confusion_matrix"%string, h_y_test h, h_y_pred h);
                ("classification_report"%string, h_y_test h, h_y_pred h);
                ("roc_curve"%string, h_y_test h, h_y_pred h);
                ("roc_auc_score"%string, h_y_test h, h_y_pred h) ])%list) /\
  (forall (ts : KNN.TrainingSet Q) (q : vector) (k : Z) (p : Q),
      KNN.predict Qeq_bool (Some ts) q k = Ok p -> In p (KNN.labels ts)).
Proof.
  split.
  { intros data label y Hy.
    apply calls_append with (lbl := fun p => In p y); [apply harness_event_hard_label|].
    apply evaluate_analyze_knn_calls. intros y' Hy'.
    rewrite Hy in Hy'. inversion Hy'; subst y'. apply own_labels. }
  split.
  { intros X y n.
    apply calls_append with (lbl := fun p => In p y); [apply harness_event_hard_label|].
    apply k_fold_cv_knn_calls, own_labels. }
  split.
  { intros data label w w' u H.
    destruct (evaluate_analyze_knn_ok _ _ _ _ _ H)
      as (X & y & h & hs & accuracy & HX & Hy & Hh & Hhs & _ & ->).
    exists X, y, h, hs. split; [exact HX|]. split; [exact Hy|]. split; [exact Hh|].
    split; [exact Hhs|]. split; [apply Hh|].
    split; [exact (holdout_predictions_labels _ _ _ _ _ Hh)|].
    unfold extend. cbn [trace].
    change (CallKFold 10 true (Some 42) (shape0 X)
            :: cv_events (next_id w + 2) 5 hs ++ report_events label accuracy h)%list
      with ([CallKFold 10 true (Some 42) (shape0 X)]
            ++ cv_events (next_id w + 2) 5 hs ++ report_events label accuracy h)%list.
    rewrite !metric_calls_app, metric_calls_holdout_events, metric_calls_cv_events.
    reflexivity. }
  intros ts q k p Hp.
  destruct (predict_in_labels Q Qeq_bool _ _ _ _ Hp) as [ts' [Hs Hin]].
  inversion Hs; subst ts'. exact Hin.
Qed.

(** C9.  When [k_fold_cv_knn] returns, each fold went as [fold_events]
    says: one scaler, [fit_transform] on the training partition, then
    [fit_transform] again, on the test partition; the classifier is fitted
    on the training rows transformed with the statistics of the training
    rows, and every query is a test row transformed with the statistics
    of the test rows.  When [evaluate_analyze_knn] returns, its holdout
    split went the same way. *)
Theorem test_rows_scaled_by_own_statistics :
  (forall (X : DataFrame) (y : Series) (n_neighbors : Z) (w w' : World) (r : Q),
      k_fold_cv_knn X y n_neighbors w = (w', Ok r) ->
      exists hs : list Holdout,
        Forall2 (holdout_of X y n_neighbors) (cv_folds (shape0 X)) hs /\
        trace w' = (trace w ++ CallKFold 10 true (Some 42) (shape0 X)
                            :: cv_events (next_id w) n_neighbors hs)%list /\
        Forall (fun h =>
                  fitted h = Some {| KNN.features :=
                                       scaler_transform (scaler_fit (rows (h_X_train h)))
                                                        (rows (h_X_train h));
                                     KNN.labels := h_y_train h |} /\
                  queries h = firstn (shape0 (h_X_test h))
                                (scaler_transform (scaler_fit (rows (h_X_test h)))
                                                  (rows (h_X_test h)))) hs) /\
  (forall (data : DataFrame) (label : string) (w w' : World) (u : unit),
      evaluate_analyze_knn data label w = (w', Ok u) ->
      exists (X : DataFrame) (y : Series) (h : Holdout) (before after : list Event),
        holdout_of X y 5 (holdout_split (shape0 X)) h /\
        trace w' = (before ++ holdout_events (next_id w) 5 h ++ after)%list /\
        fitted h = Some {| KNN.features :=
                             scaler_transform (scaler_fit (rows (h_X_train h)))
                                              (rows (h_X_train h));
                           KNN.labels := h_y_train h |} /\
        queries h = firstn (shape0 (h_X_test h))
                      (scaler_transform (scaler_fit (rows (h_X_test h)))
                                        (rows (h_X_test h)))).
Proof.
  split.
  - intros X y n w w' r H.
    destruct (k_fold_cv_knn_ok _ _ _ _ _ _ H) as (hs & Hhs & -> & _).
    exists hs. split; [exact Hhs|]. split; [reflexivity|].
    rewrite Forall_forall. intros h _. split; reflexivity.
  - intros data label w w' u H.
    destruct (evaluate_analyze_knn_ok _ _ _ _ _ H)
      as (X & y & h & hs & accuracy & _ & _ & Hh & _ & _ & ->).
    exists X, y, h.
    exists (trace w ++ [ Enter "evaluate_analyze_knn" data label;
                         CallTrainTestSplit (3 # 10) (Some 42) (shape0 X) ])%list.
    exists (CallKFold 10 true (Some 42) (shape0 X) :: cv_events (next_id w + 2) 5 hs
            ++ report_events label accuracy h)%list.
    split; [exact Hh|]. split; [|split; reflexivity].
    unfold extend. cbn [trace]. now rewrite <- !app_assoc.
Qed.

Lemma insensitive_same_run (A : Type) (m : M A) :
  insensitive m ->
  forall (w : World) (g : RandomState),
    snd (m (with_ambient g w)) = snd (m w) /\
    trace (fst (m (with_ambient g w))) = trace (fst (m w)).
Proof.
  intros H w g. rewrite (H w g). split; reflexivity.
Qed.

(** C10, as amended.  Whatever the data and the world, every [KMeans],
    [KFold] and [train_test_split] the script constructs is given
    [random_state=42], and every [PCA], the one of the scatter plot, is
    given none.  A run of [k_fold_cv_knn] or of [evaluate_analyze_knn]
    started with the global generator in another state returns the same
    value (the same accuracy, or the same exception) and appends the same
    events, hence works on the same partitions and makes the same
    predictions; so does the tuning of the cluster count and the training
    of a K-Means model. *)
Theorem seeded_runs_reproducible :
  (forall preprocessed_data : DataFrame,
      appends random_state_call (script preprocessed_data)) /\
  (forall (X : DataFrame) (y : Series) (n_neighbors : Z) (w : World) (g : RandomState),
      snd (k_fold_cv_knn X y n_neighbors (with_ambient g w))
        = snd (k_fold_cv_knn X y n_neighbors w) /\
      trace (fst (k_fold_cv_knn X y n_neighbors (with_ambient g w)))
        = trace (fst (k_fold_cv_knn X y n_neighbors w))) /\
  (forall (data : DataFrame) (label : string) (w : World) (g : RandomState),
      snd (evaluate_analyze_knn data label (with_ambient g w))
        = snd (evaluate_analyze_knn data label w) /\
      trace (fst (evaluate_analyze_knn data label (with_ambient g w)))
        = trace (fst (evaluate_analyze_knn data label w))) /\
  (forall (data : table) (w : World) (g : RandomState),
      snd (tune_clustering_hyperparameter data (with_ambient g w))
        = snd (tune_clustering_hyperparameter data w) /\
      trace (fst (tune_clustering_hyperparameter data (with_ambient g w)))
        = trace (fst (tune_clustering_hyperparameter data w))) /\
  (forall (data : table) (n_clusters : nat) (w : World) (g : RandomState),
      snd (trained_clustering_model data n_clusters (with_ambient g w))
        = snd (trained_clustering_model data n_clusters w) /\
      trace (fst (trained_clustering_model data n_clusters (with_ambient g w)))
        = trace (fst (trained_clustering_model data n_clusters w))).
Proof.
  split.
  { intros data.
    apply calls_append with (lbl := fun _ => True); [apply harness_event_random_state|].
    now apply script_calls. }
  split.
  { intros X y n. apply insensitive_same_run. apply k_fold_cv_knn_insensitive. }
  split.
  { intros data label. apply insensitive_same_run. apply evaluate_analyze_knn_insensitive. }
  split.
  { intros data. apply insensitive_same_run.
    apply tune_clustering_hyperparameter_insensitive. }
  intros data n. apply insensitive_same_run. apply trained_clustering_model_insensitive.
Qed.

End HarnessClaims.

(** * The cluster count *)

Section Clustering.

Context {SK : Sklearn}.

Local Open Scope harness_scope.

Ltac run_bind H x Hx :=
  apply bind_ok in H; destruct H as (? & x & Hx & H).

Ltac run_lift H x Hx :=
  run_bind H x Hx; apply lift_ok in Hx; destruct Hx as [-> Hx].

Local Abbreviation score_of data :=
  (fun n : nat => match silhouette_of data n with
                  | Some s => s
                  | None => 0%Q
                  end).

Lemma trained_clustering_model_run (data : table) (n : nat) (w : World) :
  trained_clustering_model data n w =
  (extend w 0 [CallKMeans n (Some 42) data], accepted (kmeans_model data n)).
Proof.
  unfold trained_clustering_model.
  rewrite (bind_run _ (emit_run _ _)).
  rewrite (bind_run _ (seeded_run _ _ _ _)). reflexivity.
Qed.

Lemma call_silhouette_score_run (data : table) (cl : list nat) (w : World) :
  call_silhouette_score data cl w =
  (extend w 0 [CallSilhouetteScore data cl], accepted (silhouette_score data cl)).
Proof.
  unfold call_silhouette_score. now rewrite (bind_run _ (emit_run _ _)).
Qed.

Lemma loc_set_new (series : list (nat * Q)) (key : nat) (value : Q) :
  ~ In key (map fst series) -> loc_set series key value = (series ++ [(key, value)])%list.
Proof.
  induction series as [|[i v] series IH]; simpl; intros H; [reflexivity|].
  destruct (Nat.eqb i key) eqn:E.
  - apply Nat.eqb_eq in E. tauto.
  - rewrite IH; [reflexivity | tauto].
Qed.

Lemma tune_body_run (data : table) (n : nat) (series : list (nat * Q)) (w : World) :
  (kmeans <- trained_clustering_model data n ;;
   score <- call_silhouette_score data (kmeans_labels kmeans) ;;
   ret (loc_set series n score)) w
  = (extend w 0 (tune_events data [n]),
     match silhouette_of data n with
     | Some s => Ok (loc_set series n s)
     | None => Raise ValueError
     end).
Proof.
  unfold tune_events, silhouette_of. cbn [flat_map]. rewrite app_nil_r.
  unfold bind at 1. rewrite trained_clustering_model_run.
  destruct (kmeans_model data n) as [model|]; cbn [accepted]; [|reflexivity].
  unfold bind at 1. rewrite call_silhouette_score_run, extend_extend.
  destruct (silhouette_score data (kmeans_labels model)) as [s|]; reflexivity.
Qed.

Lemma tune_loop_run (data : table) :
  forall (ns : list nat) (series : list (nat * Q)) (w : World),
    NoDup ns ->
    (forall n, In n ns -> ~ In n (map fst series)) ->
    (forall n, In n ns -> silhouette_of data n <> None) ->
    for_each ns
      (fun n_clusters silhouette_avg =>
         kmeans <- trained_clustering_model data n_clusters ;;
         score <- call_silhouette_score data (kmeans_labels kmeans) ;;
         ret (loc_set silhouette_avg n_clusters score))
      series w
    = (extend w 0 (tune_events data ns),
       Ok (series ++ map (fun n => (n, score_of data n)) ns)%list).
Proof.
  induction ns as [|n ns IH]; intros series w Hnd Hnew Hsc; simpl.
  - unfold ret. now rewrite extend_0_nil, app_nil_r.
  - inversion Hnd as [|? ? Hn Hnd']; subst.
    assert (Hs : silhouette_of data n <> None) by (apply Hsc; now left).
    pose proof (tune_body_run data n series w) as Hb.
    destruct (silhouette_of data n) as [s|] eqn:Es; [|congruence].
    rewrite (bind_run _ Hb).
    rewrite loc_set_new by (apply Hnew; now left).
    rewrite IH.
    + rewrite !extend_extend. rewrite <- app_assoc.
      unfold tune_events. cbn [flat_map app]. rewrite <- !app_assoc. reflexivity.
    + exact Hnd'.
    + intros m Hm. rewrite map_app, in_app_iff. simpl.
      intros [H | [H | []]].
      * apply (Hnew m); [now right | exact H].
      * subst m. contradiction.
    + intros m Hm. apply Hsc. now right.
Qed.

Lemma tune_loop_raise (data : table) :
  forall (ns : list nat) (series : list (nat * Q)) (w : World),
    (exists n, In n ns /\ silhouette_of data n = None) ->
    snd (for_each ns
           (fun n_clusters silhouette_avg =>
              kmeans <- trained_clustering_model data n_clusters ;;
              score <- call_silhouette_score data (kmeans_labels kmeans) ;;
              ret (loc_set silhouette_avg n_clusters score))
           series w)
    = Raise ValueError.
Proof.
  induction ns as [|n ns IH]; intros series w (m & Hm & Hnone); [destruct Hm|].
  cbn [for_each]. unfold bind at 1. rewrite tune_body_run.
  destruct (silhouette_of data n) as [s|] eqn:Es; [|reflexivity].
  apply IH. exists m. split; [|exact Hnone].
  destruct Hm as [<- | Hm]; [congruence | exact Hm].
Qed.

Lemma scored_or_not (data : table) (ns : list nat) :
  (forall n, In n ns -> silhouette_of data n <> None) \/
  (exists n, In n ns /\ silhouette_of data n = None).
Proof.
  induction ns as [|n ns [IH | (m & Hm & Hnone)]].
  - left. intros n [].
  - destruct (silhouette_of data n) as [s|] eqn:Es.
    + left. intros m [<- | Hm]; [congruence | now apply IH].
    + right. exists n. split; [now left | exact Es].
  - right. exists m. split; [now right | exact Hnone].
Qed.

Lemma Qlt_bool_iff (a b : Q) : Qlt_bool a b = true <-> (a < b)%Q.
Proof.
  unfold Qlt_bool. rewrite negb_true_iff. split.
  - intros H. apply Qnot_le_lt. intros Hle. apply Qle_bool_iff in Hle. congruence.
  - intros H. destruct (Qle_bool b a) eqn:E; [|reflexivity].
    apply Qle_bool_iff in E. exfalso. exact (Qlt_not_le _ _ H E).
Qed.

Lemma idxmax_from_spec (series : list (nat * Q)) :
  forall (rest pre mid : list (nat * Q)) (best : nat * Q),
    series = (pre ++ best :: mid ++ rest)%list ->
    (forall p, In p pre -> (snd p < snd best)%Q) ->
    (forall p, In p mid -> (snd p <= snd best)%Q) ->
    exists pre' b post',
      series = (pre' ++ b :: post')%list /\
      idxmax_from best rest = fst b /\
      (forall p, In p pre' -> (snd p < snd b)%Q) /\
      (forall p, In p series -> (snd p <= snd b)%Q).
Proof.
  induction rest as [|x rest IH]; intros pre mid best Hs Hpre Hmid; simpl.
  - exists pre, best, mid. rewrite app_nil_r in Hs.
    split; [exact Hs|]. split; [reflexivity|]. split; [exact Hpre|].
    intros p Hp. rewrite Hs in Hp. apply in_app_or in Hp.
    destruct Hp as [Hp | [<- | Hp]];
      [apply Qlt_le_weak; auto | apply Qle_refl | auto].
  - destruct (Qlt_bool (snd best) (snd x)) eqn:E.
    + apply Qlt_bool_iff in E.
      apply (IH (pre ++ best :: mid)%list [] x).
      * rewrite Hs, <- app_assoc. reflexivity.
      * intros p Hp. apply in_app_or in Hp.
        destruct Hp as [Hp | [<- | Hp]].
        -- eapply Qlt_trans; [apply Hpre; exact Hp | exact E].
        -- exact E.
        -- eapply Qle_lt_trans; [apply Hmid; exact Hp | exact E].
      * intros p [].
    + assert (Hle : (snd x <= snd best)%Q).
      { apply Qnot_lt_le. intros Hlt. apply Qlt_bool_iff in Hlt. congruence. }
      apply (IH pre (mid ++ [x])%list best).
      * rewrite Hs, <- app_assoc. reflexivity.
      * exact Hpre.
      * intros p Hp. apply in_app_or in Hp.
        destruct Hp as [Hp | [<- | []]]; auto.
Qed.

Lemma seq_split_sorted (l1 l2 : list nat) (k : nat) :
  forall a len : nat,
    seq a len = (l1 ++ k :: l2)%list ->
    (forall n, In n l1 -> (n < k)%nat) /\ (forall n, In n l2 -> (k < n)%nat).
Proof.
  induction l1 as [|x l1 IH]; intros a len H.
  - destruct len as [|len]; [discriminate|]. simpl in H. inversion H; subst.
    split; [intros n []|]. intros n Hn. apply in_seq in Hn. lia.
  - destruct len as [|len]; [discriminate|]. simpl in H. inversion H as [[Ha Hrest]].
    destruct (IH _ _ Hrest) as [H1 H2]. split; [|exact H2].
    intros n [<- | Hn]; [|now apply H1].
    assert (Hk : In k (seq (S x) len)) by (rewrite Hrest; apply in_or_app; right; now left).
    apply in_seq in Hk. lia.
Qed.

(** [idxmax] over the scores of the candidates [seq a len], kept in that
    order: a candidate of maximal score, the smallest one. *)
Lemma idxmax_scores (score : nat -> Q) (a len : nat) :
  (0 < len)%nat ->
  exists k,
    idxmax (map (fun n => (n, score n)) (seq a len)) = Ok k /\
    In k (seq a len) /\
    (forall n, In n (seq a len) -> (score n <= score k)%Q) /\
    (forall n, In n (seq a len) -> (score n == score k)%Q -> (k <= n)%nat).
Proof.
  intros Hlen. destruct len as [|len]; [lia|].
  set (series := map (fun n => (n, score n)) (seq a (S len))).
  assert (Hs : series = ((a, score a) :: map (fun n => (n, score n)) (seq (S a) len))%list)
    by reflexivity.
  destruct (idxmax_from_spec series (map (fun n => (n, score n)) (seq (S a) len)) [] []
                             (a, score a)) as (pre & b & post & Hsplit & Hidx & Hlt & Hle).
  { exact Hs. } { intros p []. } { intros p []. }
  unfold idxmax. fold series. rewrite Hs. exists (fst b).
  split; [now rewrite Hidx|].
  unfold series in Hsplit.
  apply map_eq_app in Hsplit. destruct Hsplit as (l1 & l2' & Hseq & Hpre & Hpost).
  apply map_eq_cons in Hpost. destruct Hpost as (k & l2 & -> & Hb & Hpost').
  subst b pre post. cbn [fst snd] in *.
  destruct (seq_split_sorted _ _ _ _ _ Hseq) as [Hsm Hgt].
  assert (Hin : forall n, In n (seq a (S len)) -> In (n, score n) series).
  { intros n Hn. unfold series. apply in_map_iff. now exists n. }
  split; [rewrite Hseq; apply in_or_app; right; now left|].
  split.
  - intros n Hn. exact (Hle _ (Hin n Hn)).
  - intros n Hn Heq. rewrite Hseq in Hn. apply in_app_or in Hn.
    destruct Hn as [Hn | [<- | Hn]]; [|lia|specialize (Hgt n Hn); lia].
    exfalso. assert (H : (score n < score k)%Q).
    { apply (Hlt (n, score n)). apply in_map_iff. now exists n. }
    rewrite Heq in H. exact (Qlt_irrefl _ H).
Qed.

Lemma tune_clustering_hyperparameter_raise (data : table) (w : World) (n : nat) :
  In n range_n_clusters -> silhouette_of data n = None ->
  exists w', tune_clustering_hyperparameter data w = (w', Raise ValueError).
Proof.
  intros Hn Hnone. unfold tune_clustering_hyperparameter.
  pose proof (tune_loop_raise data range_n_clusters [] w
                (ex_intro _ n (conj Hn Hnone))) as Hr.
  unfold bind at 1.
  match goal with
  | H : snd ?run = _ |- context [match ?run' with _ => _ end] =>
      change run' with run; destruct run as [w1 r]
  end.
  cbn [snd] in Hr. subst r. now exists w1.
Qed.

Lemma tune_clustering_hyperparameter_ok (data : table) (w w' : World) (k : nat) :
  tune_clustering_hyperparameter data w = (w', Ok k) ->
  w' = extend w 0 (tune_events data range_n_clusters) /\
  In k range_n_clusters /\
  (forall n, In n range_n_clusters -> silhouette_of data n <> None) /\
  (forall n, In n range_n_clusters -> (score_of data n <= score_of data k)%Q) /\
  (forall n, In n range_n_clusters ->
             (score_of data n == score_of data k)%Q -> (k <= n)%nat).
Proof.
  intros H.
  destruct (scored_or_not data range_n_clusters) as [Hsc | (n & Hn & Hnone)].
  - destruct (idxmax_scores (score_of data) 2 28) as (k' & Hidx & Hin & Hmax & Hmin);
      [lia|].
    unfold tune_clustering_hyperparameter in H.
    rewrite (bind_run _ (tune_loop_run data range_n_clusters [] w
                           (seq_NoDup 28 2) (fun n _ H => H) Hsc)) in H.
    unfold lift in H. cbn [app] in H. unfold range_n_clusters in H.
    rewrite Hidx in H. inversion H; subst k'. auto.
  - destruct (tune_clustering_hyperparameter_raise data w n Hn Hnone) as [w1 Hr].
    rewrite Hr in H. discriminate.
Qed.

(** A run of [set_scatter_subplot] that returns: PCA accepted the table,
    its output made the table that is plotted, and the global generator is
    where PCA left it. *)
Lemma set_scatter_subplot_ok (model : KMeansModel) (data : table) (n_clusters : nat)
    (cluster_labels : list nat) (w w' : World) (u : unit) :
  set_scatter_subplot model data n_clusters cluster_labels w = (w', Ok u) ->
  exists (projected : table) (pca_data : DataFrame),
    fst (pca_fit_transform 2 data (ambient w)) = Some projected /\
    scatter_table projected cluster_labels pca_data /\
    w' = with_ambient (snd (pca_fit_transform 2 data (ambient w)))
           (extend w 0 [CallPCA 2 None data; PlotScatter n_clusters cluster_labels pca_data]).
Proof.
  unfold set_scatter_subplot. intros H.
  run_bind H u0 He. apply emit_ok in He. subst.
  run_bind H projected Hp.
  unfold with_random_state in Hp. cbn [ambient extend] in Hp.
  destruct (pca_fit_transform 2 data (ambient w)) as [r g] eqn:Epca.
  inversion Hp; subst; clear Hp.
  run_lift H projected' Hacc.
  destruct projected as [projected|]; [|discriminate].
  inversion Hacc; subst projected'; clear Hacc.
  run_lift H components Hdf.
  run_lift H pca_data Hset.
  apply emit_ok in H. subst w'.
  exists projected, pca_data. split; [reflexivity|].
  split; [now exists components|].
  unfold with_ambient, extend. cbn [ambient next_id trace fst snd].
  rewrite !Nat.add_0_r, <- app_assoc. reflexivity.
Qed.

Lemma silhouette_of_some (data : table) (n : nat) (s : Q) :
  silhouette_of data n = Some s ->
  exists model, kmeans_model data n = Some model /\
                silhouette_score data (kmeans_labels model) = Some s.
Proof.
  unfold silhouette_of. destruct (kmeans_model data n) as [model|]; [|discriminate].
  intros H. now exists model.
Qed.

(** A run of [evaluate_analyze_clustering] that returns. *)
Lemma evaluate_analyze_clustering_ok (data : DataFrame) (label : string) (w w' : World)
    (u : unit) :
  evaluate_analyze_clustering data label w = (w', Ok u) ->
  exists (k : nat) (model : KMeansModel) (score : Q) (pca_data : DataFrame),
    In k (seq 2 28) /\
    kmeans_model (scaler_transform (scaler_fit (rows data)) (rows data)) k = Some model /\
    silhouette_of (scaler_transform (scaler_fit (rows data)) (rows data)) k = Some score /\
    (forall n, In n (seq 2 28) ->
       exists s,
         silhouette_of (scaler_transform (scaler_fit (rows data)) (rows data)) n = Some s /\
         (s <= score)%Q /\ ((s == score)%Q -> (k <= n)%nat)) /\
    trace w'
    = (trace w
       ++ [ Enter "evaluate_analyze_clustering" data label;
            CallScalerNew (next_id w);
            CallFitTransform (next_id w) (rows data) ]
       ++ tune_events (scaler_transform (scaler_fit (rows data)) (rows data)) (seq 2 28)
       ++ final_clustering_events (scaler_transform (scaler_fit (rows data)) (rows data))
            k model score pca_data label)%list.
Proof.
  set (scaled := scaler_transform (scaler_fit (rows data)) (rows data)).
  unfold evaluate_analyze_clustering. intros H.
  rewrite (bind_run _ (emit_run _ _)) in H.
  rewrite (bind_run _ (StandardScaler_new_run _)) in H.
  rewrite (bind_run _ (fit_transform_run _ _ _)) in H. cbv beta iota in H. fold scaled in H.
  run_bind H k Htune.
  apply tune_clustering_hyperparameter_ok in Htune.
  destruct Htune as (-> & Hin & Hsc & Hmax & Hmin).
  unfold range_n_clusters in *.
  destruct (silhouette_of scaled k) as [score|] eqn:Ek; [|now elim (Hsc k Hin)].
  destruct (silhouette_of_some _ _ _ Ek) as (model & Hmodel & Hscore).
  rewrite (bind_run (a := model) _) in H
    by (rewrite trained_clustering_model_run, Hmodel; reflexivity).
  rewrite (bind_run (a := score) _) in H
    by (rewrite call_silhouette_score_run, Hscore; reflexivity).
  unfold visualize_clustering, set_silhouette_subplot in H. cbv zeta in H.
  rewrite (bind_run _ (emit_run _ _)) in H.
  run_bind H u1 Hscatter.
  apply set_scatter_subplot_ok in Hscatter.
  destruct Hscatter as (projected & pca_data & _ & _ & ->).
  apply emit_ok in H. subst w'.
  exists k, model, score, pca_data.
  split; [exact Hin|]. split; [exact Hmodel|]. split; [exact Ek|].
  split.
  { intros n Hn. specialize (Hmax n Hn). specialize (Hmin n Hn).
    destruct (silhouette_of scaled n) as [s|] eqn:En; [|now elim (Hsc n Hn)].
    exists s. auto. }
  unfold with_ambient, extend, final_clustering_events.
  cbn [ambient next_id trace scaler_id].
  rewrite <- !app_assoc. cbn [app]. rewrite ?Nat.add_0_r. reflexivity.
Qed.

(** A candidate that K-Means or [silhouette_score] refuses stops the run. *)
Lemma evaluate_analyze_clustering_refused (data : DataFrame) (label : string) (w : World)
    (n : nat) :
  In n (seq 2 28) ->
  silhouette_of (scaler_transform (scaler_fit (rows data)) (rows data)) n = None ->
  snd (evaluate_analyze_clustering data label w) = Raise ValueError.
Proof.
  intros Hn Hnone. unfold evaluate_analyze_clustering.
  rewrite (bind_run _ (emit_run _ _)).
  rewrite (bind_run _ (StandardScaler_new_run _)).
  rewrite (bind_run _ (fit_transform_run _ _ _)). cbv beta iota.
  match goal with
  | |- context [bind (tune_clustering_hyperparameter ?d) _ ?w1] =>
      destruct (tune_clustering_hyperparameter_raise d w1 n Hn Hnone) as [w2 Hr]
  end.
  unfold bind at 1. now rewrite Hr.
Qed.

(** C8.  When [evaluate_analyze_clustering] returns, the cluster count [k]
    it chose is a candidate of [range(2, 30)] whose average silhouette
    score on the scaled data no candidate exceeds, the smallest such
    candidate: the run scaled the data, fitted K-Means with
    [random_state=42] and scored it for each candidate in turn, then
    fitted K-Means with exactly [k] clusters on the scaled data, scored
    that model and plotted it with [n_clusters = k].  The function does
    not return on every table: when K-Means or [silhouette_score] refuses
    one of the candidates, as scikit-learn does on a table of fewer than
    30 rows, it raises [ValueError]. *)
Theorem clustering_tuned_by_silhouette :
  (forall (data : DataFrame) (label : string) (w w' : World) (u : unit),
      evaluate_analyze_clustering data label w = (w', Ok u) ->
      exists (k : nat) (model : KMeansModel) (score : Q) (pca_data : DataFrame),
        In k (seq 2 28) /\
        kmeans_model (scaler_transform (scaler_fit (rows data)) (rows data)) k
        = Some model /\
        silhouette_of (scaler_transform (scaler_fit (rows data)) (rows data)) k
        = Some score /\
        (forall n, In n (seq 2 28) ->
           exists s,
             silhouette_of (scaler_transform (scaler_fit (rows data)) (rows data)) n
             = Some s /\
             (s <= score)%Q /\ ((s == score)%Q -> (k <= n)%nat)) /\
        trace w'
        = (trace w
           ++ [ Enter "evaluate_analyze_clustering" data label;
                CallScalerNew (next_id w);
                CallFitTransform (next_id w) (rows data) ]
           ++ tune_events (scaler_transform (scaler_fit (rows data)) (rows data)) (seq 2 28)
           ++ [ CallKMeans k (Some 42)
                           (scaler_transform (scaler_fit (rows data)) (rows data));
                CallSilhouetteScore (scaler_transform (scaler_fit (rows data)) (rows data))
                                    (kmeans_labels model);
                PlotSilhouette k
                  (kmeans_predict model
                     (scaler_transform (scaler_fit (rows data)) (rows data)))
                  score;
                CallPCA 2 None (scaler_transform (scaler_fit (rows data)) (rows data));
                PlotScatter k
                  (kmeans_predict model
                     (scaler_transform (scaler_fit (rows data)) (rows data)))
                  pca_data;
                Show ("For " ++ label ++ " data")%string ])%list) /\
  (forall (data : DataFrame) (label : string) (w : World) (n : nat),
      In n (seq 2 28) ->
      silhouette_of (scaler_transform (scaler_fit (rows data)) (rows data)) n = None ->
      snd (evaluate_analyze_clustering data label w) = Raise ValueError).
Proof.
  split.
  - intros data label w w' u H.
    destruct (evaluate_analyze_clustering_ok data label w w' u H)
      as (k & model & score & pca_data & Hin & Hmodel & Hscore & Hbest & Htrace).
    exists k, model, score, pca_data.
    split; [exact Hin|]. split; [exact Hmodel|]. split; [exact Hscore|].
    split; [exact Hbest|]. exact Htrace.
  - intros data label w n. apply evaluate_analyze_clustering_refused.
Qed.

End Clustering.

(** * The analyses the script enters *)

Section ScriptPlan.

Context {SK : Sklearn}.

Local Open Scope harness_scope.
Local Open Scope string_scope.

Lemma analyses_app (evs evs' : list Event) :
  analyses (evs ++ evs')%list = (analyses evs ++ analyses evs')%list.
Proof. unfold analyses. apply flat_map_app. Qed.

Lemma analyses_predict_events (kid : nat) (cols : list string) (n_neighbors : Z) (qs : table) :
  analyses (predict_events kid cols n_neighbors qs) = [].
Proof. induction qs as [|q qs IH]; [reflexivity | exact IH]. Qed.

Lemma analyses_holdout_events (id : nat) (n_neighbors : Z) (h : Holdout) :
  analyses (holdout_events id n_neighbors h) = [].
Proof.
  unfold holdout_events. rewrite analyses_app, analyses_predict_events. reflexivity.
Qed.

Lemma analyses_cv_events (n_neighbors : Z) (hs : list Holdout) :
  forall id : nat, analyses (cv_events id n_neighbors hs) = [].
Proof.
  induction hs as [|h hs IH]; intros id; [reflexivity|].
  cbn [cv_events]. unfold fold_events.
  rewrite !analyses_app, analyses_holdout_events, IH. reflexivity.
Qed.

Lemma analyses_tune_events (data : table) (ns : list nat) :
  analyses (tune_events data ns) = [].
Proof.
  induction ns as [|n ns IH]; [reflexivity|].
  unfold tune_events in *. cbn [flat_map].
  rewrite analyses_app, IH. now destruct (kmeans_model data n).
Qed.

Lemma evaluate_analyze_clustering_enters (data : DataFrame) (label : string) (w w' : World)
    (u : unit) :
  evaluate_analyze_clustering data label w = (w', Ok u) ->
  analyses (trace w')
  = (analyses (trace w) ++ [("evaluate_analyze_clustering", label, data)])%list.
Proof.
  intros H.
  destruct (evaluate_analyze_clustering_ok _ _ _ _ _ H)
    as (k & model & score & pca_data & _ & _ & _ & _ & ->).
  rewrite !analyses_app, analyses_tune_events. reflexivity.
Qed.

Lemma evaluate_analyze_knn_enters (data : DataFrame) (label : string) (w w' : World) (u : unit) :
  evaluate_analyze_knn data label w = (w', Ok u) ->
  analyses (trace w')
  = (analyses (trace w) ++ [("evaluate_analyze_knn", label, data)])%list.
Proof.
  intros H.
  destruct (evaluate_analyze_knn_ok _ _ _ _ _ H)
    as (X & y & h & hs & accuracy & _ & _ & _ & _ & _ & ->).
  unfold extend. cbn [trace].
  change (CallKFold 10 true (Some 42) (shape0 X)
          :: cv_events (next_id w + 2) 5 hs ++ report_events label accuracy h)%list
    with ([CallKFold 10 true (Some 42) (shape0 X)]
          ++ cv_events (next_id w + 2) 5 hs ++ report_events label accuracy h)%list.
  rewrite !analyses_app, analyses_holdout_events, analyses_cv_events. reflexivity.
Qed.

Ltac run_lift H x Hx :=
  apply bind_ok in H; destruct H as (? & x & Hx & H);
  apply lift_ok in Hx; destruct Hx as [-> Hx].

Ltac enter_clustering H :=
  let w1 := fresh "w" in
  let x := fresh "u" in
  let Hx := fresh "Hx" in
  apply bind_ok in H; destruct H as (w1 & x & Hx & H);
  apply evaluate_analyze_clustering_enters in Hx.

Ltac enter_knn H :=
  let w1 := fresh "w" in
  let x := fresh "u" in
  let Hx := fresh "Hx" in
  apply bind_ok in H; destruct H as (w1 & x & Hx & H);
  apply evaluate_analyze_knn_enters in Hx.

(** Whatever the data, a run of the script that returns entered the twelve
    analyses of [script_plan], in that order: the clustering labelled
    "age over 30" on the rows aged 25 to 29. *)
Lemma script_analyses (preprocessed_data : DataFrame) (w w' : World) (u : unit) :
  script preprocessed_data w = (w', Ok u) ->
  exists gender age : Series,
    getitem preprocessed_data "gender" = Ok gender /\
    getitem preprocessed_data "age" = Ok age /\
    analyses (trace w')
    = (analyses (trace w) ++ script_plan preprocessed_data gender age)%list.
Proof.
  unfold script. intros H.
  enter_clustering H. enter_knn H.
  run_lift H gender Hg. cbv zeta in H.
  enter_clustering H. enter_clustering H. enter_knn H. enter_knn H.
  run_lift H age Hage. cbv zeta in H.
  enter_clustering H. enter_clustering H. enter_clustering H.
  enter_knn H. enter_knn H.
  apply evaluate_analyze_knn_enters in H.
  exists gender, age. split; [exact Hg|]. split; [exact Hage|].
  repeat match goal with
         | Ha : analyses (trace ?x) = _ |- _ => rewrite Ha in *; clear Ha
         end.
  unfold script_plan. cbv zeta. rewrite <- !app_assoc. reflexivity.
Qed.

End ScriptPlan.

(** * The script on an example *)

Local Open Scope string_scope.

(** C7 fails on the code.  On [Demo.people] the script returns, and it
    entered every analysis on the slice its label names, but for the
    clustering labelled "age over 30", which it ran on the people aged 25 to
    29; the people aged 30 or over, a different table, were never
    clustered. *)
Theorem script_clusters_wrong_slice :
  snd (@script Demo.sklearn Demo.people Demo.world0) = Ok tt /\
  analyses (trace (fst (@script Demo.sklearn Demo.people Demo.world0))) =
  [ ("evaluate_analyze_clustering", "all", Demo.people);
    ("evaluate_analyze_knn", "all", Demo.people);
    ("evaluate_analyze_clustering", "male", people_male);
    ("evaluate_analyze_clustering", "female", people_female);
    ("evaluate_analyze_knn", "male", people_male);
    ("evaluate_analyze_knn", "female", people_female);
    ("evaluate_analyze_clustering", "age from 20 to 24", people_20_to_24);
    ("evaluate_analyze_clustering", "age from 25 to 29", people_25_to_29);
    ("evaluate_analyze_clustering", "age over 30", people_25_to_29);
    ("evaluate_analyze_knn", "age from 20 to 24", people_20_to_24);
    ("evaluate_analyze_knn", "age from 25 to 29", people_25_to_29);
    ("evaluate_analyze_knn", "age over 30", people_over_30) ] /\
  people_over_30 <> people_25_to_29.
Proof.
  split; [vm_compute; reflexivity|].
  split; [vm_compute; reflexivity|].
  intros H. apply (f_equal rows) in H. vm_compute in H. discriminate H.
Qed.

(** C10, as stated, fails: not every randomized estimator of the harness
    is seeded.  The clustering of [Demo.people] returns, and the PCA it
    constructs for the scatter plot is given no [random_state]; with a PCA
    whose output depends on what it draws, the same clustering started
    with the global generator in another state plots another table. *)
Theorem scatter_plot_pca_unseeded :
  ~ (forall (SK : Sklearn) (data : DataFrame) (label : string),
       appends seeded_call (evaluate_analyze_clustering data label)) /\
  snd (@evaluate_analyze_clustering Demo.sklearn Demo.people "all" Demo.world0) = Ok tt /\
  In (CallPCA 2 None (Demo.centre (Demo.column_means (rows Demo.people)) (rows Demo.people)))
     (trace (fst (@evaluate_analyze_clustering Demo.sklearn Demo.people "all"
                    Demo.world0))) /\
  trace (fst (@evaluate_analyze_clustering Demo.sklearn Demo.people "all"
                (@with_ambient Demo.sklearn 7 Demo.world0)))
  <> trace (fst (@evaluate_analyze_clustering Demo.sklearn Demo.people "all" Demo.world0)).
Proof.
  assert (Hin : In (CallPCA 2 None
                      (Demo.centre (Demo.column_means (rows Demo.people)) (rows Demo.people)))
                   (trace (fst (@evaluate_analyze_clustering Demo.sklearn Demo.people "all"
                                  Demo.world0)))).
  { vm_compute. do 62 right. left. reflexivity. }
  split.
  - intros H.
    destruct (H Demo.sklearn Demo.people "all" Demo.world0) as (evs & Htrace & Hall).
    rewrite Htrace in Hin. cbn [trace Demo.world0 app] in Hin.
    rewrite Forall_forall in Hall. specialize (Hall _ Hin). discriminate Hall.
  - split; [vm_compute; reflexivity|].
    split; [exact Hin|].
    intros H. apply (f_equal (fun evs => nth 63 evs (Show ""))) in H.
    vm_compute in H. discriminate H.
Qed.

Local Close Scope string_scope.

(** * The theorems on the example *)


Lemma roc_fed_hard_labels_witness :
  getitem Demo.people "dec" = Ok Demo.people_y /\
  @appends Demo.sklearn unit (hard_label_call Demo.people_y)
           (evaluate_analyze_knn Demo.people "all") /\
  snd (@evaluate_analyze_knn Demo.sklearn Demo.people "all" Demo.world0) = Ok tt /\
  exists (y_test y_pred : Series) (hs : list Holdout),
    Forall (fun p => In p Demo.people_y) y_pred /\
    metric_calls
      (trace (fst (@evaluate_analyze_knn Demo.sklearn Demo.people "all" Demo.world0)))
    = (map (fun f => ("accuracy_score"%string, h_y_test f, h_y_pred f)) hs
       ++ [ ("confusion_matrix"%string, y_test, y_pred);
            ("classification_report"%string, y_test, y_pred);
            ("roc_curve"%string, y_test, y_pred);
            ("roc_auc_score"%string, y_test, y_pred) ])%list.
Proof.
  assert (Hy : getitem Demo.people "dec" = Ok Demo.people_y) by reflexivity.
  assert (Hs : snd (@evaluate_analyze_knn Demo.sklearn Demo.people "all" Demo.world0)
               = Ok tt) by (vm_compute; reflexivity).
  destruct (@roc_fed_hard_labels Demo.sklearn) as (Hall & _ & Hret & _).
  split; [exact Hy|].
  split; [exact (Hall Demo.people "all"%string Demo.people_y Hy)|].
  split; [exact Hs|].
  destruct (@evaluate_analyze_knn Demo.sklearn Demo.people "all" Demo.world0)
    as [w' r] eqn:E.
  cbn [fst snd] in *. subst r.
  destruct (Hret _ _ _ _ _ E) as (X & y & h & hs & _ & Hy' & _ & _ & _ & Hlab & Hcalls).
  rewrite Hy in Hy'. inversion Hy'; subst y.
  exists (h_y_test h), (h_y_pred h), hs. split; [exact Hlab | exact Hcalls].
Defined.

Lemma clustering_tuned_by_silhouette_witness :
  snd (@evaluate_analyze_clustering Demo.checked_sklearn Demo.people "all"
         Demo.checked_world0) = Ok tt /\
  (exists (k : nat) (score : Q),
     In k (seq 2 28) /\
     @silhouette_of Demo.checked_sklearn
       (Demo.centre (Demo.column_means (rows Demo.people)) (rows Demo.people)) k
     = Some score /\
     forall n, In n (seq 2 28) ->
       exists s,
         @silhouette_of Demo.checked_sklearn
           (Demo.centre (Demo.column_means (rows Demo.people)) (rows Demo.people)) n
         = Some s /\
         (s <= score)%Q /\ ((s == score)%Q -> (k <= n)%nat)) /\
  In 16%nat (seq 2 28) /\
  @silhouette_of Demo.checked_sklearn
    (Demo.centre (Demo.column_means (rows people_male)) (rows people_male)) 16 = None /\
  snd (@evaluate_analyze_clustering Demo.checked_sklearn people_male "male"
         Demo.checked_world0) = Raise ValueError.
Proof.
  assert (Hs : snd (@evaluate_analyze_clustering Demo.checked_sklearn Demo.people "all"
                      Demo.checked_world0) = Ok tt) by (vm_compute; reflexivity).
  assert (Hin : In 16%nat (seq 2 28)) by (apply in_seq; lia).
  assert (Hnone : @silhouette_of Demo.checked_sklearn
                    (Demo.centre (Demo.column_means (rows people_male)) (rows people_male))
                    16 = None) by (vm_compute; reflexivity).
  destruct (@clustering_tuned_by_silhouette Demo.checked_sklearn) as [Hret Href].
  split; [exact Hs|]. split.
  - destruct (@evaluate_analyze_clustering Demo.checked_sklearn Demo.people "all"
                Demo.checked_world0) as [w' r] eqn:E.
    cbn [fst snd] in *. subst r.
    destruct (Hret _ _ _ _ _ E) as (k & model & score & pca & Hk & _ & Hscore & Hbest & _).
    exists k, score. split; [exact Hk|]. split; [exact Hscore | exact Hbest].
  - split; [exact Hin|]. split; [exact Hnone|].
    exact (Href people_male "male"%string Demo.checked_world0 16%nat Hin Hnone).
Defined.

Lemma test_rows_scaled_by_own_statistics_witness :
  snd (@k_fold_cv_knn Demo.sklearn Demo.people_X Demo.people_y 5 Demo.world0)
    = Ok (0 # 590490)%Q /\
  (exists hs : list Holdout,
     Forall2 (@holdout_of Demo.sklearn Demo.people_X Demo.people_y 5)
             (@cv_folds Demo.sklearn (shape0 Demo.people_X)) hs /\
     trace (fst (@k_fold_cv_knn Demo.sklearn Demo.people_X Demo.people_y 5 Demo.world0))
       = (trace Demo.world0
          ++ CallKFold 10 true (Some 42) (shape0 Demo.people_X)
             :: @cv_events Demo.sklearn (next_id Demo.world0) 5 hs)%list) /\
  Demo.centre (Demo.column_means [[1]; [3]]%Q) [[10]; [20]]%Q
    <> Demo.centre (Demo.column_means [[10]; [20]]%Q) [[10]; [20]]%Q.
Proof.
  assert (Hs : snd (@k_fold_cv_knn Demo.sklearn Demo.people_X Demo.people_y 5 Demo.world0)
               = Ok (0 # 590490)%Q) by (vm_compute; reflexivity).
  split; [exact Hs|]. split.
  - destruct (@k_fold_cv_knn Demo.sklearn Demo.people_X Demo.people_y 5 Demo.world0)
      as [w' r] eqn:E.
    cbn [fst snd] in *. subst r.
    destruct (proj1 (@test_rows_scaled_by_own_statistics Demo.sklearn) _ _ _ _ _ _ E)
      as (hs & Hhs & Htrace & _).
    exists hs. split; [exact Hhs | exact Htrace].
  - vm_compute. discriminate.
Defined.

(** * The silhouette subplot *)

Section SilhouetteBands.

Context {SK : Sklearn}.

Variable silhouette_samples : table -> list nat -> list Q.

Lemma insert_sorted_perm (x : Q) (l : list Q) : Permutation (insert_sorted x l) (x :: l).
Proof.
  induction l as [|y l IH]; simpl; [reflexivity|].
  destruct (Qle_bool x y); [reflexivity|].
  rewrite IH. apply perm_swap.
Qed.

Lemma ndarray_sort_perm (l : list Q) : Permutation (ndarray_sort l) l.
Proof.
  induction l as [|x l IH]; simpl; [reflexivity|].
  rewrite insert_sorted_perm. now constructor.
Qed.

Lemma insert_sorted_sorted (x : Q) (l : list Q) :
  StronglySorted Qle l -> StronglySorted Qle (insert_sorted x l).
Proof.
  induction 1 as [|y l Hs IH Hy]; simpl.
  - constructor; constructor.
  - destruct (Qle_bool x y) eqn:E.
    + apply Qle_bool_iff in E. constructor; [now constructor|].
      constructor; [exact E|].
      eapply Forall_impl; [|exact Hy]. intros z Hz. eapply Qle_trans; eassumption.
    + assert (Hyx : (y <= x)%Q).
      { apply Qlt_le_weak. apply Qnot_le_lt. intros H. apply Qle_bool_iff in H. congruence. }
      constructor; [exact IH|].
      rewrite Forall_forall. intros z Hz.
      apply (Permutation_in _ (insert_sorted_perm x l)) in Hz.
      destruct Hz as [<- | Hz]; [exact Hyx|].
      rewrite Forall_forall in Hy. now apply Hy.
Qed.

Lemma ndarray_sort_sorted (l : list Q) : StronglySorted Qle (ndarray_sort l).
Proof.
  induction l as [|x l IH]; simpl; [constructor|]. now apply insert_sorted_sorted.
Qed.

Lemma mask_rows_length (A : Type) (values : list A) (labels : list nat) (p : nat -> bool) :
  List.length labels = List.length values ->
  List.length (mask_rows values (map p labels)) = List.length (filter p labels).
Proof.
  revert labels; induction values as [|v values IH]; intros [|l labels]; simpl;
    try discriminate; [reflexivity|].
  intros H. injection H as H. destruct (p l); simpl; now rewrite IH.
Qed.

Lemma members_length (values : list Q) (cluster_labels : list nat) (i : nat) :
  List.length cluster_labels = List.length values ->
  List.length (members values cluster_labels i) = labelled cluster_labels i.
Proof. intros H. unfold members, labelled. now apply mask_rows_length. Qed.

Lemma labelled_below_S (cluster_labels : list nat) (i : nat) :
  labelled_below cluster_labels (S i)
  = (labelled_below cluster_labels i + labelled cluster_labels i)%nat.
Proof.
  unfold labelled_below, labelled.
  induction cluster_labels as [|l ls IH]; simpl; [reflexivity|].
  destruct (Nat.ltb_spec l (S i)) as [H1|H1], (Nat.ltb_spec l i) as [H2|H2],
           (Nat.eqb_spec l i) as [H3|H3]; simpl; try lia.
Qed.

Lemma labelled_below_0 (cluster_labels : list nat) : labelled_below cluster_labels 0 = 0%nat.
Proof.
  unfold labelled_below. induction cluster_labels as [|l ls IH]; [reflexivity | exact IH].
Qed.

Lemma labelled_below_le (cluster_labels : list nat) (i : nat) :
  (labelled_below cluster_labels i <= List.length cluster_labels)%nat.
Proof. unfold labelled_below. apply filter_length_le. Qed.

Lemma labelled_below_mono (cluster_labels : list nat) (i j : nat) :
  (i <= j)%nat -> (labelled_below cluster_labels i <= labelled_below cluster_labels j)%nat.
Proof.
  induction 1 as [|j _ IH]; [lia|]. rewrite labelled_below_S. lia.
Qed.

Lemma silhouette_band_run (values : list Q) (cluster_labels : list nat) (n_clusters : nat)
    (silhouette_avg : Q) (i y_lower : nat) :
  List.length cluster_labels = List.length values ->
  exists calls,
    silhouette_band values cluster_labels n_clusters silhouette_avg i y_lower
    = Ok (calls, (y_lower + labelled cluster_labels i + 10)%nat) /\
    bands calls = [(seq y_lower (labelled cluster_labels i),
                    ndarray_sort (members values cluster_labels i))].
Proof.
  intros Hlen. unfold silhouette_band, boolean_index.
  rewrite length_map. apply Nat.eqb_eq in Hlen. rewrite Hlen. apply Nat.eqb_eq in Hlen.
  fold (members values cluster_labels i).
  assert (Hsize : List.length (ndarray_sort (members values cluster_labels i))
                  = labelled cluster_labels i).
  { rewrite (Permutation_length (ndarray_sort_perm _)). now apply members_length. }
  cbv zeta. rewrite Hsize. eexists. split; [reflexivity|].
  unfold bands, arange. cbn [flat_map app].
  replace (y_lower + labelled cluster_labels i - y_lower)%nat
    with (labelled cluster_labels i) by lia.
  reflexivity.
Qed.

Lemma bands_app (calls calls' : list AxesCall) :
  bands (calls ++ calls') = (bands calls ++ bands calls')%list.
Proof. unfold bands. apply flat_map_app. Qed.

Lemma silhouette_loop_run (values : list Q) (cluster_labels : list nat) (n_clusters : nat)
    (silhouette_avg : Q) :
  List.length cluster_labels = List.length values ->
  forall (len a y_lower : nat),
    exists calls,
      silhouette_loop values cluster_labels n_clusters silhouette_avg (seq a len) y_lower
      = (calls, Ok tt) /\
      bands calls
      = map (fun i => (seq (y_lower + 10 * (i - a) + labelled_below cluster_labels i
                            - labelled_below cluster_labels a)
                           (labelled cluster_labels i),
                       ndarray_sort (members values cluster_labels i)))
            (seq a len).
Proof.
  intros Hlen. induction len as [|len IH]; intros a y_lower; simpl.
  - exists []. split; reflexivity.
  - destruct (silhouette_band_run values cluster_labels n_clusters silhouette_avg a y_lower Hlen)
      as (calls & Hband & Hb).
    rewrite Hband.
    destruct (IH (S a) (y_lower + labelled cluster_labels a + 10)%nat) as (calls' & Hloop & Hb').
    rewrite Hloop. exists (calls ++ calls')%list. split; [reflexivity|].
    rewrite bands_app, Hb, Hb'. cbn [app]. f_equal.
    + f_equal. f_equal. lia.
    + apply map_ext_in. intros i Hi. apply in_seq in Hi. f_equal. f_equal.
      pose proof (labelled_below_S cluster_labels a) as HS.
      pose proof (labelled_below_mono cluster_labels (S a) i ltac:(lia)) as Hm.
      lia.
Qed.


Lemma silhouette_subplot_run (model : KMeansModel) (data : table) (n_clusters : nat)
    (cluster_labels : list nat) (silhouette_avg : Q) :
  List.length cluster_labels = List.length (silhouette_samples data (kmeans_labels model)) ->
  exists calls,
    set_silhouette_subplot_axes silhouette_samples model data n_clusters cluster_labels
                                silhouette_avg
    = (ax_set_xlim (- (2 # 10)) 1
       :: ax_set_ylim 0 (List.length data + (n_clusters + 1) * 10)
       :: calls, Ok tt) /\
    bands calls
    = map (fun i => (seq (10 * (i + 1) + labelled_below cluster_labels i)
                         (labelled cluster_labels i),
                     ndarray_sort (members (silhouette_samples data (kmeans_labels model))
                                           cluster_labels i)))
          (seq 0 n_clusters).
Proof.
  intros Hlen. unfold set_silhouette_subplot_axes. cbv zeta.
  destruct (silhouette_loop_run _ _ n_clusters silhouette_avg Hlen n_clusters 0%nat 10%nat)
    as (calls & Hloop & Hb).
  rewrite Hloop. exists calls. split; [reflexivity|].
  rewrite Hb. apply map_ext. intros i. f_equal. f_equal.
  rewrite labelled_below_0. lia.
Qed.

Lemma members_below (values : list Q) (cluster_labels : list nat) (n : nat) :
  Permutation (List.concat (map (members values cluster_labels) (seq 0 n)))
              (mask_rows values (map (fun l => Nat.ltb l n) cluster_labels)).
Proof.
  induction n as [|n IH].
  - simpl. replace (mask_rows values (map (fun l => Nat.ltb l 0) cluster_labels)) with (@nil Q);
      [reflexivity|].
    revert cluster_labels; induction values as [|v values IHv]; intros [|l ls]; simpl; auto.
  - rewrite seq_S, map_app, concat_app. simpl. rewrite app_nil_r, IH. clear IH.
    unfold members.
    revert cluster_labels; induction values as [|v values IHv]; intros [|l ls]; simpl;
      try reflexivity.
    destruct (Nat.ltb_spec l n) as [H1|H1], (Nat.eqb_spec l n) as [H2|H2],
             (Nat.ltb_spec l (S n)) as [H3|H3]; try lia; simpl.
    + constructor. apply IHv.
    + rewrite <- Permutation_middle. constructor. apply IHv.
    + apply IHv.
Qed.

(** X1.  When the predicted labels and the silhouette coefficients are one
    per sample, [set_silhouette_subplot] raises nothing and fills one band
    per cluster, in order: the band of cluster [i] starts at
    [10 * (i + 1)] plus the number of samples with a smaller label and has
    one position per sample labelled [i].  So every position drawn lies at
    least 10 above the lower and more than 10 below the upper y limit, and
    the positions of a later band lie more than 10 above those of an
    earlier one. *)
Theorem silhouette_bands_layout :
  forall (model : KMeansModel) (data : table) (n_clusters : nat)
         (cluster_labels : list nat) (silhouette_avg : Q),
    List.length (silhouette_samples data (kmeans_labels model)) = List.length data ->
    List.length cluster_labels = List.length data ->
    snd (set_silhouette_subplot_axes silhouette_samples model data n_clusters
                                     cluster_labels silhouette_avg) = Ok tt /\
    In (ax_set_ylim 0 (List.length data + (n_clusters + 1) * 10))
       (fst (set_silhouette_subplot_axes silhouette_samples model data n_clusters
                                         cluster_labels silhouette_avg)) /\
    map fst (bands (fst (set_silhouette_subplot_axes silhouette_samples model data n_clusters
                                                     cluster_labels silhouette_avg)))
    = map (fun i => seq (10 * (i + 1) + labelled_below cluster_labels i)
                        (labelled cluster_labels i))
          (seq 0 n_clusters) /\
    (forall (i : nat) (ys : list nat) (y : nat),
        nth_error (map fst (bands (fst (set_silhouette_subplot_axes
                                          silhouette_samples model data n_clusters
                                          cluster_labels silhouette_avg)))) i = Some ys ->
        In y ys ->
        (10 <= y /\ y + 10 < List.length data + (n_clusters + 1) * 10)%nat) /\
    (forall (i j : nat) (ys ys' : list nat) (y y' : nat),
        (i < j)%nat ->
        nth_error (map fst (bands (fst (set_silhouette_subplot_axes
                                          silhouette_samples model data n_clusters
                                          cluster_labels silhouette_avg)))) i = Some ys ->
        nth_error (map fst (bands (fst (set_silhouette_subplot_axes
                                          silhouette_samples model data n_clusters
                                          cluster_labels silhouette_avg)))) j = Some ys' ->
        In y ys -> In y' ys' -> (y + 10 < y')%nat).
Proof.
  intros model data n_clusters cluster_labels silhouette_avg Hvalues Hlabels.
  destruct (silhouette_subplot_run model data n_clusters cluster_labels silhouette_avg)
    as (calls & Hrun & Hb); [congruence|].
  rewrite Hrun. cbn [fst snd].
  assert (Hbands : map fst (bands (ax_set_xlim (- (2 # 10)) 1
                                   :: ax_set_ylim 0 (List.length data + (n_clusters + 1) * 10)
                                   :: calls))
                   = map (fun i => seq (10 * (i + 1) + labelled_below cluster_labels i)
                                       (labelled cluster_labels i))
                         (seq 0 n_clusters)).
  { change (bands (ax_set_xlim (- (2 # 10)) 1
                   :: ax_set_ylim 0 (List.length data + (n_clusters + 1) * 10) :: calls))
      with (bands calls).
    rewrite Hb, map_map. reflexivity. }
  assert (Hnth : forall i ys,
             nth_error (map (fun i => seq (10 * (i + 1) + labelled_below cluster_labels i)
                                          (labelled cluster_labels i))
                            (seq 0 n_clusters)) i = Some ys ->
             (i < n_clusters)%nat /\
             ys = seq (10 * (i + 1) + labelled_below cluster_labels i)
                      (labelled cluster_labels i)).
  { intros i ys H. rewrite nth_error_map in H.
    rewrite nth_error_seq in H.
    destruct (Nat.ltb_spec i n_clusters) as [Hi|]; [|discriminate].
    simpl in H. inversion H. auto. }
  split; [reflexivity|].
  split; [right; left; reflexivity|].
  split; [exact Hbands|].
  rewrite Hbands. split.
  - intros i ys y Hi Hy. destruct (Hnth i ys Hi) as [Hlt ->].
    apply in_seq in Hy.
    pose proof (labelled_below_S cluster_labels i) as HS.
    pose proof (labelled_below_mono cluster_labels (S i) n_clusters ltac:(lia)) as Hm.
    pose proof (labelled_below_le cluster_labels n_clusters) as Hle.
    lia.
  - intros i j ys ys' y y' Hij Hi Hj Hy Hy'.
    destruct (Hnth i ys Hi) as [_ ->]. destruct (Hnth j ys' Hj) as [_ ->].
    apply in_seq in Hy. apply in_seq in Hy'.
    pose proof (labelled_below_S cluster_labels i) as HS.
    pose proof (labelled_below_mono cluster_labels (S i) j ltac:(lia)) as Hm.
    lia.
Qed.

(** X2.  When the predicted labels and the silhouette coefficients match in
    number, the band of cluster [i] is given as many y positions as
    coefficients, and its coefficients are those of the samples labelled
    [i], each as often as it occurs, in ascending order.  Together the
    bands hold the coefficients of the samples whose label is below
    [n_clusters], and no other. *)
Theorem silhouette_bands_hold_clusters :
  forall (model : KMeansModel) (data : table) (n_clusters : nat)
         (cluster_labels : list nat) (silhouette_avg : Q),
    List.length cluster_labels
    = List.length (silhouette_samples data (kmeans_labels model)) ->
    Forall2 (fun i band =>
               List.length (fst band) = List.length (snd band) /\
               StronglySorted Qle (snd band) /\
               Permutation (snd band)
                           (members (silhouette_samples data (kmeans_labels model))
                                    cluster_labels i))
            (seq 0 n_clusters)
            (bands (fst (set_silhouette_subplot_axes silhouette_samples model data n_clusters
                                                     cluster_labels silhouette_avg))) /\
    Permutation
      (List.concat (map snd (bands (fst (set_silhouette_subplot_axes
                                      silhouette_samples model data n_clusters
                                      cluster_labels silhouette_avg)))))
      (mask_rows (silhouette_samples data (kmeans_labels model))
                 (map (fun l => Nat.ltb l n_clusters) cluster_labels)).
Proof.
  intros model data n_clusters cluster_labels silhouette_avg Hlen.
  destruct (silhouette_subplot_run model data n_clusters cluster_labels silhouette_avg Hlen)
    as (calls & Hrun & Hb).
  rewrite Hrun. cbn [fst].
  change (bands (ax_set_xlim (- (2 # 10)) 1
                 :: ax_set_ylim 0 (List.length data + (n_clusters + 1) * 10) :: calls))
    with (bands calls).
  rewrite Hb. set (values := silhouette_samples data (kmeans_labels model)) in *.
  split.
  - generalize (seq 0 n_clusters). intros l. induction l as [|i l IH]; constructor; [|exact IH].
    cbn [fst snd]. split; [|split].
    + rewrite length_seq, (Permutation_length (ndarray_sort_perm _)).
      symmetry. now apply members_length.
    + apply ndarray_sort_sorted.
    + apply ndarray_sort_perm.
  - rewrite map_map. cbn [snd]. rewrite <- members_below.
    generalize (seq 0 n_clusters). intros l. induction l as [|i l IH]; simpl; [reflexivity|].
    apply Permutation_app; [apply ndarray_sort_perm | exact IH].
Qed.

End SilhouetteBands.

(** * What a run can raise, and what reaches the classifier *)

Section HarnessOutcomes.

Context {SK : Sklearn}.

Local Open Scope harness_scope.

Lemma outcome_ret (A : Type) (Q : A -> Prop) (E : exn -> Prop) (a : A) :
  Q a -> outcome (ret a) Q E.
Proof. intros H w. exact H. Qed.

Lemma outcome_lift (A : Type) (Q : A -> Prop) (E : exn -> Prop) (r : result A) :
  (forall a, r = Ok a -> Q a) -> (forall e, r = Raise e -> E e) -> outcome (lift r) Q E.
Proof. intros HQ HE w. simpl. destruct r; auto. Qed.

Lemma outcome_emit (E : exn -> Prop) (e : Event) : outcome (emit e) (fun _ => True) E.
Proof. intros w. exact I. Qed.

Lemma outcome_fresh (E : exn -> Prop) : outcome fresh (fun _ => True) E.
Proof. intros w. exact I. Qed.

Lemma outcome_random (A : Type) (E : exn -> Prop) (random_state : option Z)
    (f : RandomState -> A * RandomState) :
  outcome (with_random_state random_state f) (fun _ => True) E.
Proof.
  intros w. unfold with_random_state. destruct random_state; [exact I|].
  destruct (f (ambient w)). exact I.
Qed.

Lemma outcome_bind (A B : Type) (m : M A) (f : A -> M B)
    (Q : A -> Prop) (R : B -> Prop) (E : exn -> Prop) :
  outcome m Q E -> (forall a, Q a -> outcome (f a) R E) -> outcome (bind m f) R E.
Proof.
  intros Hm Hf w. unfold bind. specialize (Hm w).
  destruct (m w) as [w1 [a|e]]; simpl in *; [|exact Hm].
  exact (Hf a Hm w1).
Qed.

Lemma outcome_weaken (A : Type) (m : M A) (Q Q' : A -> Prop) (E E' : exn -> Prop) :
  outcome m Q E -> (forall a, Q a -> Q' a) -> (forall e, E e -> E' e) -> outcome m Q' E'.
Proof.
  intros Hm HQ HE w. specialize (Hm w). destruct (snd (m w)); auto.
Qed.

Lemma outcome_for_each (A S : Type) (I : S -> Prop) (E : exn -> Prop)
    (body : A -> S -> M S) (xs : list A) :
  (forall x s, I s -> outcome (body x s) I E) ->
  forall s, I s -> outcome (for_each xs body s) I E.
Proof.
  intros Hbody. induction xs as [|x xs IH]; intros s Hs; simpl.
  - now apply outcome_ret.
  - apply outcome_bind with (Q := I); [now apply Hbody | exact IH].
Qed.

Lemma outcome_comprehension (A B : Type) (E : exn -> Prop) (f : A -> M B) (xs : list A) :
  (forall x, outcome (f x) (fun _ => True) E) ->
  outcome (comprehension f xs) (fun _ => True) E.
Proof.
  intros Hf. induction xs as [|x xs IH]; simpl.
  - now apply outcome_ret.
  - apply outcome_bind with (Q := fun _ => True); [apply Hf|]. intros y _.
    apply outcome_bind with (Q := fun _ => True); [exact IH|]. intros ys _.
    now apply outcome_ret.
Qed.

Lemma iloc_raise (A : Type) (l : list A) (index : list nat) (e : exn) :
  iloc l index = Raise e -> e = IndexError.
Proof.
  induction index as [|i index IH]; simpl; [discriminate|].
  destruct (nth_error l i); [|intros H; now inversion H].
  destruct (iloc l index); [discriminate|].
  intros H; inversion H; subst. now apply IH.
Qed.

Lemma df_iloc_raise (X : DataFrame) (index : list nat) (e : exn) :
  df_iloc X index = Raise e -> e = IndexError.
Proof.
  unfold df_iloc. destruct (iloc (rows X) index) eqn:E; [discriminate|].
  intros H; inversion H; subst. exact (iloc_raise _ _ _ _ E).
Qed.

Lemma mk_DataFrame_raise (array : table) (cols : list string) (e : exn) :
  mk_DataFrame array cols = Raise e -> e = ValueError.
Proof.
  unfold mk_DataFrame.
  destruct (forallb (fun row => Nat.eqb (List.length row) (List.length cols)) array);
    [discriminate|].
  intros H; now inversion H.
Qed.

Lemma drop_raise (df : DataFrame) (name : string) (e : exn) :
  drop df name = Raise e -> e = KeyError /\ column_index name (columns df) = None.
Proof.
  unfold drop. destruct (column_index name (columns df)); [discriminate|].
  intros H; inversion H; auto.
Qed.

Lemma getitem_raise (df : DataFrame) (name : string) (e : exn) :
  getitem df name = Raise e -> e = KeyError /\ column_index name (columns df) = None.
Proof.
  unfold getitem. destruct (column_index name (columns df)); [discriminate|].
  intros H; inversion H; auto.
Qed.

Lemma fit_raise (self : KNN.KNNClassifier Q) (X : table) (y : Series) (e : exn) :
  KNN.fit self X y = Raise e -> e = DataShapeError.
Proof.
  unfold KNN.fit. destruct (Nat.eqb _ _); [discriminate|]. intros H; now inversion H.
Qed.

Lemma fit_fitted (self self' : KNN.KNNClassifier Q) (X : table) (y : Series) :
  KNN.fit self X y = Ok self' -> self' <> None.
Proof.
  intros H. destruct (fit_ok_inv Q _ _ _ _ H) as [-> _]. discriminate.
Qed.

Lemma predict_raise (ts : KNN.TrainingSet Q) (q : vector) (k : Z) (e : exn) :
  KNN.predict Qeq_bool (Some ts) q k = Raise e -> e = InvalidKError \/ e = DataShapeError.
Proof.
  unfold KNN.predict.
  repeat match goal with
         | |- context [if ?b then _ else _] => destruct b
         | |- context [match ?x with _ => _ end] => destruct x eqn:?
         end; intros H; inversion H; auto.
Qed.


Local Abbreviation anything := (fun _ => True).

Lemma StandardScaler_new_outcome (E : exn -> Prop) : outcome StandardScaler_new anything E.
Proof.
  unfold StandardScaler_new.
  eapply outcome_bind; [apply outcome_fresh|]. intros sid _.
  eapply outcome_bind; [apply outcome_emit|]. intros _ _.
  now apply outcome_ret.
Qed.

Lemma fit_transform_outcome (E : exn -> Prop) (scaler : StandardScaler) (X : table) :
  outcome (fit_transform scaler X) anything E.
Proof.
  unfold fit_transform.
  eapply outcome_bind; [apply outcome_emit|]. intros _ _.
  now apply outcome_ret.
Qed.

Lemma KNNClassifier_new_outcome (E : exn -> Prop) : outcome KNNClassifier_new anything E.
Proof.
  unfold KNNClassifier_new.
  eapply outcome_bind; [apply outcome_fresh|]. intros kid _.
  eapply outcome_bind; [apply outcome_emit|]. intros _ _.
  now apply outcome_ret.
Qed.

Lemma knn_fit_outcome (knn : KNNClassifier) (X : DataFrame) (y : Series) :
  outcome (knn_fit knn X y) (fun knn' => knn_state knn' <> None) work_exn.
Proof.
  unfold knn_fit.
  eapply outcome_bind; [apply outcome_emit|]. intros _ _.
  eapply outcome_bind.
  - apply outcome_lift with (Q := fun state : KNN.KNNClassifier Q => state <> None).
    + intros state H. exact (fit_fitted _ _ _ _ H).
    + intros e H. apply fit_raise in H. subst e. unfold work_exn. tauto.
  - intros state Hstate. now apply outcome_ret.
Qed.

Lemma knn_predict_outcome (knn : KNNClassifier) (query : DataFrame) (k : Z) :
  knn_state knn <> None -> outcome (knn_predict knn query k) anything work_exn.
Proof.
  intros Hfitted. unfold knn_predict.
  eapply outcome_bind; [apply outcome_emit|]. intros _ _.
  destruct (knn_state knn) as [ts|] eqn:Es; [|congruence].
  destruct (rows query) as [|q [|q' qs]];
    try (intros w; simpl; unfold work_exn; tauto).
  apply outcome_lift; [auto|].
  intros e H. apply predict_raise in H. unfold work_exn. tauto.
Qed.

Lemma predict_rows_outcome (knn : KNNClassifier) (X : table) (cols : list string)
    (n_neighbors : Z) (n : nat) :
  knn_state knn <> None ->
  outcome (predict_rows knn X cols n_neighbors n) anything work_exn.
Proof.
  intros Hfitted. unfold predict_rows. apply outcome_comprehension. intros i.
  eapply outcome_bind.
  - apply outcome_lift with (Q := anything); [auto|].
    intros e H. destruct (nth_error X i); [discriminate|].
    inversion H. unfold work_exn. tauto.
  - intros row _. eapply outcome_bind.
    + apply outcome_lift with (Q := anything); [auto|].
      intros e H. apply mk_DataFrame_raise in H. unfold work_exn. tauto.
    + intros query _. now apply knn_predict_outcome.
Qed.

Lemma lift_index_outcome (A : Type) (r : result A) :
  (forall e, r = Raise e -> e = IndexError) -> outcome (lift r) anything work_exn.
Proof.
  intros H. apply outcome_lift; [auto|].
  intros e He. apply H in He. unfold work_exn. tauto.
Qed.

Lemma lift_value_outcome (A : Type) (r : result A) :
  (forall e, r = Raise e -> e = ValueError) -> outcome (lift r) anything work_exn.
Proof.
  intros H. apply outcome_lift; [auto|].
  intros e He. apply H in He. unfold work_exn. tauto.
Qed.

(** From the split on: the work both [cv_fold] and [evaluate_analyze_knn]
    do with the partitions. *)
Lemma cv_fold_outcome (X : DataFrame) (y : Series) (n_neighbors : Z)
    (fold : list nat * list nat) (accuracy : list Q) :
  outcome (cv_fold X y n_neighbors fold accuracy) anything work_exn.
Proof.
  destruct fold as [train_index test_index]. unfold cv_fold.
  eapply outcome_bind; [apply lift_index_outcome, df_iloc_raise|]. intros X_train _.
  eapply outcome_bind; [apply lift_index_outcome, df_iloc_raise|]. intros X_test _.
  eapply outcome_bind; [apply lift_index_outcome, iloc_raise|]. intros y_train _.
  eapply outcome_bind; [apply lift_index_outcome, iloc_raise|]. intros y_test _.
  eapply outcome_bind; [apply StandardScaler_new_outcome|]. intros scaler _.
  eapply outcome_bind; [apply fit_transform_outcome|]. intros [scaler1 X_train_scaled] _.
  eapply outcome_bind; [apply fit_transform_outcome|]. intros [scaler2 X_test_scaled] _.
  eapply outcome_bind; [apply KNNClassifier_new_outcome|]. intros knn _.
  eapply outcome_bind; [apply lift_value_outcome, mk_DataFrame_raise|]. intros train _.
  eapply outcome_bind; [apply knn_fit_outcome|]. intros knn1 Hfitted.
  eapply outcome_bind; [now apply predict_rows_outcome|]. intros y_pred _.
  eapply outcome_bind; [apply outcome_emit|]. intros _ _.
  now apply outcome_ret.
Qed.

Lemma mean_raise (accuracy : list Q) (e : exn) :
  mean accuracy = Raise e -> e = ZeroDivisionError.
Proof. destruct accuracy; simpl; [|discriminate]. intros H; now inversion H. Qed.

Lemma k_fold_cv_knn_outcome (X : DataFrame) (y : Series) (n_neighbors : Z) :
  outcome (k_fold_cv_knn X y n_neighbors) anything work_exn.
Proof.
  unfold k_fold_cv_knn.
  eapply outcome_bind; [apply outcome_emit|]. intros _ _.
  eapply outcome_bind; [apply outcome_random|]. intros folds _.
  eapply outcome_bind.
  - apply outcome_for_each with (I := anything); [|exact I].
    intros fold acc _. apply cv_fold_outcome.
  - intros accuracy _. apply outcome_lift; [auto|].
    intros e H. apply mean_raise in H. unfold work_exn. tauto.
Qed.

Lemma confusion_matrix_knn_outcome (E : exn -> Prop) (y_test y_pred : Series) :
  outcome (confusion_matrix_knn y_test y_pred) anything E.
Proof.
  unfold confusion_matrix_knn.
  eapply outcome_bind; [apply outcome_emit|]. intros _ _.
  eapply outcome_bind; [apply outcome_emit|]. intros _ _.
  now apply outcome_ret.
Qed.

Lemma visualize_roc_curve_knn_outcome (E : exn -> Prop) (y_test y_pred : Series)
    (label : string) :
  outcome (visualize_roc_curve_knn y_test y_pred label) anything E.
Proof.
  unfold visualize_roc_curve_knn.
  eapply outcome_bind; [apply outcome_emit|]. intros _ _.
  destruct (roc_curve y_test y_pred) as [[fpr tpr] thresholds].
  eapply outcome_bind; [apply outcome_emit|]. intros _ _.
  apply outcome_emit.
Qed.

Lemma work_or_missing (data : DataFrame) (names : list string) (e : exn) :
  work_exn e -> missing_or_work data names e.
Proof. now left. Qed.

Lemma evaluate_analyze_knn_outcome (data : DataFrame) (label : string) :
  outcome (evaluate_analyze_knn data label) anything (missing_or_work data ["dec"%string]).
Proof.
  unfold evaluate_analyze_knn.
  eapply outcome_bind; [apply outcome_emit|]. intros _ _.
  eapply outcome_bind.
  { apply outcome_lift with (Q := anything); [auto|].
    intros e H. apply drop_raise in H. right. split; [tauto|].
    exists "dec"%string. split; [now left | tauto]. }
  intros X _.
  eapply outcome_bind.
  { apply outcome_lift with (Q := anything); [auto|].
    intros e H. apply getitem_raise in H. right. split; [tauto|].
    exists "dec"%string. split; [now left | tauto]. }
  intros y _. cbv zeta.
  eapply outcome_bind; [apply outcome_emit|]. intros _ _.
  eapply outcome_bind; [apply outcome_random|]. intros [train_index test_index] _.
  eapply outcome_weaken with (Q := anything) (E := work_exn);
    [|auto|apply work_or_missing].
  eapply outcome_bind; [apply lift_index_outcome, df_iloc_raise|]. intros X_train _.
  eapply outcome_bind; [apply lift_index_outcome, df_iloc_raise|]. intros X_test _.
  eapply outcome_bind; [apply lift_index_outcome, iloc_raise|]. intros y_train _.
  eapply outcome_bind; [apply lift_index_outcome, iloc_raise|]. intros y_test _.
  eapply outcome_bind; [apply StandardScaler_new_outcome|]. intros scaler _.
  eapply outcome_bind; [apply fit_transform_outcome|]. intros [scaler1 X_train_scaled] _.
  eapply outcome_bind; [apply fit_transform_outcome|]. intros [scaler2 X_test_scaled] _.
  eapply outcome_bind; [apply KNNClassifier_new_outcome|]. intros knn _.
  eapply outcome_bind; [apply lift_value_outcome, mk_DataFrame_raise|]. intros train _.
  eapply outcome_bind; [apply knn_fit_outcome|]. intros knn1 Hfitted.
  eapply outcome_bind; [now apply predict_rows_outcome|]. intros y_pred _.
  eapply outcome_bind; [apply k_fold_cv_knn_outcome|]. intros accuracy _.
  eapply outcome_bind; [apply outcome_emit|]. intros _ _.
  eapply outcome_bind; [apply confusion_matrix_knn_outcome|]. intros [matrix report] _.
  eapply outcome_bind; [apply outcome_emit|]. intros _ _.
  eapply outcome_bind; [apply outcome_emit|]. intros _ _.
  eapply outcome_bind; [apply visualize_roc_curve_knn_outcome|]. intros _ _.
  eapply outcome_bind; [apply outcome_emit|]. intros _ _.
  apply outcome_emit.
Qed.

Lemma value_error_outcome (A : Type) (r : result A) :
  (forall e, r = Raise e -> e = ValueError) ->
  outcome (lift r) anything (fun e => e = ValueError).
Proof. intros H. apply outcome_lift; auto. Qed.

Lemma accepted_raise (A : Type) (r : option A) (e : exn) :
  accepted r = Raise e -> e = ValueError.
Proof. destruct r; simpl; intros H; now inversion H. Qed.

Lemma setitem_raise (df : DataFrame) (name : string) (values : Series) (e : exn) :
  setitem df name values = Raise e -> e = ValueError.
Proof.
  unfold setitem. destruct (Nat.eqb (List.length values) (List.length (rows df)));
    [discriminate|].
  intros H; now inversion H.
Qed.

Lemma idxmax_raise (series : list (nat * Q)) (e : exn) :
  idxmax series = Raise e -> e = ValueError.
Proof. destruct series; simpl; intros H; now inversion H. Qed.

Lemma trained_clustering_model_outcome (data : table) (n_clusters : nat) :
  outcome (trained_clustering_model data n_clusters) anything (fun e => e = ValueError).
Proof.
  unfold trained_clustering_model.
  eapply outcome_bind; [apply outcome_emit|]. intros _ _.
  eapply outcome_bind; [apply outcome_random|]. intros kmeans _.
  apply value_error_outcome, accepted_raise.
Qed.

Lemma call_silhouette_score_outcome (data : table) (cl : list nat) :
  outcome (call_silhouette_score data cl) anything (fun e => e = ValueError).
Proof.
  unfold call_silhouette_score.
  eapply outcome_bind; [apply outcome_emit|]. intros _ _.
  apply value_error_outcome, accepted_raise.
Qed.

(** Whatever the table, the clustering returns or raises [ValueError]. *)
Lemma evaluate_analyze_clustering_outcome (data : DataFrame) (label : string) :
  outcome (evaluate_analyze_clustering data label) anything (fun e => e = ValueError).
Proof.
  unfold evaluate_analyze_clustering.
  eapply outcome_bind; [apply outcome_emit|]. intros _ _.
  eapply outcome_bind; [apply StandardScaler_new_outcome|]. intros scaler _.
  eapply outcome_bind; [apply fit_transform_outcome|]. intros [scaler1 data_scaled] _.
  eapply outcome_bind.
  { unfold tune_clustering_hyperparameter.
    eapply outcome_bind.
    - apply outcome_for_each with (I := anything); [|exact I]. intros n series _.
      eapply outcome_bind; [apply trained_clustering_model_outcome|]. intros kmeans _.
      eapply outcome_bind; [apply call_silhouette_score_outcome|]. intros score _.
      now apply outcome_ret.
    - intros series _. apply value_error_outcome, idxmax_raise. }
  intros k _.
  eapply outcome_bind; [apply trained_clustering_model_outcome|]. intros model _.
  eapply outcome_bind; [apply call_silhouette_score_outcome|]. intros score _.
  unfold visualize_clustering, set_silhouette_subplot, set_scatter_subplot. cbv zeta.
  eapply outcome_bind; [apply outcome_emit|]. intros _ _.
  eapply outcome_bind.
  { eapply outcome_bind; [apply outcome_emit|]. intros _ _.
    eapply outcome_bind; [apply outcome_random|]. intros projected _.
    eapply outcome_bind; [apply value_error_outcome, accepted_raise|]. intros projected' _.
    eapply outcome_bind; [apply value_error_outcome, mk_DataFrame_raise|].
    intros components _.
    eapply outcome_bind; [apply value_error_outcome, setitem_raise|]. intros pca_data _.
    apply outcome_emit. }
  intros _ _. apply outcome_emit.
Qed.

End HarnessOutcomes.

Section KnnCalls.

Context {SK : Sklearn}.

Local Open Scope harness_scope.

Local Abbreviation anything := (fun _ => True).

Lemma emits_then (A B : Type) (P : Event -> Prop) (m : M A) (f : A -> M B) (R : B -> Prop) :
  emits P m anything -> (forall a, emits P (f a) R) -> emits P (bind m f) R.
Proof.
  intros Hm Hf. apply emits_bind with (Q := anything); [exact Hm|].
  intros a _. apply Hf.
Qed.

Lemma emits_lift_eq (A : Type) (P : Event -> Prop) (r : result A) :
  emits P (lift r) (fun a => r = Ok a).
Proof. apply emits_lift. auto. Qed.

Lemma emits_lift_any (A : Type) (P : Event -> Prop) (r : result A) :
  emits P (lift r) anything.
Proof. apply emits_lift. auto. Qed.

Lemma emits_random (A : Type) (P : Event -> Prop) (random_state : option Z)
    (f : RandomState -> A * RandomState) :
  emits P (with_random_state random_state f) anything.
Proof. eapply emits_weaken; [apply emits_with_random_state | auto]. Qed.

Section On.

Variable cols : list string.
Variable y : Series.
Variable k : Z.

Local Abbreviation on := (emits (knn_call_on cols y k)).

Lemma StandardScaler_new_on : on StandardScaler_new anything.
Proof.
  unfold StandardScaler_new.
  apply emits_then; [apply emits_fresh|]. intros sid.
  apply emits_then; [apply emits_emit; exact I|]. intros _.
  now apply emits_ret.
Qed.

Lemma fit_transform_on (scaler : StandardScaler) (X : table) :
  on (fit_transform scaler X) anything.
Proof.
  unfold fit_transform.
  apply emits_then; [apply emits_emit; exact I|]. intros _.
  now apply emits_ret.
Qed.

Lemma KNNClassifier_new_on : on KNNClassifier_new anything.
Proof.
  unfold KNNClassifier_new.
  apply emits_then; [apply emits_fresh|]. intros kid.
  apply emits_then; [apply emits_emit; exact I|]. intros _.
  now apply emits_ret.
Qed.

Lemma knn_fit_on (knn : KNNClassifier) (X : DataFrame) (y_train : Series) :
  columns X = cols -> incl y_train y -> on (knn_fit knn X y_train) anything.
Proof.
  intros HX Hy. unfold knn_fit.
  apply emits_then; [apply emits_emit; simpl; auto|]. intros _.
  apply emits_then; [apply emits_lift_any|]. intros state.
  now apply emits_ret.
Qed.

Lemma predict_rows_on (knn : KNNClassifier) (X : table) (n : nat) :
  on (predict_rows knn X cols k n) anything.
Proof.
  unfold predict_rows.
  eapply emits_weaken; [|intros a _; exact I].
  apply emits_comprehension with (Q := anything). intros i _.
  apply emits_then; [apply emits_lift_any|]. intros row.
  eapply emits_bind; [apply emits_lift_eq|]. intros query Hq. simpl in Hq.
  apply mk_DataFrame_rows in Hq. destruct Hq as [_ Hq].
  unfold knn_predict.
  apply emits_then; [apply emits_emit; simpl; auto|]. intros _.
  destruct (rows query) as [|q [|q' qs]];
    first [apply emits_raise | apply emits_lift_any].
Qed.

Lemma confusion_matrix_knn_on (y_test y_pred : Series) :
  on (confusion_matrix_knn y_test y_pred) anything.
Proof.
  unfold confusion_matrix_knn.
  apply emits_then; [apply emits_emit; exact I|]. intros _.
  apply emits_then; [apply emits_emit; exact I|]. intros _.
  now apply emits_ret.
Qed.

Lemma visualize_roc_curve_knn_on (y_test y_pred : Series) (label : string) :
  on (visualize_roc_curve_knn y_test y_pred label) anything.
Proof.
  unfold visualize_roc_curve_knn.
  apply emits_then; [apply emits_emit; exact I|]. intros _.
  destruct (roc_curve y_test y_pred) as [[fpr tpr] thresholds].
  apply emits_then; [apply emits_emit; exact I|]. intros _.
  apply emits_emit; exact I.
Qed.

(** The work on one split, from the partitions on. *)
Lemma cv_fold_on (X : DataFrame) (fold : list nat * list nat) (accuracy : list Q) :
  columns X = cols -> on (cv_fold X y k fold accuracy) anything.
Proof.
  intros HX. destruct fold as [train_index test_index]. unfold cv_fold.
  eapply emits_bind; [apply emits_lift_eq|]. intros X_train HXtr. simpl in HXtr.
  apply df_iloc_ok in HXtr. destruct HXtr as [HXtr _].
  eapply emits_bind; [apply emits_lift_eq|]. intros X_test HXte. simpl in HXte.
  apply df_iloc_ok in HXte. destruct HXte as [HXte _].
  eapply emits_bind; [apply emits_lift_eq|]. intros y_train Hytr. simpl in Hytr.
  apply emits_then; [apply emits_lift_any|]. intros y_test.
  apply emits_then; [apply StandardScaler_new_on|]. intros scaler.
  apply emits_then; [apply fit_transform_on|]. intros [scaler1 X_train_scaled].
  apply emits_then; [apply fit_transform_on|]. intros [scaler2 X_test_scaled].
  apply emits_then; [apply KNNClassifier_new_on|]. intros knn.
  eapply emits_bind; [apply emits_lift_eq|]. intros train Hdf. simpl in Hdf.
  apply mk_DataFrame_rows in Hdf. destruct Hdf as [_ Hdf].
  apply emits_then.
  { apply knn_fit_on; [congruence|].
    intros v Hv. exact (iloc_incl _ _ _ _ _ Hytr Hv). }
  intros knn1.
  apply emits_then; [rewrite HXte, HX; apply predict_rows_on|]. intros y_pred.
  apply emits_then; [apply emits_emit; exact I|]. intros _.
  now apply emits_ret.
Qed.

Lemma k_fold_cv_knn_on (X : DataFrame) :
  columns X = cols -> on (k_fold_cv_knn X y k) anything.
Proof.
  intros HX. unfold k_fold_cv_knn.
  apply emits_then; [apply emits_emit; exact I|]. intros _.
  apply emits_then; [apply emits_random|]. intros folds.
  apply emits_then.
  - apply emits_for_each with (I := anything); [|exact I].
    intros fold acc _ _. now apply cv_fold_on.
  - intros accuracy. apply emits_lift_any.
Qed.

End On.

End KnnCalls.

Section HarnessExtras.

Context {SK : Sklearn}.

Local Open Scope harness_scope.
Local Open Scope string_scope.

Local Abbreviation anything := (fun _ => True).

Lemma drop_cells_filter (name : string) (cols : list string) :
  drop_cells name cols cols = filter (fun c => negb (String.eqb name c)) cols.
Proof.
  assert (H : forall cells : list string,
             drop_cells name cells cells
             = filter (fun c => negb (String.eqb name c)) cells).
  { induction cells as [|c cells IH]; simpl; [reflexivity|].
    destruct (String.eqb name c); simpl; now rewrite IH. }
  apply H.
Qed.

Lemma drop_columns (data X : DataFrame) (name : string) :
  drop data name = Ok X ->
  columns X = filter (fun c => negb (String.eqb name c)) (columns data).
Proof.
  unfold drop. destruct (column_index name (columns data)); [|discriminate].
  intros H; inversion H; subst. simpl. apply drop_cells_filter.
Qed.

Lemma evaluate_analyze_knn_on (data : DataFrame) (label : string) (X : DataFrame) (y : Series) :
  drop data "dec" = Ok X -> getitem data "dec" = Ok y ->
  emits (knn_call_on (columns X) y 5) (evaluate_analyze_knn data label) anything.
Proof.
  intros HX Hy. unfold evaluate_analyze_knn.
  apply emits_then; [apply emits_emit; exact I|]. intros _.
  eapply emits_bind; [apply emits_lift_eq|]. intros X0 HX0. simpl in HX0.
  assert (X0 = X) by congruence. subst X0.
  eapply emits_bind; [apply emits_lift_eq|]. intros y0 Hy0. simpl in Hy0.
  assert (y0 = y) by congruence. subst y0. cbv zeta.
  apply emits_then; [apply emits_emit; exact I|]. intros _.
  apply emits_then; [apply emits_random|]. intros [train_index test_index].
  eapply emits_bind; [apply emits_lift_eq|]. intros X_train HXtr. simpl in HXtr.
  apply df_iloc_ok in HXtr. destruct HXtr as [HXtr _].
  eapply emits_bind; [apply emits_lift_eq|]. intros X_test HXte. simpl in HXte.
  apply df_iloc_ok in HXte. destruct HXte as [HXte _].
  eapply emits_bind; [apply emits_lift_eq|]. intros y_train Hytr. simpl in Hytr.
  apply emits_then; [apply emits_lift_any|]. intros y_test.
  apply emits_then; [apply StandardScaler_new_on|]. intros scaler.
  apply emits_then; [apply fit_transform_on|]. intros [scaler1 X_train_scaled].
  apply emits_then; [apply fit_transform_on|]. intros [scaler2 X_test_scaled].
  apply emits_then; [apply KNNClassifier_new_on|]. intros knn.
  eapply emits_bind; [apply emits_lift_eq|]. intros train Hdf. simpl in Hdf.
  apply mk_DataFrame_rows in Hdf. destruct Hdf as [_ Hdf].
  apply emits_then.
  { apply knn_fit_on; [congruence|].
    intros v Hv. exact (iloc_incl _ _ _ _ _ Hytr Hv). }
  intros knn1.
  apply emits_then; [rewrite HXte; apply predict_rows_on|]. intros y_pred.
  apply emits_then; [now apply k_fold_cv_knn_on|]. intros accuracy.
  apply emits_then; [apply emits_emit; exact I|]. intros _.
  apply emits_then; [apply confusion_matrix_knn_on|]. intros [matrix report].
  apply emits_then; [apply emits_emit; exact I|]. intros _.
  apply emits_then; [apply emits_emit; exact I|]. intros _.
  apply emits_then; [apply visualize_roc_curve_knn_on|]. intros _.
  apply emits_then; [apply emits_emit; exact I|]. intros _.
  apply emits_emit; exact I.
Qed.

Lemma emits_appends (A : Type) (P : Event -> Prop) (m : M A) (Q : A -> Prop) :
  emits P m Q -> appends P m.
Proof. intros H w. exact (proj1 (H w)). Qed.

(** X3.  The classifier never sees the target.  In [k_fold_cv_knn] every
    table handed to [fit] and every query handed to [predict] has the
    columns of [X], the labels handed to [fit] are values of [y], and
    [predict] is asked for [n_neighbors] neighbours.  In
    [evaluate_analyze_knn], holdout and cross-validation alike, the columns
    are those of the data without [dec], in their order, the labels are
    values of the column [dec], and [predict] is asked for 5 neighbours. *)
Theorem target_never_among_features :
  (forall (X : DataFrame) (y : Series) (n_neighbors : Z),
      appends (knn_call_on (columns X) y n_neighbors) (k_fold_cv_knn X y n_neighbors)) /\
  (forall (data : DataFrame) (label : string) (X : DataFrame) (y : Series),
      drop data "dec" = Ok X ->
      getitem data "dec" = Ok y ->
      columns X = filter (fun c => negb (String.eqb "dec" c)) (columns data) /\
      ~ In "dec" (columns X) /\
      appends (knn_call_on (columns X) y 5) (evaluate_analyze_knn data label)).
Proof.
  split.
  - intros X y n. eapply emits_appends. now apply k_fold_cv_knn_on.
  - intros data label X y HX Hy.
    pose proof (drop_columns _ _ _ HX) as Hcols.
    split; [exact Hcols|]. split.
    + rewrite Hcols. intros Hin. apply filter_In in Hin. destruct Hin as [_ Hin].
      now rewrite String.eqb_refl in Hin.
    + eapply emits_appends. now apply evaluate_analyze_knn_on.
Qed.

Lemma outcome_not (A : Type) (m : M A) (E : exn -> Prop) (e : exn) :
  outcome m anything E -> ~ E e -> forall w, snd (m w) <> Raise e.
Proof.
  intros Hm He w H. specialize (Hm w). rewrite H in Hm. contradiction.
Qed.

Lemma work_exn_fitted : ~ work_exn NotFittedError.
Proof. unfold work_exn. intros [H | [H | [H | [H | H]]]]; discriminate. Qed.

Lemma work_exn_key : ~ work_exn KeyError.
Proof. unfold work_exn. intros [H | [H | [H | [H | H]]]]; discriminate. Qed.

Lemma missing_or_work_fitted (data : DataFrame) (names : list string) :
  ~ missing_or_work data names NotFittedError.
Proof. intros [H | [H _]]; [exact (work_exn_fitted H) | discriminate]. Qed.

Lemma df_where_columns (df : DataFrame) (mask : list bool) :
  columns (df_where df mask) = columns df.
Proof. reflexivity. Qed.

Lemma slice_outcome (df : DataFrame) (mask : list bool) (label : string) :
  outcome (evaluate_analyze_knn (df_where df mask) label) anything
          (missing_or_work df ["dec"; "gender"; "age"]).
Proof.
  eapply outcome_weaken; [apply evaluate_analyze_knn_outcome | auto |].
  intros e [H | [He (name & [<- | []] & Hn)]]; [now left|]. right. split; [exact He|].
  exists "dec". split; [now left | exact Hn].
Qed.

Lemma whole_outcome (df : DataFrame) (label : string) :
  outcome (evaluate_analyze_knn df label) anything
          (missing_or_work df ["dec"; "gender"; "age"]).
Proof.
  eapply outcome_weaken; [apply evaluate_analyze_knn_outcome | auto |].
  intros e [H | [He (name & [<- | []] & Hn)]]; [now left|]. right. split; [exact He|].
  exists "dec". split; [now left | exact Hn].
Qed.

Lemma clustering_in_script (df data : DataFrame) (label : string) :
  outcome (evaluate_analyze_clustering data label) anything
          (missing_or_work df ["dec"; "gender"; "age"]).
Proof.
  eapply outcome_weaken; [apply evaluate_analyze_clustering_outcome | auto |].
  intros e ->. left. unfold work_exn. auto.
Qed.

Lemma script_outcome (df : DataFrame) :
  outcome (script df) anything (missing_or_work df ["dec"; "gender"; "age"]).
Proof.
  unfold script.
  eapply outcome_bind; [apply clustering_in_script|]. intros _ _.
  eapply outcome_bind; [apply whole_outcome|]. intros _ _.
  eapply outcome_bind.
  { apply outcome_lift with (Q := anything); [auto|].
    intros e H. apply getitem_raise in H. right. split; [tauto|].
    exists "gender". split; [right; now left | tauto]. }
  intros gender _. cbv zeta.
  eapply outcome_bind; [apply clustering_in_script|]. intros _ _.
  eapply outcome_bind; [apply clustering_in_script|]. intros _ _.
  eapply outcome_bind; [apply slice_outcome|]. intros _ _.
  eapply outcome_bind; [apply slice_outcome|]. intros _ _.
  eapply outcome_bind.
  { apply outcome_lift with (Q := anything); [auto|].
    intros e H. apply getitem_raise in H. right. split; [tauto|].
    exists "age". split; [right; right; now left | tauto]. }
  intros age _. cbv zeta.
  eapply outcome_bind; [apply clustering_in_script|]. intros _ _.
  eapply outcome_bind; [apply clustering_in_script|]. intros _ _.
  eapply outcome_bind; [apply clustering_in_script|]. intros _ _.
  eapply outcome_bind; [apply slice_outcome|]. intros _ _.
  eapply outcome_bind; [apply slice_outcome|]. intros _ _.
  apply slice_outcome.
Qed.

(** X4.  [predict] is never called on a classifier that was not fitted:
    whatever the inputs and the world, neither [k_fold_cv_knn] nor
    [evaluate_analyze_knn] nor the script raises [NotFittedError]. *)
Theorem harness_never_predicts_unfitted :
  (forall (X : DataFrame) (y : Series) (n_neighbors : Z) (w : World),
      snd (k_fold_cv_knn X y n_neighbors w) <> Raise NotFittedError) /\
  (forall (data : DataFrame) (label : string) (w : World),
      snd (evaluate_analyze_knn data label w) <> Raise NotFittedError) /\
  (forall (preprocessed_data : DataFrame) (w : World),
      snd (script preprocessed_data w) <> Raise NotFittedError).
Proof.
  split; [|split].
  - intros X y n. eapply outcome_not; [apply k_fold_cv_knn_outcome | exact work_exn_fitted].
  - intros data label.
    eapply outcome_not; [apply evaluate_analyze_knn_outcome | apply missing_or_work_fitted].
  - intros df. eapply outcome_not; [apply script_outcome | apply missing_or_work_fitted].
Qed.

Lemma evaluate_analyze_knn_no_dec (data : DataFrame) (label : string) (w : World) :
  column_index "dec" (columns data) = None ->
  evaluate_analyze_knn data label w
  = (extend w 0 [Enter "evaluate_analyze_knn" data label], Raise KeyError).
Proof.
  intros H. unfold evaluate_analyze_knn.
  rewrite (bind_run _ (emit_run _ _)).
  unfold bind at 1. unfold lift at 1, drop. now rewrite H.
Qed.

(** X5.  [evaluate_analyze_knn] raises [KeyError] exactly when the data
    have no column [dec], and then at once: nothing is split, scaled,
    fitted or printed.  [k_fold_cv_knn], which is handed the features and
    the labels, never raises [KeyError]. *)
Theorem evaluate_analyze_knn_needs_dec :
  (forall (data : DataFrame) (label : string) (w : World),
      (column_index "dec" (columns data) = None <->
       snd (evaluate_analyze_knn data label w) = Raise KeyError) /\
      (column_index "dec" (columns data) = None ->
       trace (fst (evaluate_analyze_knn data label w))
       = (trace w ++ [Enter "evaluate_analyze_knn" data label])%list)) /\
  (forall (X : DataFrame) (y : Series) (n_neighbors : Z) (w : World),
      snd (k_fold_cv_knn X y n_neighbors w) <> Raise KeyError).
Proof.
  split.
  - intros data label w. split; [split|].
    + intros H. now rewrite (evaluate_analyze_knn_no_dec data label w H).
    + intros H. pose proof (evaluate_analyze_knn_outcome data label w) as Ho.
      rewrite H in Ho. destruct Ho as [Ho | [_ (name & [<- | []] & Hn)]]; [|exact Hn].
      exfalso. exact (work_exn_key Ho).
    + intros H. now rewrite (evaluate_analyze_knn_no_dec data label w H).
  - intros X y n. eapply outcome_not; [apply k_fold_cv_knn_outcome | exact work_exn_key].
Qed.

End HarnessExtras.

(** * The slices of the script *)

Section ScriptExtras.

Context {SK : Sklearn}.

Local Open Scope harness_scope.
Local Open Scope string_scope.

Lemma getitem_column (df : DataFrame) (name : string) (values : Series) :
  getitem df name = Ok values ->
  exists j, column_index name (columns df) = Some j /\
            values = map (fun row => nth j row 0%Q) (rows df).
Proof.
  unfold getitem. destruct (column_index name (columns df)) as [j|]; [|discriminate].
  intros H; inversion H. now exists j.
Qed.

(** Selecting with a mask computed from a cell of each row keeps the rows
    whose own cell passes. *)
Lemma mask_rows_filter (A B : Type) (cell : A -> B) (keep : B -> bool) (l : list A) :
  mask_rows l (map keep (map cell l)) = filter (fun x => keep (cell x)) l.
Proof.
  induction l as [|x l IH]; simpl; [reflexivity|].
  destruct (keep (cell x)); now rewrite IH.
Qed.

Lemma filter_split3 (A : Type) (p1 p2 p3 p : A -> bool) (l : list A) :
  (forall x, p x = (p1 x || p2 x || p3 x)) ->
  (forall x, p1 x = true -> p2 x = false /\ p3 x = false) ->
  (forall x, p2 x = true -> p3 x = false) ->
  Permutation (filter p1 l ++ filter p2 l ++ filter p3 l) (filter p l).
Proof.
  intros Hp H1 H2. induction l as [|x l IH]; simpl; [reflexivity|].
  rewrite (Hp x).
  destruct (p1 x) eqn:E1.
  - destruct (H1 x E1) as [-> ->]. simpl. now constructor.
  - destruct (p2 x) eqn:E2.
    + rewrite (H2 x E2). simpl.
      rewrite <- Permutation_middle. now constructor.
    + destruct (p3 x) eqn:E3; simpl; [|exact IH].
      rewrite app_assoc, <- Permutation_middle, <- app_assoc. now constructor.
Qed.

Lemma Qle_bool_trans (a b c : Q) :
  Qle_bool a b = true -> Qle_bool b c = true -> Qle_bool a c = true.
Proof.
  rewrite !Qle_bool_iff. apply Qle_trans.
Qed.

Lemma age_groups (v : Q) :
  Qle_bool 20 v
  = (Qle_bool 20 v && Qlt_bool v 25) || (Qle_bool 25 v && Qlt_bool v 30) || Qle_bool 30 v.
Proof.
  unfold Qlt_bool.
  destruct (Qle_bool 20 v) eqn:E20, (Qle_bool 25 v) eqn:E25, (Qle_bool 30 v) eqn:E30;
    simpl; try reflexivity; exfalso;
    assert (H : Qle_bool 20 v = true)
      by first [ apply (Qle_bool_trans 20 30 v); [reflexivity | exact E30]
               | apply (Qle_bool_trans 20 25 v); [reflexivity | exact E25] ];
    congruence.
Qed.


Lemma slice_rows (df : DataFrame) (j : nat) (keep : Q -> bool) :
  rows (df_where df (map keep (map (fun row => nth j row 0%Q) (rows df))))
  = filter (fun row => keep (nth j row 0%Q)) (rows df).
Proof. unfold df_where. cbn [rows]. apply mask_rows_filter. Qed.

(** X6.  When the script returns, its last three analyses are the
    nearest-neighbour analyses of the three age groups, each on the rows of
    the table whose own age lies in the group, in the order of the table.
    The groups share no row and together hold the rows aged 20 or more,
    each once: a row aged under 20 is in no age group. *)
Theorem age_groups_split_rows_from_twenty :
  forall (preprocessed_data : DataFrame) (w w' : World) (u : unit),
    script preprocessed_data w = (w', Ok u) ->
    exists (j : nat) (before : list (string * string * DataFrame))
           (data_20_to_24 data_25_to_29 data_over_30 : DataFrame),
      column_index "age" (columns preprocessed_data) = Some j /\
      analyses (trace w')
      = (before ++ [ ("evaluate_analyze_knn", "age from 20 to 24", data_20_to_24);
                     ("evaluate_analyze_knn", "age from 25 to 29", data_25_to_29);
                     ("evaluate_analyze_knn", "age over 30", data_over_30) ])%list /\
      rows data_20_to_24
      = filter (fun row => Qle_bool 20 (nth j row 0%Q) && Qlt_bool (nth j row 0%Q) 25)
               (rows preprocessed_data) /\
      rows data_25_to_29
      = filter (fun row => Qle_bool 25 (nth j row 0%Q) && Qlt_bool (nth j row 0%Q) 30)
               (rows preprocessed_data) /\
      rows data_over_30
      = filter (fun row => Qle_bool 30 (nth j row 0%Q)) (rows preprocessed_data) /\
      Permutation (rows data_20_to_24 ++ rows data_25_to_29 ++ rows data_over_30)
                  (filter (fun row => Qle_bool 20 (nth j row 0%Q)) (rows preprocessed_data)).
Proof.
  intros df w w' u H.
  destruct (script_analyses df w w' u H) as (gender & age & _ & Hage & Hplan).
  destruct (getitem_column _ _ _ Hage) as (j & Hj & ->).
  exists j.
  eexists. eexists. eexists. eexists.
  split; [exact Hj|]. split.
  { rewrite Hplan. unfold script_plan. cbv zeta.
    match goal with
    | |- (?pre ++ [?a1; ?a2; ?a3; ?a4; ?a5; ?a6; ?a7; ?a8; ?a9; ?b1; ?b2; ?b3])%list = _ =>
        change (pre ++ [a1; a2; a3; a4; a5; a6; a7; a8; a9; b1; b2; b3])%list
          with (pre ++ [a1; a2; a3; a4; a5; a6; a7; a8; a9] ++ [b1; b2; b3])%list
    end.
    rewrite app_assoc. reflexivity. }
  rewrite !slice_rows.
  split; [reflexivity|]. split; [reflexivity|]. split; [reflexivity|].
  apply filter_split3.
  - intros row. apply age_groups.
  - intros row Hrow. apply andb_true_iff in Hrow. destruct Hrow as [_ Hlt].
    unfold Qlt_bool in *. apply negb_true_iff in Hlt.
    assert (H30 : Qle_bool 30 (nth j row 0%Q) = false).
    { destruct (Qle_bool 30 (nth j row 0%Q)) eqn:E; [|reflexivity].
      rewrite (Qle_bool_trans 25 30 _ eq_refl E) in Hlt. discriminate. }
    cbv beta. rewrite Hlt, H30. split; reflexivity.
  - intros row Hrow. apply andb_true_iff in Hrow. destruct Hrow as [_ Hlt].
    unfold Qlt_bool in Hlt. apply negb_true_iff in Hlt. exact Hlt.
Qed.

Lemma filter_split2 (A : Type) (p1 p2 : A -> bool) (l : list A) :
  (forall x, p1 x = true -> p2 x = false) ->
  Permutation (filter p1 l ++ filter p2 l) (filter (fun x => p1 x || p2 x) l).
Proof.
  intros H1. induction l as [|x l IH]; simpl; [reflexivity|].
  destruct (p1 x) eqn:E1.
  - rewrite (H1 x E1). simpl. now constructor.
  - destruct (p2 x); simpl; [|exact IH].
    rewrite <- Permutation_middle. now constructor.
Qed.

Lemma filter_all (A : Type) (p : A -> bool) (l : list A) :
  Forall (fun x => p x = true) l -> filter p l = l.
Proof.
  induction 1 as [|x l Hx _ IH]; simpl; [reflexivity|]. now rewrite Hx, IH.
Qed.

(** X7.  When the script returns, the analyses labelled male and female ran
    on the rows of the table whose own gender is 1, and 0, in the order
    of the table.  No row is in both groups, and together they hold the
    rows whose gender is 0 or 1, each once: all rows when the column holds
    no other value. *)
Theorem gender_groups_split_zeros_and_ones :
  forall (preprocessed_data : DataFrame) (w w' : World) (u : unit),
    script preprocessed_data w = (w', Ok u) ->
    exists (j : nat) (before after : list (string * string * DataFrame))
           (male_data female_data : DataFrame),
      column_index "gender" (columns preprocessed_data) = Some j /\
      analyses (trace w')
      = (before ++ [ ("evaluate_analyze_clustering", "male", male_data);
                     ("evaluate_analyze_clustering", "female", female_data);
                     ("evaluate_analyze_knn", "male", male_data);
                     ("evaluate_analyze_knn", "female", female_data) ] ++ after)%list /\
      rows male_data
      = filter (fun row => Qeq_bool (nth j row 0%Q) 1) (rows preprocessed_data) /\
      rows female_data
      = filter (fun row => Qeq_bool (nth j row 0%Q) 0) (rows preprocessed_data) /\
      (forall row, In row (rows male_data) -> ~ In row (rows female_data)) /\
      Permutation (rows male_data ++ rows female_data)
                  (filter (fun row => Qeq_bool (nth j row 0%Q) 1 || Qeq_bool (nth j row 0%Q) 0)
                          (rows preprocessed_data)) /\
      (Forall (fun row => (nth j row 0%Q == 0)%Q \/ (nth j row 0%Q == 1)%Q)
              (rows preprocessed_data) ->
       Permutation (rows male_data ++ rows female_data) (rows preprocessed_data)).
Proof.
  intros df w w' u H.
  destruct (script_analyses df w w' u H) as (gender & age & Hgender & _ & Hplan).
  destruct (getitem_column _ _ _ Hgender) as (j & Hj & ->).
  assert (Hexcl : forall v : Q, Qeq_bool v 1 = true -> Qeq_bool v 0 = false).
  { intros v H1. destruct (Qeq_bool v 0) eqn:H0; [|reflexivity].
    apply Qeq_bool_iff in H1. apply Qeq_bool_iff in H0.
    rewrite H0 in H1. discriminate. }
  exists j.
  eexists. eexists. eexists. eexists.
  split; [exact Hj|]. split.
  { rewrite Hplan. unfold script_plan. cbv zeta.
    match goal with
    | |- (?pre ++ [?a1; ?a2; ?m1; ?m2; ?m3; ?m4; ?b1; ?b2; ?b3; ?b4; ?b5; ?b6])%list = _ =>
        change (pre ++ [a1; a2; m1; m2; m3; m4; b1; b2; b3; b4; b5; b6])%list
          with (pre ++ [a1; a2] ++ [m1; m2; m3; m4] ++ [b1; b2; b3; b4; b5; b6])%list
    end.
    rewrite app_assoc. reflexivity. }
  rewrite !slice_rows.
  split; [reflexivity|]. split; [reflexivity|]. split; [|split].
  - intros row Hm Hf. apply filter_In in Hm. apply filter_In in Hf.
    destruct Hm as [_ Hm], Hf as [_ Hf]. rewrite (Hexcl _ Hm) in Hf. discriminate.
  - apply filter_split2. intros row. apply Hexcl.
  - intros Hall. rewrite filter_split2 by (intros row; apply Hexcl).
    rewrite filter_all; [reflexivity|].
    eapply Forall_impl; [|exact Hall]. intros row [H0 | H1]; apply orb_true_iff.
    + right. now apply Qeq_bool_iff.
    + left. now apply Qeq_bool_iff.
Qed.

Lemma column_index_getitem (df : DataFrame) (name : string) (values : Series) :
  getitem df name = Ok values -> column_index name (columns df) <> None.
Proof.
  intros H. destruct (getitem_column _ _ _ H) as (j & Hj & _). congruence.
Qed.

Lemma script_no_dec (df : DataFrame) (w w1 : World) (u : unit) :
  column_index "dec" (columns df) = None ->
  evaluate_analyze_clustering df "all" w = (w1, Ok u) ->
  snd (script df w) = Raise KeyError /\
  analyses (trace (fst (script df w)))
  = (analyses (trace w) ++ [ ("evaluate_analyze_clustering", "all", df);
                             ("evaluate_analyze_knn", "all", df) ])%list.
Proof.
  intros Hdec E.
  pose proof (evaluate_analyze_clustering_enters _ _ _ _ _ E) as Ha.
  assert (Hrun : script df w
                 = (extend w1 0 [Enter "evaluate_analyze_knn" df "all"], Raise KeyError)).
  { unfold script. rewrite (bind_run _ E).
    unfold bind at 1. now rewrite (evaluate_analyze_knn_no_dec df "all" w1 Hdec). }
  rewrite Hrun. cbn [fst snd]. split; [reflexivity|].
  unfold extend. cbn [trace]. rewrite analyses_app, Ha, <- app_assoc. reflexivity.
Qed.

(** X8.  The script needs the columns [dec], [gender] and [age]: it returns
    only on a table that has the three, and a [KeyError] out of it means
    that one of them is missing.  On a table without [dec] it raises
    [KeyError], or [ValueError] when the clustering of the whole table
    fails first; when that clustering returns, the script enters the
    nearest-neighbour analysis of the whole table and raises [KeyError]
    there. *)
Theorem script_needs_columns :
  forall (preprocessed_data : DataFrame) (w : World),
    (forall (w' : World) (u : unit),
        script preprocessed_data w = (w', Ok u) ->
        column_index "dec" (columns preprocessed_data) <> None /\
        column_index "gender" (columns preprocessed_data) <> None /\
        column_index "age" (columns preprocessed_data) <> None) /\
    (snd (script preprocessed_data w) = Raise KeyError ->
     column_index "dec" (columns preprocessed_data) = None \/
     column_index "gender" (columns preprocessed_data) = None \/
     column_index "age" (columns preprocessed_data) = None) /\
    (column_index "dec" (columns preprocessed_data) = None ->
     (snd (script preprocessed_data w) = Raise KeyError \/
      snd (script preprocessed_data w) = Raise ValueError) /\
     forall (w1 : World) (u : unit),
       evaluate_analyze_clustering preprocessed_data "all" w = (w1, Ok u) ->
       snd (script preprocessed_data w) = Raise KeyError /\
       analyses (trace (fst (script preprocessed_data w)))
       = (analyses (trace w)
          ++ [ ("evaluate_analyze_clustering", "all", preprocessed_data);
               ("evaluate_analyze_knn", "all", preprocessed_data) ])%list).
Proof.
  intros df w. split; [|split].
  - intros w' u H.
    destruct (script_analyses df w w' u H) as (gender & age & Hg & Ha & _).
    split; [|split].
    + intros Hdec. unfold script in H.
      apply bind_ok in H. destruct H as (w1 & u1 & E & H).
      fold (script df) in H.
      destruct (script_no_dec df w w1 u1 Hdec E) as [Hr _].
      unfold script in Hr. rewrite (bind_run _ E), H in Hr. discriminate.
    + exact (column_index_getitem _ _ _ Hg).
    + exact (column_index_getitem _ _ _ Ha).
  - intros H. pose proof (script_outcome df w) as Ho. rewrite H in Ho.
    destruct Ho as [Ho | [_ (name & Hin & Hn)]]; [exfalso; exact (work_exn_key Ho)|].
    destruct Hin as [<- | [<- | [<- | []]]]; auto.
  - intros Hdec. split.
    + destruct (evaluate_analyze_clustering df "all" w) as [w1 [u|e]] eqn:E.
      * left. exact (proj1 (script_no_dec df w w1 u Hdec E)).
      * right. pose proof (evaluate_analyze_clustering_outcome df "all" w) as Ho.
        rewrite E in Ho. cbn [snd] in Ho. subst e.
        unfold script. unfold bind at 1. now rewrite E.
    + intros w1 u E. exact (script_no_dec df w w1 u Hdec E).
Qed.

End ScriptExtras.

(** * Too few rows, and what is printed *)

Section MoreRuns.
Context {SK : Sklearn}.

Local Open Scope harness_scope.

Lemma bind_raise (A B : Type) (m : M A) (f : A -> M B) (w w1 : World) (e : exn) :
  m w = (w1, Raise e) -> bind m f w = (w1, Raise e).
Proof. intros H. unfold bind. now rewrite H. Qed.

Lemma predict_invalid_k (ts : KNN.TrainingSet Q) (q : vector) (k : Z) :
  k <= 0 \/ Z.of_nat (List.length (KNN.features ts)) < k ->
  KNN.predict Qeq_bool (Some ts) q k = Raise InvalidKError.
Proof.
  intros H. unfold KNN.predict.
  replace ((k <=? 0) || (Z.of_nat (List.length (KNN.features ts)) <? k))%bool with true;
    [reflexivity|].
  symmetry. apply orb_true_iff. destruct H as [H|H]; [left; lia | right; lia].
Qed.

(** The first prediction is refused: the comprehension raises after one
    call of [predict]. *)
Lemma predict_rows_invalid_k (knn : KNNClassifier) (ts : KNN.TrainingSet Q)
    (row : vector) (rest : table) (cols : list string) (n_neighbors : Z) (m : nat) (w : World) :
  knn_state knn = Some ts ->
  List.length row = List.length cols ->
  n_neighbors <= 0 \/ Z.of_nat (List.length (KNN.features ts)) < n_neighbors ->
  predict_rows knn (row :: rest) cols n_neighbors (S m) w
  = (extend w 0 [CallKnnPredict (knn_id knn) {| columns := cols; rows := [row] |} n_neighbors],
     Raise InvalidKError).
Proof.
  intros Hs Hrow Hk. unfold predict_rows. cbn [seq comprehension].
  apply bind_raise.
  unfold bind at 1. unfold lift at 1. cbn [nth_error].
  unfold bind at 1. unfold lift at 1.
  rewrite (mk_DataFrame_run [row] cols) by (constructor; [exact Hrow | constructor]).
  rewrite knn_predict_run, Hs. now rewrite (predict_invalid_k ts row n_neighbors Hk).
Qed.


(** The work on a split whose training partition is smaller than the
    neighbour count, or with a neighbour count below one: the first
    prediction raises, whatever was to follow the predictions. *)
Lemma split_work_invalid_k (B : Type) (then_ : Series -> Series -> M B)
    (X : DataFrame) (y : Series) (n_neighbors : Z) (train_index test_index : list nat)
    (w : World) :
  rectangular X ->
  List.length y = shape0 X ->
  splittable X (train_index, test_index) ->
  test_index <> [] ->
  n_neighbors <= 0 \/ Z.of_nat (List.length train_index) < n_neighbors ->
  exists w',
    (X_train <- lift (df_iloc X train_index) ;;
     X_test <- lift (df_iloc X test_index) ;;
     y_train <- lift (iloc y train_index) ;;
     y_test <- lift (iloc y test_index) ;;
     scaler <- StandardScaler_new ;;
     '(scaler, X_train_scaled) <- fit_transform scaler (rows X_train) ;;
     '(scaler, X_test_scaled) <- fit_transform scaler (rows X_test) ;;
     knn <- KNNClassifier_new ;;
     train <- lift (mk_DataFrame X_train_scaled (columns X_train)) ;;
     knn <- knn_fit knn train y_train ;;
     y_pred <- predict_rows knn X_test_scaled (columns X_test) n_neighbors (shape0 X_test) ;;
     then_ y_test y_pred) w
    = (w', Raise InvalidKError).
Proof.
  intros Hrect Hy (Htr & Hte & Hstr & Hste) Hne Hk. simpl in *.
  unfold shape0 in Htr, Hte, Hy.
  destruct (iloc_total _ (rows X) train_index Htr) as [rtr Ertr].
  destruct (iloc_total _ (rows X) test_index Hte) as [rte Erte].
  rewrite <- Hy in Htr, Hte.
  destruct (iloc_total _ y train_index Htr) as [ytr Eytr].
  destruct (iloc_total _ y test_index Hte) as [yte Eyte].
  rewrite <- (iloc_rows_at _ _ _ Ertr) in Hstr.
  rewrite <- (iloc_rows_at _ _ _ Erte) in Hste.
  destruct (iloc_ok _ _ _ _ Ertr) as [Hltr Hintr].
  destruct (iloc_ok _ _ _ _ Erte) as [Hlte Hinte].
  destruct (iloc_ok _ _ _ _ Eytr) as [Hlytr _].
  unfold rectangular in Hrect.
  assert (Hwtr : Forall (fun row => List.length row = List.length (columns X)) rtr).
  { rewrite Forall_forall in Hrect, Hintr |- *. intros row Hr. apply Hrect. now apply Hintr. }
  assert (Hwte : Forall (fun row => List.length row = List.length (columns X)) rte).
  { rewrite Forall_forall in Hrect, Hinte |- *. intros row Hr. apply Hrect. now apply Hinte. }
  pose proof (shape_kept_width _ _ Hstr Hwtr) as Hstrw.
  pose proof (shape_kept_width _ _ Hste Hwte) as Hstew.
  pose proof (Forall2_length_right _ _ _ _ _ Hstr) as Hstrl.
  pose proof (Forall2_length_right _ _ _ _ _ Hste) as Hstel.
  set (ts := {| KNN.features := scaler_transform (scaler_fit rtr) rtr; KNN.labels := ytr |}).
  assert (Hfl : List.length (scaler_transform (scaler_fit rtr) rtr) = List.length ytr)
    by (transitivity (List.length rtr); [exact Hstrl | congruence]).
  assert (HXtr : df_iloc X train_index = Ok {| columns := columns X; rows := rtr |})
    by (unfold df_iloc; now rewrite Ertr).
  assert (HXte : df_iloc X test_index = Ok {| columns := columns X; rows := rte |})
    by (unfold df_iloc; now rewrite Erte).
  rewrite (bind_run _ (lift_run _ _ _ _ HXtr)).
  rewrite (bind_run _ (lift_run _ _ _ _ HXte)).
  rewrite (bind_run _ (lift_run _ _ _ _ Eytr)).
  rewrite (bind_run _ (lift_run _ _ _ _ Eyte)).
  rewrite (bind_run _ (StandardScaler_new_run _)).
  rewrite (bind_run _ (fit_transform_run _ _ _)).
  rewrite (bind_run _ (fit_transform_run _ _ _)).
  rewrite (bind_run _ (KNNClassifier_new_run _)).
  cbn [rows columns].
  rewrite (bind_run _ (lift_run _ _ _ _ (mk_DataFrame_run _ _ Hstrw))).
  assert (Hfit : KNN.fit (KNN.new Q) (scaler_transform (scaler_fit rtr) rtr) ytr
                 = Ok (Some ts)).
  { unfold KNN.fit. apply Nat.eqb_eq in Hfl. now rewrite Hfl. }
  rewrite (bind_run _ (knn_fit_run_ok {| knn_id := _; knn_state := KNN.new Q |}
                                      {| columns := _; rows := _ |} _ _ _ Hfit)).
  cbn [knn_id]. unfold shape0. cbn [rows].
  destruct (scaler_transform (scaler_fit rte) rte) as [|row rest] eqn:Escaled.
  { exfalso. destruct test_index; [now apply Hne|].
    destruct rte; [discriminate Hlte | discriminate Hstel]. }
  destruct rte as [|r0 rte']; [discriminate Hstel|]. cbn [List.length].
  eexists. apply bind_raise.
  apply (predict_rows_invalid_k {| knn_id := _; knn_state := Some ts |} ts).
  - reflexivity.
  - now inversion Hstew.
  - unfold ts. cbn [KNN.features].
    replace (List.length (scaler_transform (scaler_fit rtr) rtr))
      with (List.length train_index); [exact Hk|].
    symmetry. transitivity (List.length rtr); [exact Hstrl | exact Hltr].
Qed.


Local Open Scope string_scope.

(** X12.  A neighbour count that the first training partition cannot
    serve makes the run raise [InvalidKError] at its first prediction.
    For [k_fold_cv_knn]: a count below one, or above the number of training
    rows of the first fold.  For [evaluate_analyze_knn], which asks for 5
    neighbours: fewer than 5 training rows in its holdout split.  (The
    table is rectangular with one label per row, the partitions lie within
    it and keep their shape when scaled, and there is a row to predict.) *)
Theorem too_few_training_rows_raise_invalid_k :
  (forall (X : DataFrame) (y : Series) (n_neighbors : Z) (w : World)
          (fold : list nat * list nat) (folds : list (list nat * list nat)),
      rectangular X ->
      List.length y = shape0 X ->
      cv_folds (shape0 X) = fold :: folds ->
      splittable X fold ->
      snd fold <> [] ->
      n_neighbors <= 0 \/ Z.of_nat (List.length (fst fold)) < n_neighbors ->
      snd (k_fold_cv_knn X y n_neighbors w) = Raise InvalidKError) /\
  (forall (data : DataFrame) (label : string) (X : DataFrame) (y : Series) (w : World),
      drop data "dec" = Ok X ->
      getitem data "dec" = Ok y ->
      rectangular X ->
      List.length y = shape0 X ->
      splittable X (holdout_split (shape0 X)) ->
      snd (holdout_split (shape0 X)) <> [] ->
      (List.length (fst (holdout_split (shape0 X))) < 5)%nat ->
      snd (evaluate_analyze_knn data label w) = Raise InvalidKError).
Proof.
  split.
  - intros X y n w [train_index test_index] folds Hrect Hy Hfolds Hsplit Hne Hk.
    unfold k_fold_cv_knn.
    rewrite (bind_run _ (emit_run _ _)).
    rewrite (bind_run _ (seeded_run _ _ _ _)).
    fold (cv_folds (shape0 X)). rewrite Hfolds. cbn [for_each].
    match goal with
    | |- snd (bind (bind (cv_fold _ _ _ _ ?acc) ?f) ?g ?w0) = _ =>
        destruct (split_work_invalid_k _ (fun y_test y_pred =>
                     emit (CallAccuracyScore y_test y_pred) ;;
                     ret (acc ++ [accuracy_score y_test y_pred])%list)
                    X y n train_index test_index w0 Hrect Hy Hsplit Hne Hk) as [w' Hrun];
        change (cv_fold X y n (train_index, test_index) acc w0 = (w', Raise InvalidKError))
          in Hrun;
        rewrite (bind_raise _ _ _ g _ _ _ (bind_raise _ _ _ f _ _ _ Hrun))
    end.
    reflexivity.
  - intros data label X y w HX Hy Hrect Hlen Hsplit Hne Hk.
    unfold evaluate_analyze_knn.
    rewrite (bind_run _ (emit_run _ _)).
    rewrite (bind_run _ (lift_run _ _ _ _ HX)).
    rewrite (bind_run _ (lift_run _ _ _ _ Hy)). cbv zeta.
    rewrite (bind_run _ (emit_run _ _)).
    rewrite (bind_run _ (seeded_run _ _ _ _)).
    fold (holdout_split (shape0 X)).
    destruct (holdout_split (shape0 X)) as [train_index test_index] eqn:Esplit.
    cbn [fst snd] in Hne, Hk.
    match goal with
    | |- snd (?m ?w0) = _ =>
        destruct (split_work_invalid_k _ (fun y_test y_pred =>
                     accuracy <- k_fold_cv_knn X y 5 ;;
                     emit (Print ("Average accuracy of " ++ label
                                  ++ " data using 10-Fold cross validation: ")
                                 (PNumber accuracy)) ;;
                     '(matrix, report) <- confusion_matrix_knn y_test y_pred ;;
                     emit (Print ("Confusion Matrix of " ++ label ++ " data:")
                                 (PMatrix matrix)) ;;
                     emit (Print ("Classification report of " ++ label ++ " data:")
                                 (PText report)) ;;
                     visualize_roc_curve_knn y_test y_pred label ;;
                     emit (CallRocAucScore y_test y_pred) ;;
                     emit (Print ("AUC score of " ++ label ++ " data: ")
                                 (PNumber (roc_auc_score y_test y_pred))))
                    X y 5 train_index test_index w0 Hrect Hlen Hsplit Hne
                    ltac:(right; lia)) as [w' Hrun]
    end.
    cbv beta iota in Hrun |- *. rewrite Hrun. reflexivity.
Qed.


Lemma printed_app (evs evs' : list Event) :
  printed (evs ++ evs')%list = (printed evs ++ printed evs')%list.
Proof. unfold printed. apply flat_map_app. Qed.

Lemma printed_predict_events (kid : nat) (cols : list string) (n_neighbors : Z) (qs : table) :
  printed (predict_events kid cols n_neighbors qs) = [].
Proof. induction qs as [|q qs IH]; [reflexivity | exact IH]. Qed.

Lemma printed_holdout_events (id : nat) (n_neighbors : Z) (h : Holdout) :
  printed (holdout_events id n_neighbors h) = [].
Proof.
  unfold holdout_events. rewrite printed_app, printed_predict_events. reflexivity.
Qed.

Lemma printed_cv_events (n_neighbors : Z) (hs : list Holdout) :
  forall id : nat, printed (cv_events id n_neighbors hs) = [].
Proof.
  induction hs as [|h hs IH]; intros id; [reflexivity|].
  cbn [cv_events]. unfold fold_events.
  rewrite !printed_app, printed_holdout_events, IH. reflexivity.
Qed.

(** X13.  When [evaluate_analyze_knn] returns it has printed four values,
    in this order: the mean of the accuracy scores of the folds of the
    cross-validation of the features and the column [dec]; then the
    confusion matrix, the classification report and the AUC of the
    predictions for the test rows of the holdout split, each computed
    against the test labels of that split.  The holdout predictions play
    no part in the accuracy printed. *)
Theorem evaluate_analyze_knn_prints :
  forall (data : DataFrame) (label : string) (w w' : World) (u : unit),
    evaluate_analyze_knn data label w = (w', Ok u) ->
    exists (X : DataFrame) (y : Series) (h : Holdout) (hs : list Holdout) (accuracy : Q),
      drop data "dec" = Ok X /\
      getitem data "dec" = Ok y /\
      holdout_of X y 5 (holdout_split (shape0 X)) h /\
      Forall2 (holdout_of X y 5) (cv_folds (shape0 X)) hs /\
      hs <> [] /\
      accuracy = (Qsum (map (fun f => accuracy_score (h_y_test f) (h_y_pred f)) hs)
                  / inject_Z (Z.of_nat (List.length hs)))%Q /\
      printed (trace w')
      = (printed (trace w)
         ++ [ PNumber accuracy;
              PMatrix (confusion_matrix (h_y_test h) (h_y_pred h));
              PText (classification_report (h_y_test h) (h_y_pred h));
              PNumber (roc_auc_score (h_y_test h) (h_y_pred h)) ])%list.
Proof.
  intros data label w w' u H.
  destruct (evaluate_analyze_knn_ok _ _ _ _ _ H)
    as (X & y & h & hs & accuracy & HX & Hy & Hh & Hhs & Hmean & ->).
  exists X, y, h, hs, accuracy.
  split; [exact HX|]. split; [exact Hy|]. split; [exact Hh|]. split; [exact Hhs|].
  split; [intros ->; discriminate Hmean|].
  split.
  { unfold mean in Hmean. destruct hs as [|h0 hs0]; [discriminate|].
    inversion Hmean. rewrite length_map. reflexivity. }
  unfold extend. cbn [trace].
  change (CallKFold 10 true (Some 42) (shape0 X)
          :: cv_events (next_id w + 2) 5 hs ++ report_events label accuracy h)%list
    with ([CallKFold 10 true (Some 42) (shape0 X)]
          ++ cv_events (next_id w + 2) 5 hs ++ report_events label accuracy h)%list.
  rewrite !printed_app, printed_holdout_events, printed_cv_events. reflexivity.
Qed.

End MoreRuns.

(** * The columns read from the file *)

Section BoolColumns.

Local Open Scope string_scope.

Lemma b2z_if (values : list bool) :
  map Z.b2z values = map (fun b : bool => if b then 1 else 0) values.
Proof. apply map_ext. intros []; reflexivity. Qed.

Lemma filter_label_none (frame : CsvFrame) (col : string) :
  ~ In col (map fst frame) -> filter (fun p => String.eqb (fst p) col) frame = [].
Proof.
  induction frame as [|p frame IH]; simpl; [reflexivity|]. intros H.
  destruct (String.eqb_spec (fst p) col) as [E|E]; [tauto|]. apply IH. tauto.
Qed.

Lemma frame_getitem_unique (frame : CsvFrame) (col : string) (c : Column) :
  NoDup (map fst frame) -> In (col, c) frame ->
  frame_getitem frame col = inl (OneSeries c).
Proof.
  unfold frame_getitem. induction frame as [|p frame IH]; simpl; [tauto|].
  intros Hnd Hin. inversion Hnd as [|? ? Hp Hnd']; subst.
  destruct (String.eqb_spec (fst p) col) as [E|E].
  - rewrite <- E in *. rewrite (filter_label_none frame (fst p) Hp).
    destruct Hin as [-> | Hin]; [reflexivity|].
    exfalso. apply Hp. apply in_map_iff. now exists (fst p, c).
  - destruct Hin as [-> | Hin]; [now simpl in E|]. now apply IH.
Qed.

Lemma frame_setitem_labels (frame : CsvFrame) (col : string) (c : Column) :
  In col (map fst frame) -> map fst (frame_setitem frame col c) = map fst frame.
Proof.
  intros Hin. unfold frame_setitem.
  replace (existsb (fun p => String.eqb (fst p) col) frame) with true.
  - rewrite map_map. apply map_ext. intros p. now destruct (String.eqb (fst p) col).
  - symmetry. apply existsb_exists. apply in_map_iff in Hin.
    destruct Hin as (p & Hp & Hin). exists p. split; [exact Hin|].
    rewrite Hp. apply String.eqb_refl.
Qed.

Lemma frame_setitem_present (frame : CsvFrame) (col : string) (c : Column) :
  In col (map fst frame) ->
  frame_setitem frame col c
  = map (fun p => if String.eqb (fst p) col then (fst p, c) else p) frame.
Proof.
  intros Hin. unfold frame_setitem.
  replace (existsb (fun p => String.eqb (fst p) col) frame) with true; [reflexivity|].
  symmetry. apply existsb_exists. apply in_map_iff in Hin.
  destruct Hin as (p & Hp & Hin). exists p. split; [exact Hin|].
  rewrite Hp. apply String.eqb_refl.
Qed.

(** The loop over the labels [cols], none twice, of a table whose labels
    are all different: the columns it names are converted, the others
    stay. *)
Lemma convert_bool_columns_run (cols : list string) :
  forall frame : CsvFrame,
    NoDup cols -> NoDup (map fst frame) -> incl cols (map fst frame) ->
    convert_bool_columns cols frame
    = inl (map (fun p => if existsb (String.eqb (fst p)) cols
                         then (fst p, as_number (snd p)) else p) frame).
Proof.
  induction cols as [|col cols IH]; intros frame Hcols Hnd Hincl; simpl.
  - f_equal. symmetry. rewrite <- (map_id frame) at 2. apply map_ext. now intros [l c].
  - inversion Hcols as [|? ? Hcol Hcols']; subst.
    assert (Hin : In col (map fst frame)) by (apply Hincl; now left).
    assert (Hincl' : incl cols (map fst frame)) by (intros x Hx; apply Hincl; now right).
    destruct (proj1 (in_map_iff _ _ _) Hin) as ([l c] & Hl & Hp). simpl in Hl. subst l.
    rewrite (frame_getitem_unique frame col c Hnd Hp).
    assert (Hfresh : existsb (String.eqb col) cols = false).
    { destruct (existsb (String.eqb col) cols) eqn:E; [|reflexivity].
      apply existsb_exists in E. destruct E as (x & Hx & E).
      apply String.eqb_eq in E. subst x. contradiction. }
    assert (Hsame : forall p, In p frame -> fst p = col -> p = (col, c)).
    { intros [l c'] Hin' Hl. simpl in Hl. subst l. f_equal.
      pose proof (frame_getitem_unique frame col c' Hnd Hin') as H1.
      rewrite (frame_getitem_unique frame col c Hnd Hp) in H1. now inversion H1. }
    assert (Hrest : convert_bool_columns cols frame
                    = inl (map (fun p => if existsb (String.eqb (fst p)) cols
                                         then (fst p, as_number (snd p)) else p) frame))
      by (apply IH; assumption).
    destruct c as [values| | |];
      try (rewrite Hrest; f_equal; apply map_ext_in; intros p Hin';
           destruct (String.eqb_spec (fst p) col) as [E|E];
           [ rewrite (Hsame p Hin' E); cbn [fst snd existsb];
             rewrite ?String.eqb_refl, Hfresh; reflexivity
           | reflexivity ]).
    rewrite IH.
    + rewrite (frame_setitem_present _ _ _ Hin), map_map. f_equal.
      apply map_ext_in. intros p Hin'.
      destruct (String.eqb_spec (fst p) col) as [E|E].
      * rewrite (Hsame p Hin' E). cbn [fst snd existsb].
        rewrite ?String.eqb_refl, Hfresh. cbn [orb]. unfold astype_int, as_number.
        now rewrite b2z_if.
      * reflexivity.
    + exact Hcols'.
    + now rewrite (frame_setitem_labels _ _ _ Hin).
    + now rewrite (frame_setitem_labels _ _ _ Hin).
Qed.


Lemma filter_label_count (frame : CsvFrame) (col : string) :
  List.length (filter (fun p => String.eqb (fst p) col) frame)
  = count_occ string_dec (map fst frame) col.
Proof.
  induction frame as [|p frame IH]; simpl; [reflexivity|].
  destruct (String.eqb_spec (fst p) col) as [E|E], (string_dec (fst p) col) as [E'|E'];
    try contradiction; simpl; now rewrite IH.
Qed.

(** The loop over labels of the table, one of which several columns bear. *)
Lemma convert_bool_columns_dup (cols : list string) :
  forall frame : CsvFrame,
    incl cols (map fst frame) ->
    (exists col, In col cols /\ (1 < count_occ string_dec (map fst frame) col)%nat) ->
    convert_bool_columns cols frame = inr FrameAttributeError.
Proof.
  induction cols as [|col cols IH]; intros frame Hincl (dup & Hdup & Hcount); simpl.
  - destruct Hdup.
  - assert (Hin : In col (map fst frame)) by (apply Hincl; now left).
    assert (Hincl' : incl cols (map fst frame)) by (intros x Hx; apply Hincl; now right).
    pose proof (filter_label_count frame col) as Hlen.
    unfold frame_getitem.
    destruct (filter (fun p => String.eqb (fst p) col) frame) as [|p [|p' ps]] eqn:E.
    + exfalso. simpl in Hlen. symmetry in Hlen.
      apply (proj2 (count_occ_not_In string_dec _ _)) in Hlen. contradiction.
    + assert (Hrest : exists col', In col' cols /\
                                   (1 < count_occ string_dec (map fst frame) col')%nat).
      { exists dup. split; [|exact Hcount].
        destruct Hdup as [<- | Hdup]; [|exact Hdup]. simpl in Hlen. lia. }
      destruct (snd p) as [values| | |]; try (now apply IH).
      apply IH.
      * now rewrite (frame_setitem_labels _ _ _ Hin).
      * now rewrite (frame_setitem_labels _ _ _ Hin).
    + reflexivity.
Qed.

Lemma repeated_label (labels : list string) :
  ~ NoDup labels -> exists l, In l labels /\ (1 < count_occ string_dec labels l)%nat.
Proof.
  induction labels as [|a labels IH]; intros H.
  - exfalso. apply H. constructor.
  - destruct (in_dec string_dec a labels) as [Hin|Hin].
    + exists a. split; [now left|]. simpl.
      destruct (string_dec a a) as [_|]; [|contradiction].
      apply (proj1 (count_occ_In string_dec _ _)) in Hin. lia.
    + destruct IH as (l & Hl & Hc).
      { intros Hnd. apply H. now constructor. }
      exists l. split; [now right|]. simpl.
      destruct (string_dec a l); lia.
Qed.

(** X10.  On a table whose labels are all different the lines after
    [read_csv] succeed, and leave the table with the same labels in the
    same order: every boolean column has become an integer column with 1
    for [True] and 0 for [False], and every other column is as it was.  No
    boolean column is left, and running the lines again changes nothing.
    On a table with a repeated label they raise [AttributeError]. *)
Theorem bool_columns_become_numbers :
  forall preprocessed_data : CsvFrame,
    (NoDup (map fst preprocessed_data) ->
     bool_columns_to_int preprocessed_data
     = inl (map (fun p => (fst p, as_number (snd p))) preprocessed_data) /\
     Forall (fun p => is_bool (snd p) = false)
            (map (fun p => (fst p, as_number (snd p))) preprocessed_data) /\
     bool_columns_to_int (map (fun p => (fst p, as_number (snd p))) preprocessed_data)
     = inl (map (fun p => (fst p, as_number (snd p))) preprocessed_data)) /\
    (~ NoDup (map fst preprocessed_data) ->
     bool_columns_to_int preprocessed_data = inr FrameAttributeError).
Proof.
  intros frame.
  assert (Hrun : forall f : CsvFrame,
             NoDup (map fst f) ->
             bool_columns_to_int f = inl (map (fun p => (fst p, as_number (snd p))) f)).
  { intros f Hnd. unfold bool_columns_to_int.
    rewrite convert_bool_columns_run; [|exact Hnd|exact Hnd|apply incl_refl].
    f_equal. apply map_ext_in. intros p Hp.
    replace (existsb (String.eqb (fst p)) (map fst f)) with true; [reflexivity|].
    symmetry. apply existsb_exists. exists (fst p). split; [now apply in_map|].
    apply String.eqb_refl. }
  split.
  - intros Hnd. split; [now apply Hrun|]. split.
    + rewrite Forall_forall. intros p Hp. apply in_map_iff in Hp.
      destruct Hp as ([l c] & <- & _). now destruct c.
    + rewrite Hrun.
      * f_equal. rewrite map_map. apply map_ext. intros [l c]. now destruct c.
      * rewrite map_map. cbn [fst]. exact Hnd.
  - intros Hdup. unfold bool_columns_to_int. apply convert_bool_columns_dup.
    + apply incl_refl.
    + now apply repeated_label.
Qed.

End BoolColumns.

(** * The ROC figure *)

Section RocFigureFacts.

Context {SK : Sklearn}.

Local Open Scope string_scope.


End RocFigureFacts.

(** * The further theorems on examples *)

Local Open Scope string_scope.

Lemma silhouette_bands_layout_witness :
  List.length (first_cells four_samples (@kmeans_labels Demo.sklearn two_clusters))
  = List.length four_samples /\
  List.length [1; 0; 1; 0]%nat = List.length four_samples /\
  map fst (bands (fst (@set_silhouette_subplot_axes Demo.sklearn first_cells two_clusters
                         four_samples 2 [1; 0; 1; 0]%nat (11 # 40))))
  = [[10; 11]; [22; 23]]%nat.
Proof.
  split; [reflexivity|]. split; [reflexivity|].
  destruct (@silhouette_bands_layout Demo.sklearn first_cells two_clusters four_samples 2
              [1; 0; 1; 0]%nat (11 # 40) eq_refl eq_refl) as (_ & _ & H & _).
  exact H.
Defined.

Lemma silhouette_bands_hold_clusters_witness :
  List.length [1; 0; 1; 0]%nat
  = List.length (first_cells four_samples (@kmeans_labels Demo.sklearn two_clusters)) /\
  Permutation
    (List.concat (map snd (bands (fst (@set_silhouette_subplot_axes Demo.sklearn first_cells
                                         two_clusters four_samples 2 [1; 0; 1; 0]%nat
                                         (11 # 40))))))
    [1 # 2; - (1 # 4); 3 # 4; 1 # 10]%Q.
Proof.
  split; [reflexivity|].
  exact (proj2 (@silhouette_bands_hold_clusters Demo.sklearn first_cells two_clusters
                  four_samples 2 [1; 0; 1; 0]%nat (11 # 40) eq_refl)).
Defined.

Lemma target_never_among_features_witness :
  drop Demo.people "dec" = Ok Demo.people_X /\
  getitem Demo.people "dec" = Ok Demo.people_y /\
  columns Demo.people_X = ["gender"; "age"; "attr"] /\
  ~ In "dec" (columns Demo.people_X).
Proof.
  assert (HX : drop Demo.people "dec" = Ok Demo.people_X) by reflexivity.
  assert (Hy : getitem Demo.people "dec" = Ok Demo.people_y) by reflexivity.
  split; [exact HX|]. split; [exact Hy|].
  destruct (proj2 (@target_never_among_features Demo.sklearn) Demo.people "all"
              Demo.people_X Demo.people_y HX Hy) as (Hcols & Hdec & _).
  split; [exact Hcols | exact Hdec].
Defined.

Lemma age_groups_split_rows_from_twenty_witness :
  snd (@script Demo.sklearn Demo.people Demo.world0) = Ok tt /\
  exists (j : nat) (data_20_to_24 data_25_to_29 data_over_30 : DataFrame),
    column_index "age" (columns Demo.people) = Some j /\
    Permutation (rows data_20_to_24 ++ rows data_25_to_29 ++ rows data_over_30)
                (filter (fun row => Qle_bool 20 (nth j row 0%Q)) (rows Demo.people)).
Proof.
  assert (Hs : snd (@script Demo.sklearn Demo.people Demo.world0) = Ok tt)
    by (vm_compute; reflexivity).
  split; [exact Hs|].
  destruct (@script Demo.sklearn Demo.people Demo.world0) as [w' r] eqn:E.
  cbn [fst snd] in *. subst r.
  destruct (@age_groups_split_rows_from_twenty Demo.sklearn _ _ _ _ E)
    as (j & before & d1 & d2 & d3 & Hj & _ & _ & _ & _ & Hperm).
  exists j, d1, d2, d3. split; [exact Hj | exact Hperm].
Defined.

Lemma gender_groups_split_zeros_and_ones_witness :
  snd (@script Demo.sklearn Demo.people Demo.world0) = Ok tt /\
  exists (j : nat) (male_data female_data : DataFrame),
    column_index "gender" (columns Demo.people) = Some j /\
    (forall row, In row (rows male_data) -> ~ In row (rows female_data)) /\
    (Forall (fun row => (nth j row 0%Q == 0)%Q \/ (nth j row 0%Q == 1)%Q) (rows Demo.people) ->
     Permutation (rows male_data ++ rows female_data) (rows Demo.people)).
Proof.
  assert (Hs : snd (@script Demo.sklearn Demo.people Demo.world0) = Ok tt)
    by (vm_compute; reflexivity).
  split; [exact Hs|].
  destruct (@script Demo.sklearn Demo.people Demo.world0) as [w' r] eqn:E.
  cbn [fst snd] in *. subst r.
  destruct (@gender_groups_split_zeros_and_ones Demo.sklearn _ _ _ _ E)
    as (j & before & after & male & female & Hj & _ & _ & _ & Hdisj & _ & Hall).
  exists j, male, female. split; [exact Hj|]. split; [exact Hdisj | exact Hall].
Defined.

Lemma bool_columns_become_numbers_witness :
  NoDup (map fst typed_people) /\
  bool_columns_to_int typed_people
  = inl [ ("gender", IntColumn [1; 0; 1]);
          ("age", IntColumn [20; 20; 21]);
          ("attr", FloatColumn [3; 0; 7 # 2]%Q);
          ("field", ObjectColumn ["law"; "art"; "law"]);
          ("dec", IntColumn [0; 0; 1]) ].
Proof.
  assert (Hnd : NoDup (map fst typed_people)).
  { repeat constructor; simpl; intuition discriminate. }
  split; [exact Hnd|].
  exact (proj1 (proj1 (bool_columns_become_numbers typed_people) Hnd)).
Defined.

Lemma too_few_training_rows_raise_invalid_k_witness :
  rectangular four_people_X /\
  List.length four_people_y = shape0 four_people_X /\
  @cv_folds Demo.sklearn (shape0 four_people_X)
  = ([1; 2; 3]%nat, [0]%nat) :: tl (@cv_folds Demo.sklearn (shape0 four_people_X)) /\
  @splittable Demo.sklearn four_people_X ([1; 2; 3]%nat, [0]%nat) /\
  snd (@k_fold_cv_knn Demo.sklearn four_people_X four_people_y 5 Demo.world0)
  = Raise InvalidKError.
Proof.
  assert (H1 : rectangular four_people_X) by (vm_compute; repeat constructor).
  assert (H2 : List.length four_people_y = shape0 four_people_X) by reflexivity.
  assert (H3 : @cv_folds Demo.sklearn (shape0 four_people_X)
               = ([1; 2; 3]%nat, [0]%nat)
                 :: tl (@cv_folds Demo.sklearn (shape0 four_people_X))) by reflexivity.
  assert (H4 : @splittable Demo.sklearn four_people_X ([1; 2; 3]%nat, [0]%nat)).
  { unfold splittable. cbn [fst snd].
    split; [vm_compute; repeat constructor|].
    split; [vm_compute; repeat constructor|].
    split; vm_compute; repeat constructor. }
  split; [exact H1|]. split; [exact H2|]. split; [exact H3|]. split; [exact H4|].
  apply (proj1 (@too_few_training_rows_raise_invalid_k Demo.sklearn)
               four_people_X four_people_y 5 Demo.world0 _ _ H1 H2 H3 H4).
  - discriminate.
  - right. vm_compute. reflexivity.
Defined.

Lemma evaluate_analyze_knn_prints_witness :
  snd (@evaluate_analyze_knn Demo.sklearn Demo.people "all" Demo.world0) = Ok tt /\
  exists (h : Holdout) (accuracy : Q),
    printed
      (trace (fst (@evaluate_analyze_knn Demo.sklearn Demo.people "all" Demo.world0)))
    = [ PNumber accuracy;
        PMatrix (@confusion_matrix Demo.sklearn (h_y_test h) (h_y_pred h));
        PText (@classification_report Demo.sklearn (h_y_test h) (h_y_pred h));
        PNumber (@roc_auc_score Demo.sklearn (h_y_test h) (h_y_pred h)) ].
Proof.
  assert (Hs : snd (@evaluate_analyze_knn Demo.sklearn Demo.people "all" Demo.world0)
               = Ok tt) by (vm_compute; reflexivity).
  split; [exact Hs|].
  destruct (@evaluate_analyze_knn Demo.sklearn Demo.people "all" Demo.world0)
    as [w' r] eqn:E.
  cbn [fst snd] in *. subst r.
  destruct (@evaluate_analyze_knn_prints Demo.sklearn _ _ _ _ _ E)
    as (X & y & h & hs & accuracy & _ & _ & _ & _ & _ & _ & Hp).
  exists h, accuracy. exact Hp.
Defined.

Local Close Scope string_scope.
